(** * Collectors of the Proxmox VE exporter: a shallow embedding

    The embedded source is [src/pve_exporter/collector.py].  Every collector
    reads decoded JSON records from the API client and appends samples to
    gauge families.  Records are Python dictionaries, kept here as
    insertion-ordered association lists; a [str] is the string of its UTF-8
    bytes; exceptions are an error monad; the two collectors that wrap
    their per-node work in [try ... except ResourceException] run in a
    state-and-error monad whose state holds the objects the loop mutates,
    the log and the trace of API requests. *)

From Stdlib Require Import String Ascii NArith ZArith List Bool Lia DecimalString.
Import ListNotations.
Open Scope string_scope.
Open Scope list_scope.

(** ** Python values and exceptions *)

(** Scalars of a decoded JSON record.  Floating-point fields (the [cpu]
    ratio) are left out: no collector computes with them. *)
Inductive pyval : Type :=
| PNone
| PBool (b : bool)
| PInt (z : Z)
| PStr (s : string).

Inductive exn : Type :=
| ResourceException (status_code : Z)
| KeyError (key : string)
| ValueError (msg : string)
| TypeError (msg : string)
| AttributeError (attr : string).

Inductive result (A : Type) : Type :=
| Ok (a : A)
| Raise (e : exn).
Arguments Ok {A} a.
Arguments Raise {A} e.

Definition rbind {A B : Type} (r : result A) (k : A -> result B) : result B :=
  match r with
  | Ok a => k a
  | Raise e => Raise e
  end.

Declare Scope result_scope.
Delimit Scope result_scope with result.
Notation "x <- c ;; k" := (rbind c (fun x => k))
  (at level 61, c at next level, right associativity) : result_scope.

(** [for x in xs: acc = body(x, acc)] with exceptions leaving the loop. *)
Fixpoint rfold {A B : Type} (body : A -> B -> result B) (xs : list A) (acc : B)
  : result B :=
  match xs with
  | [] => Ok acc
  | x :: rest => rbind (body x acc) (rfold body rest)
  end.

(** [[f(x) for x in xs]]. *)
Fixpoint rmap {A B : Type} (f : A -> result B) (xs : list A) : result (list B) :=
  match xs with
  | [] => Ok []
  | x :: rest => rbind (f x) (fun y => rbind (rmap f rest) (fun ys => Ok (y :: ys)))
  end.

(** [bool(v)]. *)
Definition py_truthy (v : pyval) : bool :=
  match v with
  | PNone => false
  | PBool b => b
  | PInt z => negb (Z.eqb z 0)
  | PStr s => negb (String.eqb s "")
  end.

(** [a == b]: [bool] is a subclass of [int], so [True == 1]. *)
Definition py_eq (a b : pyval) : bool :=
  match a, b with
  | PNone, PNone => true
  | PBool x, PBool y => Bool.eqb x y
  | PInt x, PInt y => Z.eqb x y
  | PBool x, PInt y => Z.eqb (Z.b2z x) y
  | PInt x, PBool y => Z.eqb x (Z.b2z y)
  | PStr x, PStr y => String.eqb x y
  | _, _ => false
  end.

(** [str(v)], also what an f-string field without format spec yields. *)
Definition py_str (v : pyval) : string :=
  match v with
  | PNone => "None"
  | PBool true => "True"
  | PBool false => "False"
  | PInt z => NilZero.string_of_int (Z.to_int z)
  | PStr s => s
  end.

(** ['{:s}'.format(v)]: only [str] accepts the [s] format code. *)
Definition py_format_s (v : pyval) : result string :=
  match v with
  | PStr s => Ok s
  | PNone => Raise (TypeError "unsupported format string passed to NoneType.__format__")
  | PBool _ => Raise (ValueError "Unknown format code 's' for object of type 'bool'")
  | PInt _ => Raise (ValueError "Unknown format code 's' for object of type 'int'")
  end.

(** Numeric reading of a sample value, as the exposition renders it. *)
Definition py_num (v : pyval) : option Z :=
  match v with
  | PBool b => Some (Z.b2z b)
  | PInt z => Some z
  | _ => None
  end.

(** ** Dictionaries with string keys, in insertion order *)

Definition dict : Type := list (string * pyval).

Fixpoint dict_get (k : string) (d : dict) : option pyval :=
  match d with
  | [] => None
  | (k', v) :: rest => if String.eqb k k' then Some v else dict_get k rest
  end.

(** [k in d]. *)
Definition dict_contains (k : string) (d : dict) : bool :=
  match dict_get k d with
  | Some _ => true
  | None => false
  end.

(** [d[k]]. *)
Definition getitem (d : dict) (k : string) : result pyval :=
  match dict_get k d with
  | Some v => Ok v
  | None => Raise (KeyError k)
  end.

(** [d.get(k, default)]. *)
Definition dict_get_default (d : dict) (k : string) (default : pyval) : pyval :=
  match dict_get k d with
  | Some v => v
  | None => default
  end.

(** [d[k] = v]: an existing key keeps its position, a new one goes last. *)
Fixpoint dict_set (k : string) (v : pyval) (d : dict) : dict :=
  match d with
  | [] => [(k, v)]
  | (k', v') :: rest =>
      if String.eqb k k' then (k, v) :: rest else (k', v') :: dict_set k v rest
  end.

(** [del d[k]]. *)
Fixpoint dict_remove (k : string) (d : dict) : dict :=
  match d with
  | [] => []
  | (k', v') :: rest =>
      if String.eqb k k' then rest else (k', v') :: dict_remove k rest
  end.

Definition dict_del (d : dict) (k : string) : result dict :=
  if dict_contains k d then Ok (dict_remove k d) else Raise (KeyError k).

(** [dict(pairs)]. *)
Definition dict_of_items (items : list (string * pyval)) : dict :=
  fold_left (fun acc kv => dict_set (fst kv) (snd kv) acc) items [].

(** [a | b]. *)
Definition dict_union (a b : dict) : dict :=
  fold_left (fun acc kv => dict_set (fst kv) (snd kv) acc) b a.

Definition dict_keys (d : dict) : list string := map fst d.
Definition dict_values (d : dict) : list pyval := map snd d.

(** A Python [set] of scalars: membership is by [==]. *)
Definition pyset : Type := list pyval.

Definition set_contains (v : pyval) (s : pyset) : bool := existsb (py_eq v) s.

Definition set_add (v : pyval) (s : pyset) : pyset :=
  if set_contains v s then s else s ++ [v].

(** ** Samples and gauge families (prometheus_client) *)

Record Exemplar : Type := {
  ex_labels : dict;
  ex_value : pyval;
  ex_timestamp : option pyval
}.

Record Sample : Type := {
  s_name : string;
  s_labels : dict;
  s_value : pyval;
  s_timestamp : option pyval;
  s_exemplar : option Exemplar
}.

Record Metric : Type := {
  m_name : string;
  m_documentation : string;
  m_type : string;
  m_labelnames : list string;
  m_samples : list Sample
}.

Definition GaugeMetricFamily (name documentation : string) (labels : list string)
  : Metric :=
  {| m_name := name;
     m_documentation := documentation;
     m_type := "gauge";
     m_labelnames := labels;
     m_samples := [] |}.

Definition set_samples (m : Metric) (samples : list Sample) : Metric :=
  {| m_name := m_name m;
     m_documentation := m_documentation m;
     m_type := m_type m;
     m_labelnames := m_labelnames m;
     m_samples := samples |}.

Definition set_name (m : Metric) (name : string) : Metric :=
  {| m_name := name;
     m_documentation := m_documentation m;
     m_type := m_type m;
     m_labelnames := m_labelnames m;
     m_samples := m_samples m |}.

(** [Sample(self.name, dict(zip(self._labelnames, labels)), value, timestamp)]:
    [zip] stops at the shorter of the two sequences. *)
Definition mk_sample (m : Metric) (labels : list pyval) (value : pyval) : Sample :=
  {| s_name := m_name m;
     s_labels := dict_of_items (combine (m_labelnames m) labels);
     s_value := value;
     s_timestamp := None;
     s_exemplar := None |}.

Definition add_metric (m : Metric) (labels : list pyval) (value : pyval) : Metric :=
  set_samples m (m_samples m ++ [mk_sample m labels value]).

(** ** The API client (proxmoxer) and collector instances *)

(** One field per resource the collectors read.  A call returns the decoded
    records or raises; within one scrape the answer depends on the request
    only. *)
Record ProxmoxAPI : Type := {
  cluster_status_get : result (list dict);
  cluster_resources_get : option string -> result (list dict);
  cluster_options_get : result dict;
  version_get : result dict;
  nodes_get : result (list dict);
  nodes_qemu_get : pyval -> result (list dict);
  nodes_qemu_config_get : pyval -> pyval -> result dict;
  nodes_lxc_get : pyval -> result (list dict);
  nodes_lxc_config_get : pyval -> pyval -> result dict;
  nodes_storage_get : pyval -> result (list dict);
  nodes_storage_content_get : pyval -> pyval -> result (list dict)
}.

Inductive request : Type :=
| GET_nodes
| GET_nodes_qemu (node : pyval)
| GET_nodes_qemu_config (node vmid : pyval)
| GET_nodes_lxc (node : pyval)
| GET_nodes_lxc_config (node vmid : pyval)
| GET_nodes_storage (node : pyval)
| GET_nodes_storage_content (node storage : pyval).

(** Instance attributes, as [__init__] stores them. *)
Inductive attribute : Type :=
| AttrAPI (pve : ProxmoxAPI)
| AttrLogger (name : string).

Definition instance : Type := list (string * attribute).

Fixpoint getattr (self : instance) (name : string) : result attribute :=
  match self with
  | [] => Raise (AttributeError name)
  | (n, a) :: rest => if String.eqb name n then Ok a else getattr rest name
  end.

(** [self._pve]. *)
Definition self_pve (self : instance) : result ProxmoxAPI :=
  match getattr self "_pve" with
  | Ok (AttrAPI pve) => Ok pve
  | Ok (AttrLogger _) => Raise (AttributeError "cluster")
  | Raise e => Raise e
  end.

(** [self._log]. *)
Definition self_log (self : instance) : result string :=
  match getattr self "_log" with
  | Ok (AttrLogger name) => Ok name
  | Ok (AttrAPI _) => Raise (AttributeError "exception")
  | Raise e => Raise e
  end.

(** [logging.getLogger(__name__)] in module [pve_exporter.collector]. *)
Definition module_logger : attribute := AttrLogger "pve_exporter.collector".

(** ** State and errors for the collectors with [try ... except] *)

Record log_record : Type := {
  lr_logger : string;
  lr_message : string;
  lr_exc_info : exn
}.

Record state (L : Type) : Type := {
  locals : L;
  log : list log_record;
  calls : list request
}.
Arguments locals {L} s.
Arguments log {L} s.
Arguments calls {L} s.

Definition M (L A : Type) : Type := state L -> result A * state L.

Definition ret {L A : Type} (a : A) : M L A := fun s => (Ok a, s).

Definition bind {L A B : Type} (c : M L A) (k : A -> M L B) : M L B :=
  fun s =>
    match c s with
    | (Ok a, s') => k a s'
    | (Raise e, s') => (Raise e, s')
    end.

Definition lift {L A : Type} (r : result A) : M L A := fun s => (r, s).

Definition get_locals {L : Type} : M L L := fun s => (Ok (locals s), s).

Definition put_locals {L : Type} (l : L) : M L unit :=
  fun s => (Ok tt, {| locals := l; log := log s; calls := calls s |}).

(** An API request: recorded in the trace, then answered. *)
Definition api_call {L A : Type} (r : request) (answer : result A) : M L A :=
  fun s => (answer, {| locals := locals s; log := log s; calls := calls s ++ [r] |}).

(** [logger.exception(msg % arg)] inside a handler for [e]. *)
Definition log_exception {L : Type} (logger message : string) (e : exn) : M L unit :=
  fun s =>
    (Ok tt,
     {| locals := locals s;
        log := log s ++ [{| lr_logger := logger; lr_message := message; lr_exc_info := e |}];
        calls := calls s |}).

(** [try: body / except ResourceException: handler]: what the body did to
    the state before raising stays done. *)
Definition try_except_ResourceException {L A : Type}
  (body : M L A) (handler : exn -> M L A) : M L A :=
  fun s =>
    match body s with
    | (Raise (ResourceException c), s') => handler (ResourceException c) s'
    | other => other
    end.

Fixpoint for_each {L A : Type} (xs : list A) (body : A -> M L unit) : M L unit :=
  match xs with
  | [] => ret tt
  | x :: rest => bind (body x) (fun _ => for_each rest body)
  end.

Declare Scope M_scope.
Delimit Scope M_scope with M.
Notation "x <- c ;; k" := (bind c (fun x => k))
  (at level 61, c at next level, right associativity) : M_scope.
Notation "c ;; k" := (bind c (fun _ => k))
  (at level 61, right associativity) : M_scope.

(** [[x for x in xs if p(x)]] with a test that may raise. *)
Fixpoint rfilter {A : Type} (p : A -> result bool) (xs : list A) : result (list A) :=
  match xs with
  | [] => Ok []
  | x :: rest =>
      rbind (p x) (fun keep =>
      rbind (rfilter p rest) (fun ys => Ok (if keep then x :: ys else ys)))
  end.

(** ** StatusCollector *)

Definition StatusCollector_init (pve : ProxmoxAPI) : instance :=
  [("_pve", AttrAPI pve)].

(** Body of the loop over [cluster.status]. *)
Definition StatusCollector_entry (entry : dict) (status_metrics : Metric)
  : result Metric :=
  (ty <- getitem entry "type" ;;
   if py_eq ty (PStr "node") then
     id <- getitem entry "id" ;;
     online <- getitem entry "online" ;;
     Ok (add_metric status_metrics [id] online)
   else
     ty' <- getitem entry "type" ;;
     if py_eq ty' (PStr "cluster") then
       name <- getitem entry "name" ;;
       cname <- py_format_s name ;;
       quorate <- getitem entry "quorate" ;;
       Ok (add_metric status_metrics [PStr ("cluster/" ++ cname)] quorate)
     else
       ty'' <- getitem entry "type" ;;
       shown <- py_format_s ty'' ;;
       Raise (ValueError ("Got unexpected status entry type " ++ shown)))%result.

(** Body of the loop over the [vm] resources. *)
Definition StatusCollector_resource (resource : dict) (status_metrics : Metric)
  : result Metric :=
  (id <- getitem resource "id" ;;
   status <- getitem resource "status" ;;
   Ok (add_metric status_metrics [id] (PBool (py_eq status (PStr "running")))))%result.

Definition StatusCollector_collect (self : instance) : result (list Metric) :=
  (let status_metrics :=
     GaugeMetricFamily "pve_up" "Node/VM/CT-Status is online/running" ["id"] in
   pve <- self_pve self ;;
   entries <- cluster_status_get pve ;;
   status_metrics <- rfold StatusCollector_entry entries status_metrics ;;
   pve' <- self_pve self ;;
   resources <- cluster_resources_get pve' (Some "vm") ;;
   status_metrics <- rfold StatusCollector_resource resources status_metrics ;;
   Ok [status_metrics])%result.

(** ** VersionCollector *)

Definition VersionCollector_init (pve : ProxmoxAPI) : instance :=
  [("_pve", AttrAPI pve)].

Definition LABEL_WHITELIST : list string := ["release"; "repoid"; "version"].

Definition str_in (k : string) (l : list string) : bool := existsb (String.eqb k) l.

(** [labels, label_values = zip] of the starred items: with no item the
    zip is empty and the unpacking into two names fails. *)
Definition unpack_zip_star (items : list (string * pyval))
  : result (list string * list pyval) :=
  match items with
  | [] => Raise (ValueError "not enough values to unpack (expected 2, got 0)")
  | _ :: _ => Ok (map fst items, map snd items)
  end.

Definition VersionCollector_collect (self : instance) : result (list Metric) :=
  (pve <- self_pve self ;;
   version_items <- version_get pve ;;
   let version :=
     dict_of_items (filter (fun kv => str_in (fst kv) LABEL_WHITELIST) version_items) in
   unpacked <- unpack_zip_star version ;;
   let metric :=
     GaugeMetricFamily "pve_version_info" "Proxmox VE version info" (fst unpacked) in
   Ok [add_metric metric (snd unpacked) (PInt 1)])%result.

(** ** ClusterNodeCollector and ClusterInfoCollector *)

Definition ClusterNodeCollector_init (pve : ProxmoxAPI) : instance :=
  [("_pve", AttrAPI pve)].

Definition entries_of_type (ty : string) (entries : list dict) : result (list dict) :=
  rfilter (fun entry => rbind (getitem entry "type") (fun t => Ok (py_eq t (PStr ty))))
          entries.

(** [[str(d[key]) for key in labels]]. *)
Definition str_label_values (d : dict) (labels : list string) : result (list pyval) :=
  rmap (fun key => rbind (getitem d key) (fun v => Ok (PStr (py_str v)))) labels.

Definition info_samples (labels : list string) (d : dict) (info_metrics : Metric)
  : result Metric :=
  rbind (str_label_values d labels) (fun label_values =>
  Ok (add_metric info_metrics label_values (PInt 1))).

Definition ClusterNodeCollector_collect (self : instance) : result (list Metric) :=
  (pve <- self_pve self ;;
   entries <- cluster_status_get pve ;;
   nodes <- entries_of_type "node" entries ;;
   let labels := ["id"; "level"; "name"; "nodeid"] in
   match nodes with
   | [] => Ok []
   | _ :: _ =>
       let info_metrics := GaugeMetricFamily "pve_node_info" "Node info" labels in
       info_metrics <- rfold (info_samples labels) nodes info_metrics ;;
       Ok [info_metrics]
   end)%result.

Definition ClusterInfoCollector_init (pve : ProxmoxAPI) : instance :=
  [("_pve", AttrAPI pve)].

(** [cluster['id'] = 'cluster/{:s}'.format(cluster['name']); del cluster['name']]. *)
Definition cluster_prefix_id (cluster : dict) : result dict :=
  (name <- getitem cluster "name" ;;
   cname <- py_format_s name ;;
   dict_del (dict_set "id" (PStr ("cluster/" ++ cname)) cluster) "name")%result.

Definition ClusterInfoCollector_collect (self : instance) : result (list Metric) :=
  (pve <- self_pve self ;;
   entries <- cluster_status_get pve ;;
   clusters <- entries_of_type "cluster" entries ;;
   match clusters with
   | [] => Ok []
   | _ :: _ =>
       clusters <- rmap (fun cluster => dict_del cluster "type") clusters ;;
       clusters <- rmap cluster_prefix_id clusters ;;
       let labels := dict_keys (hd [] clusters) in
       let info_metrics := GaugeMetricFamily "pve_cluster_info" "Cluster info" labels in
       info_metrics <- rfold (info_samples labels) clusters info_metrics ;;
       Ok [info_metrics]
   end)%result.

(** ** ClusterResourcesCollector *)

Definition ClusterResourcesCollector_init (pve : ProxmoxAPI) : instance :=
  [("_pve", AttrAPI pve)].

(** A dictionary of family objects, in insertion order. *)
Definition families : Type := list (string * Metric).

Fixpoint families_get (k : string) (fs : families) : option Metric :=
  match fs with
  | [] => None
  | (k', m) :: rest => if String.eqb k k' then Some m else families_get k rest
  end.

(** In-place update of the family object stored under [k]. *)
Fixpoint families_update (k : string) (f : Metric -> Metric) (fs : families) : families :=
  match fs with
  | [] => []
  | (k', m) :: rest =>
      if String.eqb k k' then (k', f m) :: rest
      else (k', m) :: families_update k f rest
  end.

Definition families_values (fs : families) : list Metric := map snd fs.

Definition resources_metrics : families :=
  [ ("maxdisk", GaugeMetricFamily "pve_disk_size_bytes" "Size of storage device"
                  ["id"; "type"; "storage"; "node"]);
    ("disk", GaugeMetricFamily "pve_disk_usage_bytes" "Disk usage in bytes" ["id"]);
    ("maxmem", GaugeMetricFamily "pve_memory_size_bytes" "Size of memory"
                 ["id"; "node"; "type"]);
    ("mem", GaugeMetricFamily "pve_memory_usage_bytes" "Memory usage in bytes"
              ["id"; "node"; "type"]);
    ("netout", GaugeMetricFamily "pve_network_transmit_bytes"
                 "Number of bytes transmitted over the network" ["id"]);
    ("netin", GaugeMetricFamily "pve_network_receive_bytes"
                "Number of bytes received over the network" ["id"]);
    ("diskwrite", GaugeMetricFamily "pve_disk_write_bytes"
                    "Number of bytes written to storage" ["id"]);
    ("diskread", GaugeMetricFamily "pve_disk_read_bytes"
                   "Number of bytes read from storage" ["id"]);
    ("cpu", GaugeMetricFamily "pve_cpu_usage_ratio"
              "CPU usage (value between 0.0 and pve_cpu_usage_limit)"
              ["id"; "node"; "type"]);
    ("maxcpu", GaugeMetricFamily "pve_cpu_usage_limit" "Maximum allowed CPU usage"
                 ["id"; "node"; "type"]);
    ("uptime", GaugeMetricFamily "pve_uptime_seconds"
                 "Number of seconds since the last boot" ["id"]);
    ("shared", GaugeMetricFamily "pve_storage_shared"
                 "Whether or not the storage is shared among cluster nodes" ["id"]) ].

Definition resources_info_metrics : families :=
  [ ("guest", GaugeMetricFamily "pve_guest_info" "VM/CT info"
                ["id"; "node"; "name"; "type"]);
    ("storage", GaugeMetricFamily "pve_storage_info" "Storage info"
                  ["id"; "node"; "storage"]) ].

(** [info_lookup]: per resource type the labels and the gauge.  The gauge is
    an alias of an entry of [info_metrics] ([lxc] and [qemu] share one), so
    it is given by that entry's key. *)
Definition info_lookup : list (string * (list string * string)) :=
  [ ("lxc", (["id"; "node"; "name"; "type"], "guest"));
    ("qemu", (["id"; "node"; "name"; "type"], "guest"));
    ("storage", (["id"; "node"; "storage"], "storage")) ].

Fixpoint info_lookup_get (restype : string)
  (table : list (string * (list string * string))) : option (list string * string) :=
  match table with
  | [] => None
  | (k, e) :: rest => if String.eqb restype k then Some e else info_lookup_get restype rest
  end.

(** [restype in info_lookup]: a key that is not a string is never found. *)
Definition info_lookup_find (restype : pyval) : option (list string * string) :=
  match restype with
  | PStr t => info_lookup_get t info_lookup
  | _ => None
  end.

(** [[resource.get(key, '') for key in labels]]. *)
Definition info_label_values (resource : dict) (labels : list string) : list pyval :=
  map (fun key => dict_get_default resource key (PStr "")) labels.

(** [[resource[labelname] for labelname in metric._labelnames
      if labelname in resource]]. *)
Definition metric_label_values (resource : dict) (metric : Metric)
  : result (list pyval) :=
  rmap (getitem resource)
       (filter (fun labelname => dict_contains labelname resource) (m_labelnames metric)).

Definition resources_info_pass (resource : dict) (restype : pyval)
  (info_metrics : families) : families :=
  match info_lookup_find restype with
  | Some (labels, gauge) =>
      families_update gauge
        (fun g => add_metric g (info_label_values resource labels) (PInt 1))
        info_metrics
  | None => info_metrics
  end.

(** One turn of [for key, metric_value in resource.items()]. *)
Definition resources_metric_item (resource : dict) (item : string * pyval)
  (metrics : families) : result families :=
  match families_get (fst item) metrics with
  | Some metric =>
      rbind (metric_label_values resource metric) (fun label_values =>
      Ok (families_update (fst item)
            (fun m => add_metric m label_values (snd item)) metrics))
  | None => Ok metrics
  end.

Definition resources_resource (resource : dict) (acc : families * families)
  : result (families * families) :=
  (restype <- getitem resource "type" ;;
   let info_metrics := resources_info_pass resource restype (snd acc) in
   metrics <- rfold (resources_metric_item resource) resource (fst acc) ;;
   Ok (metrics, info_metrics))%result.

Definition ClusterResourcesCollector_collect (self : instance) : result (list Metric) :=
  (pve <- self_pve self ;;
   resources <- cluster_resources_get pve None ;;
   acc <- rfold resources_resource resources (resources_metrics, resources_info_metrics) ;;
   Ok (families_values (fst acc) ++ families_values (snd acc)))%result.

(** ** ClusterNodeConfigCollector *)

Definition ClusterNodeConfigCollector_init (pve : ProxmoxAPI) : instance :=
  [("_pve", AttrAPI pve); ("_log", module_logger)].

Definition config_metrics : families :=
  [ ("onboot", GaugeMetricFamily "pve_onboot_status" "Proxmox vm config onboot value"
                 ["id"; "node"; "type"]) ].

Definition scrape_failed (node : pyval) : string :=
  "Exception thrown while scraping quemu/lxc config from " ++ py_str node.

(** One turn of [for key, metric_value in config]. *)
Definition config_item (vmtype : string) (node vmdata : dict) (item : string * pyval)
  : M families unit :=
  (vmid <- lift (getitem vmdata "vmid") ;;
   nodeid <- lift (getitem node "node") ;;
   let label_values := [PStr (vmtype ++ "/" ++ py_str vmid); nodeid; PStr vmtype] in
   metrics <- get_locals ;;
   match families_get (fst item) metrics with
   | Some _ =>
       put_locals (families_update (fst item)
                     (fun m => add_metric m label_values (snd item)) metrics)
   | None => ret tt
   end)%M.

Definition config_guest (vmtype : string) (config_request : pyval -> pyval -> request)
  (config_get : pyval -> pyval -> result dict) (node vmdata : dict) : M families unit :=
  (nodeid <- lift (getitem node "node") ;;
   vmid <- lift (getitem vmdata "vmid") ;;
   config <- api_call (config_request nodeid vmid) (config_get nodeid vmid) ;;
   for_each config (config_item vmtype node vmdata))%M.

Definition config_node_body (self : instance) (node : dict) : M families unit :=
  (pve <- lift (self_pve self) ;;
   nodeid <- lift (getitem node "node") ;;
   guests <- api_call (GET_nodes_qemu nodeid) (nodes_qemu_get pve nodeid) ;;
   for_each guests
     (config_guest "qemu" GET_nodes_qemu_config (nodes_qemu_config_get pve) node) ;;
   pve' <- lift (self_pve self) ;;
   nodeid' <- lift (getitem node "node") ;;
   guests' <- api_call (GET_nodes_lxc nodeid') (nodes_lxc_get pve' nodeid') ;;
   for_each guests'
     (config_guest "lxc" GET_nodes_lxc_config (nodes_lxc_config_get pve') node))%M.

(** The handler: [self._log.exception(..., node['node'])], then [continue]. *)
Definition log_scrape_failure {L : Type} (self : instance) (node : dict) (e : exn)
  : M L unit :=
  (logger <- lift (self_log self) ;;
   nodeid <- lift (getitem node "node") ;;
   log_exception logger (scrape_failed nodeid) e)%M.

Definition config_node (self : instance) (node : dict) : M families unit :=
  try_except_ResourceException (config_node_body self node)
                               (log_scrape_failure self node).

Definition ClusterNodeConfigCollector_collect (self : instance)
  : M families (list Metric) :=
  (put_locals config_metrics ;;
   pve <- lift (self_pve self) ;;
   nodes <- api_call GET_nodes (nodes_get pve) ;;
   for_each nodes (config_node self) ;;
   metrics <- get_locals ;;
   ret (families_values metrics))%M.

(** ** VolumesCollector *)

(** [__init__] stores the API client and nothing else; the base class
    [Collector] has no attribute of its own. *)
Definition VolumesCollector_init (pve : ProxmoxAPI) : instance :=
  [("_pve", AttrAPI pve)].

Record volumes_locals : Type := {
  seen_shared_storages : pyset;
  disk_size : Metric
}.

(** One turn of [for disk in storage_api(storage['storage']).content.get()]. *)
Definition volumes_disk (node storage disk : dict) : M volumes_locals unit :=
  (nodeid <- lift (getitem node "node") ;;
   volid <- lift (getitem disk "volid") ;;
   nodeid' <- lift (getitem node "node") ;;
   name <- lift (getitem storage "storage") ;;
   size <- lift (getitem disk "size") ;;
   l <- get_locals ;;
   put_locals
     {| seen_shared_storages := seen_shared_storages l;
        disk_size :=
          add_metric (disk_size l)
            [PStr ("disk/" ++ py_str nodeid ++ "/" ++ py_str volid); nodeid'; name]
            size |})%M.

(** [storage['type'] != 'dir' and storage['active']]: the right operand is
    read only when the left one holds. *)
Definition volumes_retained (storage : dict) : result pyval :=
  (ty <- getitem storage "type" ;;
   if negb (py_eq ty (PStr "dir")) then getitem storage "active"
   else Ok (PBool false))%result.

(** [storage['shared'] and storage['storage'] in seen_shared_storages]. *)
Definition volumes_seen (storage : dict) (seen : pyset) : result bool :=
  (shared <- getitem storage "shared" ;;
   if py_truthy shared then
     name <- getitem storage "storage" ;;
     Ok (set_contains name seen)
   else Ok false)%result.

(** One turn of [for storage in storage_api.get()]; [storage_api] is the
    API client at [nodes(nodeid).storage]. *)
Definition volumes_storage (pve : ProxmoxAPI) (nodeid : pyval) (node storage : dict)
  : M volumes_locals unit :=
  (retained <- lift (volumes_retained storage) ;;
   if negb (py_truthy retained) then ret tt
   else
     l <- get_locals ;;
     seen <- lift (volumes_seen storage (seen_shared_storages l)) ;;
     if seen then ret tt
     else
       name <- lift (getitem storage "storage") ;;
       put_locals {| seen_shared_storages := set_add name (seen_shared_storages l);
                     disk_size := disk_size l |} ;;
       name' <- lift (getitem storage "storage") ;;
       disks <- api_call (GET_nodes_storage_content nodeid name')
                         (nodes_storage_content_get pve nodeid name') ;;
       for_each disks (volumes_disk node storage))%M.

Definition volumes_node_body (self : instance) (node : dict) : M volumes_locals unit :=
  (pve <- lift (self_pve self) ;;
   nodeid <- lift (getitem node "node") ;;
   storages <- api_call (GET_nodes_storage nodeid) (nodes_storage_get pve nodeid) ;;
   for_each storages (volumes_storage pve nodeid node))%M.

Definition volumes_node (self : instance) (node : dict) : M volumes_locals unit :=
  try_except_ResourceException (volumes_node_body self node)
                               (log_scrape_failure self node).

Definition volumes_fresh : volumes_locals :=
  {| seen_shared_storages := [];
     disk_size := GaugeMetricFamily "pve_volume_size_bytes" "Proxmox volume commitments"
                    ["id"; "node"; "storage"] |}.

Definition VolumesCollector_collect (self : instance)
  : M volumes_locals (list Metric) :=
  (put_locals volumes_fresh ;;
   pve <- lift (self_pve self) ;;
   nodes <- api_call GET_nodes (nodes_get pve) ;;
   for_each nodes (volumes_node self) ;;
   l <- get_locals ;;
   ret [disk_size l])%M.

(** The state a scrape starts a collector in: nothing logged, nothing
    requested yet. *)
Definition start {L : Type} (l : L) : state L :=
  {| locals := l; log := []; calls := [] |}.

(** ** Texts as code points *)

(** A Python [str] is a sequence of code points.  It is held here as the
    string of its UTF-8 bytes (a lone surrogate as the three bytes of its
    code point), so that the texts of the API and of the source read as
    they are written; what looks at single characters, the regular
    expression of the notes collector, reads the code points back. *)
Module Utf8.

(** The six bits a continuation byte carries. *)
Definition continuation (a : ascii) : option N :=
  let n := N_of_ascii a in
  if ((128 <=? n) && (n <? 192))%N then Some (n - 128)%N else None.

(** The code point at the head of a text and the text after it.  A byte
    that does not begin a sequence of the shortest form is read as a code
    point of its own: no [str] is held as such a text. *)
Definition next (s : string) : option (N * string) :=
  match s with
  | EmptyString => None
  | String a r =>
      let n := N_of_ascii a in
      let alone := Some (n, r) in
      if (n <? 192)%N then alone
      else if (n <? 224)%N then
        match r with
        | String b r2 =>
            match continuation b with
            | Some x =>
                let cp := ((n - 192) * 64 + x)%N in
                if (128 <=? cp)%N then Some (cp, r2) else alone
            | None => alone
            end
        | _ => alone
        end
      else if (n <? 240)%N then
        match r with
        | String b (String c r3) =>
            match continuation b, continuation c with
            | Some x, Some y =>
                let cp := (((n - 224) * 64 + x) * 64 + y)%N in
                if (2048 <=? cp)%N then Some (cp, r3) else alone
            | _, _ => alone
            end
        | _ => alone
        end
      else
        match r with
        | String b (String c (String d r4)) =>
            match continuation b, continuation c, continuation d with
            | Some x, Some y, Some z =>
                let cp := ((((n - 240) * 64 + x) * 64 + y) * 64 + z)%N in
                if ((65536 <=? cp) && (cp <=? 1114111))%N then Some (cp, r4) else alone
            | _, _, _ => alone
            end
        | _ => alone
        end
  end.

(** The code points of a text; a text has no more of them than bytes. *)
Fixpoint code_points_upto (fuel : nat) (s : string) : list N :=
  match fuel with
  | O => []
  | S fuel' =>
      match next s with
      | Some (cp, rest) => cp :: code_points_upto fuel' rest
      | None => []
      end
  end.

Definition code_points (s : string) : list N := code_points_upto (String.length s) s.

(** The bytes of a code point. *)
Definition encode_one (cp : N) : string :=
  if (cp <? 128)%N then String (ascii_of_N cp) ""
  else if (cp <? 2048)%N then
    String (ascii_of_N (192 + cp / 64))
      (String (ascii_of_N (128 + cp mod 64)) "")
  else if (cp <? 65536)%N then
    String (ascii_of_N (224 + cp / 4096))
      (String (ascii_of_N (128 + (cp / 64) mod 64))
         (String (ascii_of_N (128 + cp mod 64)) ""))
  else
    String (ascii_of_N (240 + cp / 262144))
      (String (ascii_of_N (128 + (cp / 4096) mod 64))
         (String (ascii_of_N (128 + (cp / 64) mod 64))
            (String (ascii_of_N (128 + cp mod 64)) ""))).

(** The text of a sequence of code points. *)
Fixpoint encode (cps : list N) : string :=
  match cps with
  | [] => ""
  | cp :: rest => encode_one cp ++ encode rest
  end.

End Utf8.

(** ** Regular expressions ([re]), as far as the collector's pattern goes *)

Module Re.

(** A single-character class: a literal character, [\s], or [.] under
    [re.DOTALL] (any character, newline included). *)
Inductive charclass : Type :=
| CChar (c : N)
| CSpace
| CAny.

(** The items of a pattern, left to right: a literal text, [c+], [c*]
    (both greedy), [c*?] (lazy), and the parentheses of the one group. *)
Inductive item : Type :=
| Lit (text : list N)
| Plus (c : charclass)
| Star (c : charclass)
| LazyStar (c : charclass)
| GroupOpen
| GroupClose.

(** [\s] in a pattern of type [str]: the code points [str.isspace] holds
    of, below 128 (tab to carriage return, the four separators, the space)
    and above (next line, the no-break spaces, the spaces of fixed width,
    the line and paragraph separators, the ideographic space). *)
Definition is_space (cp : N) : bool :=
  (((9 <=? cp) && (cp <=? 13))
   || ((28 <=? cp) && (cp <=? 32))
   || (cp =? 133) || (cp =? 160) || (cp =? 5760)
   || ((8192 <=? cp) && (cp <=? 8202))
   || (cp =? 8232) || (cp =? 8233) || (cp =? 8239) || (cp =? 8287)
   || (cp =? 12288))%N.

Definition class_ok (c : charclass) (cp : N) : bool :=
  match c with
  | CChar x => N.eqb x cp
  | CSpace => is_space cp
  | CAny => true
  end.

Fixpoint strip_prefix (p s : list N) : option (list N) :=
  match p with
  | [] => Some s
  | a :: p' =>
      match s with
      | [] => None
      | b :: s' => if N.eqb a b then strip_prefix p' s' else None
      end
  end.

(** Where a match ended and where its group began and ended, each given
    by the text that was still ahead at that point. *)
Record span : Type := {
  match_end : list N;
  group_start : list N;
  group_end : list N
}.

Definition or_else {A : Type} (first second : option A) : option A :=
  match first with
  | Some x => Some x
  | None => second
  end.

(** Backtracking match of a pattern at the start of a text: a greedy
    repetition tries one more character before the rest of the pattern,
    a lazy one tries the rest of the pattern first. *)
Fixpoint run (p : list item) : list N -> option span :=
  match p with
  | [] => fun s => Some {| match_end := s; group_start := s; group_end := s |}
  | Lit text :: rest =>
      fun s =>
        match strip_prefix text s with
        | Some s' => run rest s'
        | None => None
        end
  | Star c :: rest =>
      let k := run rest in
      fix star (s : list N) : option span :=
        match s with
        | a :: r => if class_ok c a then or_else (star r) (k s) else k s
        | [] => k s
        end
  | Plus c :: rest =>
      let k := run rest in
      let star :=
        fix star (s : list N) : option span :=
          match s with
          | a :: r => if class_ok c a then or_else (star r) (k s) else k s
          | [] => k s
          end in
      fun s =>
        match s with
        | a :: r => if class_ok c a then star r else None
        | [] => None
        end
  | LazyStar c :: rest =>
      let k := run rest in
      fix lazy (s : list N) : option span :=
        or_else (k s)
          match s with
          | a :: r => if class_ok c a then lazy r else None
          | [] => None
          end
  | GroupOpen :: rest =>
      fun s =>
        option_map (fun x => {| match_end := match_end x;
                                group_start := s;
                                group_end := group_end x |})
                   (run rest s)
  | GroupClose :: rest =>
      fun s =>
        option_map (fun x => {| match_end := match_end x;
                                group_start := group_start x;
                                group_end := s |})
                   (run rest s)
  end.

(** [m.group(1)]. *)
Definition group1 (m : span) : list N :=
  firstn (length (group_start m) - length (group_end m)) (group_start m).

(** [re.match(p, text)]: the pattern is tried at position 0 only
    ([re.MULTILINE] changes [^] and [$], which a pattern here never has). *)
Definition re_match (p : list item) (text : list N) : option span := run p text.

(** [re.search(p, text)]: the leftmost position where the pattern matches. *)
Fixpoint re_search (p : list item) (text : list N) : option span :=
  or_else (run p text)
    match text with
    | _ :: rest => re_search p rest
    | [] => None
    end.

End Re.

(** ** ClusterCustomMetricsCollector *)

Definition ClusterCustomMetricsCollector_init (pve : ProxmoxAPI) : instance :=
  [("_pve", AttrAPI pve)].

Definition backticks : string := "```".

(** [r'#+\s*Prometheus metrics\s*```(.*?)```'] *)
Definition metrics_block_pattern : list Re.item :=
  [ Re.Plus (Re.CChar (N_of_ascii "#")); Re.Star Re.CSpace;
    Re.Lit (Utf8.code_points "Prometheus metrics");
    Re.Star Re.CSpace; Re.Lit (Utf8.code_points backticks);
    Re.GroupOpen; Re.LazyStar Re.CAny; Re.GroupClose;
    Re.Lit (Utf8.code_points backticks) ].

(** [re.match(pattern, notes, re.MULTILINE | re.DOTALL)], then [group(1)]. *)
Definition match_metrics_block (notes : pyval) : result (option string) :=
  match notes with
  | PStr text =>
      Ok (option_map (fun m => Utf8.encode (Re.group1 m))
            (Re.re_match metrics_block_pattern (Utf8.code_points text)))
  | _ => Raise (TypeError "expected string or bytes-like object")
  end.

Definition forced_labels : dict := [("__source", PStr "Datacenter > Notes")].

(** [Sample(name=..., labels=..., exemplar=..., value=...)]: the timestamp
    is not passed on. *)
Definition relabel_sample (sample : Sample) : Sample :=
  {| s_name := "pve_" ++ s_name sample;
     s_labels := dict_union (s_labels sample) forced_labels;
     s_value := s_value sample;
     s_timestamp := None;
     s_exemplar := s_exemplar sample |}.

Definition relabel_metric (metric : Metric) : Metric :=
  let renamed := set_name metric ("pve_" ++ m_name metric) in
  set_samples renamed (map relabel_sample (m_samples metric)).

Section CustomMetrics.

(** The exposition-format parser of prometheus_client. *)
Variable text_string_to_metric_families : string -> result (list Metric).

Definition ClusterCustomMetricsCollector_collect (self : instance)
  : result (list Metric) :=
  (pve <- self_pve self ;;
   options <- cluster_options_get pve ;;
   let notes := dict_get_default options "description" (PStr "") in
   m <- match_metrics_block notes ;;
   match m with
   | Some custom_metrics_text =>
       parsed <- text_string_to_metric_families custom_metrics_text ;;
       Ok (map relabel_metric parsed)
   | None => Ok []
   end)%result.

End CustomMetrics.

(** ** The dispatcher [collect_pve] *)

Module CollectorsOptions.

Record t : Type := {
  status : bool;
  version : bool;
  node : bool;
  cluster : bool;
  resources : bool;
  config : bool;
  volumes : bool
}.

End CollectorsOptions.

(** A registered collector: its class and the instance. *)
Inductive collector : Type :=
| ClusterCustomMetricsCollector (self : instance)
| StatusCollector (self : instance)
| ClusterResourcesCollector (self : instance)
| ClusterNodeCollector (self : instance)
| ClusterInfoCollector (self : instance)
| ClusterNodeConfigCollector (self : instance)
| VersionCollector (self : instance)
| VolumesCollector (self : instance).

(** What outlives a collector: the log and the trace of API requests. *)
Record world : Type := {
  w_log : list log_record;
  w_calls : list request
}.

(** A collector with local objects, run from a world and back to one. *)
Definition run_in {L A : Type} (c : M L A) (l : L) (w : world) : result A * world :=
  let o := c {| locals := l; log := w_log w; calls := w_calls w |} in
  (fst o, {| w_log := log (snd o); w_calls := calls (snd o) |}).

(** The registry in registration order: the notes collector always, each
    of the others when its option is set. *)
Definition registered (pve : ProxmoxAPI) (options : CollectorsOptions.t) : list collector :=
  [ClusterCustomMetricsCollector (ClusterCustomMetricsCollector_init pve)]
  ++ (if CollectorsOptions.status options
      then [StatusCollector (StatusCollector_init pve)] else [])
  ++ (if CollectorsOptions.resources options
      then [ClusterResourcesCollector (ClusterResourcesCollector_init pve)] else [])
  ++ (if CollectorsOptions.node options
      then [ClusterNodeCollector (ClusterNodeCollector_init pve)] else [])
  ++ (if CollectorsOptions.cluster options
      then [ClusterInfoCollector (ClusterInfoCollector_init pve)] else [])
  ++ (if CollectorsOptions.config options
      then [ClusterNodeConfigCollector (ClusterNodeConfigCollector_init pve)] else [])
  ++ (if CollectorsOptions.version options
      then [VersionCollector (VersionCollector_init pve)] else [])
  ++ (if CollectorsOptions.volumes options
      then [VolumesCollector (VolumesCollector_init pve)] else []).

Section Dispatcher.

(** The exposition parser and the rendering of one family
    (prometheus_client), and the constructor of the API client (proxmoxer). *)
Variable text_string_to_metric_families : string -> result (list Metric).
Variable render_metric : Metric -> result string.
Variable ProxmoxAPI_connect : string -> dict -> result ProxmoxAPI.

(** [collector.collect()], run to its end. *)
Definition collect_of (c : collector) (w : world) : result (list Metric) * world :=
  match c with
  | ClusterCustomMetricsCollector self =>
      (ClusterCustomMetricsCollector_collect text_string_to_metric_families self, w)
  | StatusCollector self => (StatusCollector_collect self, w)
  | ClusterResourcesCollector self => (ClusterResourcesCollector_collect self, w)
  | ClusterNodeCollector self => (ClusterNodeCollector_collect self, w)
  | ClusterInfoCollector self => (ClusterInfoCollector_collect self, w)
  | ClusterNodeConfigCollector self =>
      run_in (ClusterNodeConfigCollector_collect self) config_metrics w
  | VersionCollector self => (VersionCollector_collect self, w)
  | VolumesCollector self => run_in (VolumesCollector_collect self) volumes_fresh w
  end.

Fixpoint render_all (metrics : list Metric) : result string :=
  match metrics with
  | [] => Ok ""
  | m :: rest =>
      rbind (render_metric m) (fun text =>
      rbind (render_all rest) (fun texts => Ok (text ++ texts)%string))
  end.

(** [generate_latest(registry)]: the collectors are run in registration
    order and the families of each rendered before the next one runs; an
    exception ends the scrape. *)
Fixpoint generate_latest (registry : list collector) (w : world) : result string * world :=
  match registry with
  | [] => (Ok "", w)
  | c :: rest =>
      match collect_of c w with
      | (Raise e, w1) => (Raise e, w1)
      | (Ok metrics, w1) =>
          match render_all metrics with
          | Raise e => (Raise e, w1)
          | Ok text =>
              match generate_latest rest w1 with
              | (Ok texts, w2) => (Ok (text ++ texts)%string, w2)
              | (Raise e, w2) => (Raise e, w2)
              end
          end
      end
  end.

Definition collect_pve (config : dict) (host : string) (options : CollectorsOptions.t)
  (w : world) : result string * world :=
  match ProxmoxAPI_connect host config with
  | Raise e => (Raise e, w)
  | Ok pve => generate_latest (registered pve options) w
  end.

End Dispatcher.

(** ** Vocabulary of the properties *)

(** A dictionary as Python has it: no key twice. *)
Definition dict_wf (d : dict) : Prop := NoDup (dict_keys d).

(** A sample that names its family and carries no timestamp or exemplar. *)
Definition plain_sample (name : string) (labels : dict) (value : pyval) : Sample :=
  {| s_name := name;
     s_labels := labels;
     s_value := value;
     s_timestamp := None;
     s_exemplar := None |}.

(** The [pve_up] sample of an entity. *)
Definition up_sample (id value : pyval) : Sample :=
  plain_sample "pve_up" [("id", id)] value.

(** A cluster-status entry of a recognised type, with the identifier and
    the flag it is reported under. *)
Inductive up_entry : dict -> pyval -> pyval -> Prop :=
| up_node (entry : dict) (id online : pyval) :
    dict_get "type" entry = Some (PStr "node") ->
    dict_get "id" entry = Some id ->
    dict_get "online" entry = Some online ->
    up_entry entry id online
| up_cluster (entry : dict) (name : string) (quorate : pyval) :
    dict_get "type" entry = Some (PStr "cluster") ->
    dict_get "name" entry = Some (PStr name) ->
    dict_get "quorate" entry = Some quorate ->
    up_entry entry (PStr ("cluster/" ++ name)) quorate.

(** A guest resource with its identifier and whether it is running. *)
Inductive up_vm : dict -> pyval -> pyval -> Prop :=
| up_vm_running (resource : dict) (id : pyval) :
    dict_get "id" resource = Some id ->
    dict_get "status" resource = Some (PStr "running") ->
    up_vm resource id (PBool true)
| up_vm_stopped (resource : dict) (id status : pyval) :
    dict_get "id" resource = Some id ->
    dict_get "status" resource = Some status ->
    status <> PStr "running" ->
    up_vm resource id (PBool false).

(** A cluster-status entry whose type is neither [node] nor [cluster]. *)
Definition unrecognised (entry : dict) : Prop :=
  forall ty, dict_get "type" entry = Some ty ->
             ty <> PStr "node" /\ ty <> PStr "cluster".

(** A family with its samples taken out: name, help, type and labels. *)
Definition declaration (m : Metric) : Metric := set_samples m [].

(** The value a record has for a label, if any. *)
Definition label_of (d : dict) (label : string) (v : pyval) : Prop :=
  dict_get label d = Some v.

(** A status entry that has a type, and another one than [ty]. *)
Definition typed_other_than (ty : string) (entry : dict) : Prop :=
  exists t, dict_get "type" entry = Some t /\ t <> PStr ty.

(** A sample as the custom-metrics collector hands it on. *)
Definition relabelled_sample (sample sample' : Sample) : Prop :=
  s_name sample' = ("pve_" ++ s_name sample)%string
  /\ s_value sample' = s_value sample
  /\ dict_get "__source" (s_labels sample') = Some (PStr "Datacenter > Notes")
  /\ (forall k, k <> "__source" ->
                dict_get k (s_labels sample') = dict_get k (s_labels sample)).

Definition relabelled (metric metric' : Metric) : Prop :=
  m_name metric' = ("pve_" ++ m_name metric)%string
  /\ Forall2 relabelled_sample (m_samples metric) (m_samples metric').

(** The volume family as [VolumesCollector.collect] declares it. *)
Definition volume_family (m : Metric) : Prop :=
  m_name m = "pve_volume_size_bytes" /\ m_labelnames m = ["id"; "node"; "storage"].

(** A content entry with the two fields the collector reads. *)
Definition volume_wf (disk : dict) : Prop :=
  dict_contains "volid" disk = true /\ dict_contains "size" disk = true.

(** The sample of a volume of storage [name] listed through node [nodeid]. *)
Definition volume_sample (nodeid name : pyval) (disk : dict) : Sample :=
  plain_sample "pve_volume_size_bytes"
    [("id", PStr ("disk/" ++ py_str nodeid ++ "/"
                  ++ py_str (dict_get_default disk "volid" PNone)));
     ("node", nodeid);
     ("storage", name)]
    (dict_get_default disk "size" PNone).

(** The collector's state with more samples in the volume family. *)
Definition sampled (s : state volumes_locals) (new : list Sample) : state volumes_locals :=
  {| locals :=
       {| seen_shared_storages := seen_shared_storages (locals s);
          disk_size :=
            set_samples (disk_size (locals s)) (m_samples (disk_size (locals s)) ++ new) |};
     log := log s;
     calls := calls s |}.

(** The collector's state once a storage name is remembered and its
    content requested. *)
Definition requested (s : state volumes_locals) (nodeid name : pyval)
  : state volumes_locals :=
  {| locals :=
       {| seen_shared_storages := set_add name (seen_shared_storages (locals s));
          disk_size := disk_size (locals s) |};
     log := log s;
     calls := calls s ++ [GET_nodes_storage_content nodeid name] |}.

(** The collector's state after a storage was inspected: its name is
    remembered, its content was requested, its volumes are sampled. *)
Definition inspected (s : state volumes_locals) (nodeid name : pyval) (disks : list dict)
  : state volumes_locals :=
  sampled (requested s nodeid name) (map (volume_sample nodeid name) disks).

(** A sample the family holds for storage [name] as listed through [nodeid]. *)
Definition attributed (nodeid name : pyval) (sample : Sample) : Prop :=
  dict_get "node" (s_labels sample) = Some nodeid
  /\ dict_get "storage" (s_labels sample) = Some name.

(** A backend the collector goes on with: of a type other than [dir], and
    active. *)
Definition retained (storage : dict) : Prop :=
  exists ty active,
    dict_get "type" storage = Some ty /\ ty <> PStr "dir"
    /\ dict_get "active" storage = Some active /\ py_truthy active = true.

(** A backend marked shared, or not. *)
Definition marked_shared (storage : dict) (b : bool) : Prop :=
  exists shared, dict_get "shared" storage = Some shared /\ py_truthy shared = b.

(** The collector's state once the storages of a node were requested. *)
Definition listed (s : state volumes_locals) (nodeid : pyval) : state volumes_locals :=
  {| locals := locals s; log := log s; calls := calls s ++ [GET_nodes_storage nodeid] |}.

(** The name is in the collector's set of seen storages. *)
Definition remembered (name : pyval) (s : state volumes_locals) : Prop :=
  set_contains name (seen_shared_storages (locals s)) = true.

(** Storage [name] was not inspected through node [nodeid]: its content was
    not requested there and no sample is attributed to the pair. *)
Definition uninspected (nodeid name : pyval) (s : state volumes_locals) : Prop :=
  (forall sample, In sample (m_samples (disk_size (locals s))) ->
                  ~ attributed nodeid name sample)
  /\ ~ In (GET_nodes_storage_content nodeid name) (calls s).

(** A computation that leaves the log as it was, however it ends. *)
Definition keeps_log {L A : Type} (c : M L A) : Prop :=
  forall s, log (snd (c s)) = log s.

(** The collector's state when its loop over the nodes begins. *)
Definition begun (s : state volumes_locals) : state volumes_locals :=
  {| locals := volumes_fresh; log := log s; calls := calls s ++ [GET_nodes] |}.

(** A backend whose name equals [name] (by [==]). *)
Definition bears (name : pyval) (storage : dict) : Prop :=
  exists nm, dict_get "storage" storage = Some nm /\ py_eq name nm = true.

(** A backend that the API lists for a node. *)
Definition lists (pve : ProxmoxAPI) (node storage : dict) : Prop :=
  exists nodeid storages,
    dict_get "node" node = Some nodeid
    /\ nodes_storage_get pve nodeid = Ok storages
    /\ In storage storages.

(** The later state holds every sample and every request of the earlier. *)
Definition grown (s s' : state volumes_locals) : Prop :=
  incl (m_samples (disk_size (locals s))) (m_samples (disk_size (locals s')))
  /\ incl (calls s) (calls s').

(** An entry whose type is [ty]. *)
Definition has_type (ty : string) (entry : dict) : bool :=
  py_eq (dict_get_default entry "type" PNone) (PStr ty).

(** A record with all of the given keys. *)
Definition has_keys (keys : list string) (d : dict) : Prop :=
  Forall (fun k => dict_contains k d = true) keys.

(** The labels of an info sample: each key with [str] of the record's value. *)
Definition str_labels (d : dict) (keys : list string) : dict :=
  map (fun key => (key, PStr (py_str (dict_get_default d key PNone)))) keys.

Definition node_info_labels : list string := ["id"; "level"; "name"; "nodeid"].

(** A cluster entry as the info collector rewrites it: without its type,
    with the prefixed id, without its name. *)
Definition cluster_info_record (cluster : dict) (name : string) : dict :=
  dict_remove "name" (dict_set "id" (PStr ("cluster/" ++ name)) (dict_remove "type" cluster)).

(** The number of samples of the family stored under a key. *)
Definition samples_under (key : string) (fs : families) : nat :=
  match families_get key fs with
  | Some m => length (m_samples m)
  | None => 0
  end.

(** A resource that the info pass files under the guest family. *)
Definition is_guest (resource : dict) : bool :=
  has_type "lxc" resource || has_type "qemu" resource.

(** An API answer that is a value or an API error. *)
Definition api_answer {A : Type} (r : result A) : Prop :=
  match r with
  | Ok _ => True
  | Raise (ResourceException _) => True
  | Raise _ => False
  end.

(** An outcome that is normal or an API error, with the state in [I]. *)
Definition mild_outcome {L A : Type} (I : state L -> Prop) (o : result A * state L) : Prop :=
  match o with
  | (Ok _, s') => I s'
  | (Raise (ResourceException _), s') => I s'
  | (Raise _, _) => False
  end.

(** The state of the config collector holds its one family, as declared. *)
Definition config_inv (s : state families) : Prop :=
  exists m, locals s = [("onboot", m)]
            /\ declaration m = declaration (GaugeMetricFamily "pve_onboot_status"
                                              "Proxmox vm config onboot value"
                                              ["id"; "node"; "type"]).

(** The labels of a guest's config sample. *)
Definition config_labels (vmtype : string) (vmid nodeid : pyval) : list pyval :=
  [PStr (vmtype ++ "/" ++ py_str vmid); nodeid; PStr vmtype].

(** The family after the config items of one guest were gone through. *)
Definition config_sampled (vmtype : string) (vmid nodeid : pyval) (config : dict)
  (m : Metric) : Metric :=
  fold_left (fun m kv => if String.eqb (fst kv) "onboot"
                         then add_metric m (config_labels vmtype vmid nodeid) (snd kv)
                         else m)
            config m.

(** An API whose guest listings and configurations answer or fail with an
    API error, and whose guest records have a [vmid]. *)
Definition config_api_answers (pve : ProxmoxAPI) : Prop :=
  forall node : pyval,
    api_answer (nodes_qemu_get pve node)
    /\ api_answer (nodes_lxc_get pve node)
    /\ (forall vmid, api_answer (nodes_qemu_config_get pve node vmid))
    /\ (forall vmid, api_answer (nodes_lxc_config_get pve node vmid))
    /\ (forall guests, nodes_qemu_get pve node = Ok guests ->
                       Forall (fun g => dict_contains "vmid" g = true) guests)
    /\ (forall guests, nodes_lxc_get pve node = Ok guests ->
                       Forall (fun g => dict_contains "vmid" g = true) guests).

(** A sample that stands for a volume: of a retained backend that a listed
    node reports, in the content the API gives for it through that node. *)
Definition volume_of (pve : ProxmoxAPI) (nodes : list dict) (sample : Sample) : Prop :=
  exists node nodeid storage name disks disk,
    In node nodes
    /\ dict_get "node" node = Some nodeid
    /\ lists pve node storage
    /\ retained storage
    /\ dict_get "storage" storage = Some name
    /\ nodes_storage_content_get pve nodeid name = Ok disks
    /\ In disk disks
    /\ volume_wf disk
    /\ sample = volume_sample nodeid name disk.

(** The labels of an info sample: every declared name, with the record's
    value for it or, when the record has none, the empty string. *)
Definition info_labels (resource : dict) (names : list string) : dict :=
  map (fun name => (name, match dict_get name resource with
                          | Some v => v
                          | None => PStr ""
                          end))
      names.

(** The values a record has for the declared names, in their order; a name
    the record lacks gives no value. *)
Definition present_values (resource : dict) (names : list string) : list pyval :=
  flat_map (fun name => match dict_get name resource with
                        | Some v => [v]
                        | None => []
                        end)
           names.

(** The labels of a field sample: the declared names, from the first on,
    paired with the values the record has. *)
Definition shifted_labels (resource : dict) (names : list string) : dict :=
  combine names (present_values resource names).

(** The sample a record gives to the info family it is filed under. *)
Definition info_sample (m : Metric) (resource : dict) : Sample :=
  plain_sample (m_name m) (info_labels resource (m_labelnames m)) (PInt 1).

(** The samples a record gives to the family of a field: one when it has
    the field, none otherwise. *)
Definition field_samples (key : string) (m : Metric) (resource : dict) : list Sample :=
  match dict_get key resource with
  | Some value =>
      [plain_sample (m_name m) (shifted_labels resource (m_labelnames m)) value]
  | None => []
  end.

Definition guest_info : Metric :=
  GaugeMetricFamily "pve_guest_info" "VM/CT info" ["id"; "node"; "name"; "type"].

Definition storage_info : Metric :=
  GaugeMetricFamily "pve_storage_info" "Storage info" ["id"; "node"; "storage"].

(** A family as declared, whatever samples it holds by now. *)
Definition declared_as (m m' : Metric) : Prop := declaration m' = declaration m.

(** A backend record with the four fields the collector reads. *)
Definition storage_wf (storage : dict) : Prop :=
  has_keys ["type"; "active"; "shared"; "storage"] storage.

(** A cluster that answers a scrape of the volumes: the node listing
    answers with [nodes]; every listed node has a name and the listing of
    its backends answers, with records that have their fields; and the
    content of every retained backend of a listed node answers, with
    volumes that have theirs. *)
Definition volumes_answered (pve : ProxmoxAPI) (nodes : list dict) : Prop :=
  nodes_get pve = Ok nodes
  /\ forall node,
      In node nodes ->
      exists nodeid storages,
        dict_get "node" node = Some nodeid
        /\ nodes_storage_get pve nodeid = Ok storages
        /\ Forall storage_wf storages
        /\ forall st name,
            In st storages ->
            retained st ->
            dict_get "storage" st = Some name ->
            exists disks,
              nodes_storage_content_get pve nodeid name = Ok disks
              /\ Forall volume_wf disks.

(** ** Example clusters *)

Module Examples.

Definition no_answer {A : Type} : result A := Raise (ResourceException 501).

(** A client that answers nothing; the examples override fields. *)
Definition offline : ProxmoxAPI :=
  {| cluster_status_get := no_answer;
     cluster_resources_get := fun _ => no_answer;
     cluster_options_get := no_answer;
     version_get := no_answer;
     nodes_get := no_answer;
     nodes_qemu_get := fun _ => no_answer;
     nodes_qemu_config_get := fun _ _ => no_answer;
     nodes_lxc_get := fun _ => no_answer;
     nodes_lxc_config_get := fun _ _ => no_answer;
     nodes_storage_get := fun _ => no_answer;
     nodes_storage_content_get := fun _ _ => no_answer |}.

Definition status_entries : list dict :=
  [ [("type", PStr "cluster"); ("name", PStr "pvec"); ("id", PStr "cluster");
     ("nodes", PInt 2); ("quorate", PInt 1); ("version", PInt 2)];
    [("type", PStr "node"); ("id", PStr "node/pve1"); ("name", PStr "pve1");
     ("nodeid", PInt 1); ("level", PStr "c"); ("online", PInt 1)];
    [("type", PStr "node"); ("id", PStr "node/pve2"); ("name", PStr "pve2");
     ("nodeid", PInt 2); ("level", PStr "c"); ("online", PInt 0)] ].

Definition vm_resources : list dict :=
  [ [("id", PStr "qemu/100"); ("type", PStr "qemu"); ("node", PStr "pve1");
     ("name", PStr "vm1"); ("status", PStr "running"); ("maxmem", PInt 1073741824)];
    [("id", PStr "lxc/101"); ("type", PStr "lxc"); ("node", PStr "pve2");
     ("name", PStr "ct1"); ("status", PStr "stopped"); ("maxmem", PInt 536870912)] ].

Definition version_response : dict :=
  [("release", PStr "8.2"); ("repoid", PStr "7599e35a"); ("version", PStr "8.2.4");
   ("console", PStr "html5")].

Definition healthy : ProxmoxAPI :=
  {| cluster_status_get := Ok status_entries;
     cluster_resources_get := fun _ => Ok vm_resources;
     cluster_options_get := Ok [];
     version_get := Ok version_response;
     nodes_get := Ok [];
     nodes_qemu_get := fun _ => Ok [];
     nodes_qemu_config_get := fun _ _ => Ok [];
     nodes_lxc_get := fun _ => Ok [];
     nodes_lxc_config_get := fun _ _ => Ok [];
     nodes_storage_get := fun _ => Ok [];
     nodes_storage_content_get := fun _ _ => Ok [] |}.

(** A status listing with an entry that is neither a node nor a cluster. *)
Definition with_qdevice : ProxmoxAPI :=
  {| cluster_status_get :=
       Ok (status_entries ++ [[("type", PStr "qdevice"); ("id", PStr "qdevice/0")]]);
     cluster_resources_get := fun _ => Ok vm_resources;
     cluster_options_get := Ok [];
     version_get := Ok [("console", PStr "html5")];
     nodes_get := Ok [];
     nodes_qemu_get := fun _ => Ok [];
     nodes_qemu_config_get := fun _ _ => Ok [];
     nodes_lxc_get := fun _ => Ok [];
     nodes_lxc_config_get := fun _ _ => Ok [];
     nodes_storage_get := fun _ => Ok [];
     nodes_storage_content_get := fun _ _ => Ok [] |}.

(** A cluster that reports no status entry and no resource. *)
Definition quiet : ProxmoxAPI :=
  {| cluster_status_get := Ok [];
     cluster_resources_get := fun _ => Ok [];
     cluster_options_get := Ok [];
     version_get := Ok version_response;
     nodes_get := Ok [];
     nodes_qemu_get := fun _ => Ok [];
     nodes_qemu_config_get := fun _ _ => Ok [];
     nodes_lxc_get := fun _ => Ok [];
     nodes_lxc_config_get := fun _ _ => Ok [];
     nodes_storage_get := fun _ => Ok [];
     nodes_storage_content_get := fun _ _ => Ok [] |}.

(** A node resource: it has no [storage] field and no [name] field. *)
Definition node_resource : dict :=
  [("id", PStr "node/pve1"); ("node", PStr "pve1"); ("type", PStr "node");
   ("maxdisk", PInt 100861726720); ("uptime", PInt 86400)].

(** A storage resource without [node]. *)
Definition storage_resource : dict :=
  [("id", PStr "storage/pve1/local"); ("storage", PStr "local");
   ("type", PStr "storage"); ("shared", PInt 0)].

Definition newline : string := String (ascii_of_nat 10) "".
Definition quote : string := String (ascii_of_nat 34) "".

(** The payload of a metrics block: one gauge line with a label. *)
Definition foo_payload : string :=
  newline ++ "foo{a=" ++ quote ++ "1" ++ quote ++ ",__source=" ++ quote ++ "me"
  ++ quote ++ "} 5" ++ newline.

Definition metrics_section : string :=
  "## Prometheus metrics" ++ newline ++ backticks ++ foo_payload ++ backticks.

(** Notes that open with the metrics section. *)
Definition notes_heading_first : string :=
  metrics_section ++ newline ++ "Maintenance window: Sunday 02:00".

(** Notes with a line of text before the metrics section. *)
Definition notes_heading_later : string :=
  "Maintenance window: Sunday 02:00" ++ newline ++ metrics_section.

(** A stand-in for the exposition parser that knows [foo_payload] only
    (a parsed value is a float; the integer stands for it). *)
Definition parse_foo (text : string) : result (list Metric) :=
  if String.eqb text foo_payload then
    Ok [ {| m_name := "foo";
            m_documentation := "";
            m_type := "unknown";
            m_labelnames := [];
            m_samples :=
              [ {| s_name := "foo";
                   s_labels := [("a", PStr "1"); ("__source", PStr "me")];
                   s_value := PInt 5;
                   s_timestamp := Some (PInt 1700000000);
                   s_exemplar := None |} ] |} ]
  else Raise (ValueError "Invalid line").

Definition with_notes (notes : string) : ProxmoxAPI :=
  {| cluster_status_get := Ok [];
     cluster_resources_get := fun _ => Ok [];
     cluster_options_get := Ok [("description", PStr notes)];
     version_get := Ok version_response;
     nodes_get := Ok [];
     nodes_qemu_get := fun _ => Ok [];
     nodes_qemu_config_get := fun _ _ => Ok [];
     nodes_lxc_get := fun _ => Ok [];
     nodes_lxc_config_get := fun _ _ => Ok [];
     nodes_storage_get := fun _ => Ok [];
     nodes_storage_content_get := fun _ _ => Ok [] |}.

Definition on_node (node : pyval) (name : string) : bool := py_eq node (PStr name).

Definition node_list : list dict :=
  [ [("node", PStr "pve1"); ("status", PStr "online")];
    [("node", PStr "pve2"); ("status", PStr "online")] ].

Definition storage (name type : string) (active shared : Z) : dict :=
  [("storage", PStr name); ("type", PStr type); ("active", PInt active);
   ("shared", PInt shared)].

Definition volume (volid : string) (size : Z) : dict :=
  [("volid", PStr volid); ("size", PInt size); ("format", PStr "raw")].

(** Two nodes that both report the shared storage [ceph]; each has a local
    directory storage, and [pve1] a thin pool of its own. *)
Definition shared_ceph : ProxmoxAPI :=
  {| cluster_status_get := Ok status_entries;
     cluster_resources_get := fun _ => Ok vm_resources;
     cluster_options_get := Ok [];
     version_get := Ok version_response;
     nodes_get := Ok node_list;
     nodes_qemu_get := fun _ => Ok [];
     nodes_qemu_config_get := fun _ _ => Ok [];
     nodes_lxc_get := fun _ => Ok [];
     nodes_lxc_config_get := fun _ _ => Ok [];
     nodes_storage_get := fun node =>
       if on_node node "pve1" then
         Ok [storage "local" "dir" 1 0; storage "ceph" "rbd" 1 1;
             storage "local-lvm" "lvmthin" 1 0]
       else if on_node node "pve2" then
         Ok [storage "local" "dir" 1 0; storage "ceph" "rbd" 1 1]
       else no_answer;
     nodes_storage_content_get := fun node name =>
       if py_eq name (PStr "ceph") then Ok [volume "ceph:vm-100-disk-0" 34359738368]
       else if py_eq name (PStr "local-lvm") then
         Ok [volume "local-lvm:vm-101-disk-0" 8589934592]
       else Ok [volume "local:iso/debian-12.iso" 658505728] |}.

(** The same cluster when [pve2] does not answer. *)
Definition second_node_down : ProxmoxAPI :=
  {| cluster_status_get := Ok status_entries;
     cluster_resources_get := fun _ => Ok vm_resources;
     cluster_options_get := Ok [];
     version_get := Ok version_response;
     nodes_get := Ok node_list;
     nodes_qemu_get := fun node =>
       if on_node node "pve1" then Ok [[("vmid", PInt 100); ("name", PStr "vm1")]]
       else Raise (ResourceException 595);
     nodes_qemu_config_get := fun _ _ => Ok [("onboot", PInt 1); ("cores", PInt 2)];
     nodes_lxc_get := fun node =>
       if on_node node "pve1" then Ok [] else Raise (ResourceException 595);
     nodes_lxc_config_get := fun _ _ => Ok [];
     nodes_storage_get := fun node =>
       if on_node node "pve1" then Ok [storage "local-lvm" "lvmthin" 1 0]
       else Raise (ResourceException 595);
     nodes_storage_content_get := fun node name =>
       if on_node node "pve1" then Ok [volume "local-lvm:vm-100-disk-0" 34359738368]
       else Raise (ResourceException 595) |}.


(** [pve1] has a thin pool of its own called [data]; [pve2] reports a
    shared storage of the same name. *)
Definition name_clash : ProxmoxAPI :=
  {| cluster_status_get := Ok status_entries;
     cluster_resources_get := fun _ => Ok vm_resources;
     cluster_options_get := Ok [];
     version_get := Ok version_response;
     nodes_get := Ok node_list;
     nodes_qemu_get := fun _ => Ok [];
     nodes_qemu_config_get := fun _ _ => Ok [];
     nodes_lxc_get := fun _ => Ok [];
     nodes_lxc_config_get := fun _ _ => Ok [];
     nodes_storage_get := fun node =>
       if on_node node "pve1" then Ok [storage "data" "lvmthin" 1 0]
       else if on_node node "pve2" then Ok [storage "data" "nfs" 1 1]
       else no_answer;
     nodes_storage_content_get := fun node name =>
       if on_node node "pve1" then Ok [volume "data:vm-100-disk-0" 34359738368]
       else Ok [volume "data:200/vm-200-disk-0.raw" 17179869184] |}.

(** A cluster whose container listing fails on every node while the
    virtual machines answer. *)
Definition lxc_down : ProxmoxAPI :=
  {| cluster_status_get := Ok [];
     cluster_resources_get := fun _ => Ok [];
     cluster_options_get := Ok [];
     version_get := Ok [];
     nodes_get := Ok node_list;
     nodes_qemu_get := fun _ => Ok [[("vmid", PInt 100)]];
     nodes_qemu_config_get := fun _ _ => Ok [("onboot", PInt 1)];
     nodes_lxc_get := fun _ => Raise (ResourceException 595);
     nodes_lxc_config_get := fun _ _ => Ok [];
     nodes_storage_get := fun _ => Ok [];
     nodes_storage_content_get := fun _ _ => Ok [] |}.

(** Every collector switched off, and every collector switched on. *)
Definition none_enabled : CollectorsOptions.t :=
  {| CollectorsOptions.status := false;
     CollectorsOptions.version := false;
     CollectorsOptions.node := false;
     CollectorsOptions.cluster := false;
     CollectorsOptions.resources := false;
     CollectorsOptions.config := false;
     CollectorsOptions.volumes := false |}.

Definition all_enabled : CollectorsOptions.t :=
  {| CollectorsOptions.status := true;
     CollectorsOptions.version := true;
     CollectorsOptions.node := true;
     CollectorsOptions.cluster := true;
     CollectorsOptions.resources := true;
     CollectorsOptions.config := true;
     CollectorsOptions.volumes := true |}.

(** A stand-in for the renderer: the name of the family and the number of
    its samples do not matter here. *)
Definition render_name (m : Metric) : result string := Ok (m_name m ++ newline)%string.

Definition nothing_yet : world := {| w_log := []; w_calls := [] |}.

(** A node without storage or name field, and a storage without node. *)
Definition sparse : ProxmoxAPI :=
  {| cluster_status_get := Ok [];
     cluster_resources_get := fun _ => Ok [node_resource; storage_resource];
     cluster_options_get := Ok [];
     version_get := Ok version_response;
     nodes_get := Ok [];
     nodes_qemu_get := fun _ => Ok [];
     nodes_qemu_config_get := fun _ _ => Ok [];
     nodes_lxc_get := fun _ => Ok [];
     nodes_lxc_config_get := fun _ _ => Ok [];
     nodes_storage_get := fun _ => Ok [];
     nodes_storage_content_get := fun _ _ => Ok [] |}.

Definition three_nodes : list dict :=
  [ [("node", PStr "pve1"); ("status", PStr "online")];
    [("node", PStr "pve2"); ("status", PStr "online")];
    [("node", PStr "pve3"); ("status", PStr "online")] ].


(** Three nodes with a storage called [data] each: thin pools of their own
    on [pve1] and [pve2], a shared one on [pve3]. *)
Definition thin_pools : ProxmoxAPI :=
  {| cluster_status_get := Ok status_entries;
     cluster_resources_get := fun _ => Ok vm_resources;
     cluster_options_get := Ok [];
     version_get := Ok version_response;
     nodes_get := Ok three_nodes;
     nodes_qemu_get := fun _ => Ok [];
     nodes_qemu_config_get := fun _ _ => Ok [];
     nodes_lxc_get := fun _ => Ok [];
     nodes_lxc_config_get := fun _ _ => Ok [];
     nodes_storage_get := fun node =>
       if on_node node "pve3" then Ok [storage "data" "nfs" 1 1]
       else Ok [storage "data" "lvmthin" 1 0];
     nodes_storage_content_get := fun node name =>
       if on_node node "pve1" then
         Ok [volume "data:vm-100-disk-0" 34359738368]
       else if on_node node "pve2" then
         Ok [volume "data:vm-200-disk-0" 8589934592]
       else Ok [volume "data:300/vm-300-disk-0.raw" 17179869184] |}.

(** The no-break space, the em space and the ideographic space. *)
Definition nbsp : string := String (ascii_of_nat 194) (String (ascii_of_nat 160) "").
Definition em_space : string :=
  String (ascii_of_nat 226) (String (ascii_of_nat 128) (String (ascii_of_nat 131) "")).
Definition ideographic_space : string :=
  String (ascii_of_nat 227) (String (ascii_of_nat 128) (String (ascii_of_nat 128) "")).

(** Notes whose heading is set with white space beyond ASCII. *)
Definition notes_wide_spaces : string :=
  "#" ++ nbsp ++ "Prometheus metrics" ++ em_space ++ ideographic_space
  ++ newline ++ backticks ++ foo_payload ++ backticks.

End Examples.

(** * Properties *)

(** ** Scalars and dictionaries *)

Lemma py_eq_str (v : pyval) (s : string) : py_eq v (PStr s) = true <-> v = PStr s.
Proof.
  destruct v as [| b | z | t]; simpl; split; intro H; try discriminate.
  - apply String.eqb_eq in H. now subst.
  - inversion H. apply String.eqb_refl.
Qed.

Lemma py_eq_str_false (v : pyval) (s : string) :
  py_eq v (PStr s) = false <-> v <> PStr s.
Proof.
  split.
  - intros H E. apply py_eq_str in E. congruence.
  - intro H. destruct (py_eq v (PStr s)) eqn:E; [| reflexivity].
    apply py_eq_str in E. contradiction.
Qed.

Lemma getitem_some (d : dict) (k : string) (v : pyval) :
  dict_get k d = Some v -> getitem d k = Ok v.
Proof. unfold getitem. now intros ->. Qed.

(** ** Families under [add_metric] *)

Lemma set_samples_twice (m : Metric) (ss ss' : list Sample) :
  set_samples (set_samples m ss) ss' = set_samples m ss'.
Proof. reflexivity. Qed.

Lemma set_samples_same (m : Metric) : set_samples m (m_samples m) = m.
Proof. now destruct m. Qed.

(** A loop whose every turn is one [add_metric] appends one sample per
    element, in order. *)
Lemma rfold_add_each {A : Type} (body : A -> Metric -> result Metric)
  (xs : list A) (added : list (pyval * pyval)) :
  Forall2 (fun x lv => forall m, body x m = Ok (add_metric m [fst lv] (snd lv)))
          xs added ->
  forall m,
    rfold body xs m
    = Ok (set_samples m (m_samples m
                         ++ map (fun lv => mk_sample m [fst lv] (snd lv)) added)).
Proof.
  induction 1 as [| x lv xs added Hx _ IH]; intro m; simpl.
  - now rewrite app_nil_r, set_samples_same.
  - rewrite Hx. simpl. rewrite IH. unfold add_metric at 1 2. simpl.
    rewrite set_samples_twice, <- app_assoc. reflexivity.
Qed.

Lemma rfold_raises {A B : Type} (body : A -> B -> result B) (xs : list A) :
  Exists (fun x => forall acc, exists e, body x acc = Raise e) xs ->
  forall acc, exists e, rfold body xs acc = Raise e.
Proof.
  induction 1 as [x xs Hx | x xs _ IH]; intro acc; simpl.
  - destruct (Hx acc) as [e ->]. now exists e.
  - destruct (body x acc) as [acc' | e]; simpl; [apply IH | now exists e].
Qed.

(** ** StatusCollector *)

Lemma StatusCollector_entry_up (entry : dict) (id value : pyval) :
  up_entry entry id value ->
  forall m, StatusCollector_entry entry m = Ok (add_metric m [id] value).
Proof.
  intros [e i o Ht Hi Ho | e n q Ht Hn Hq] m; unfold StatusCollector_entry;
    rewrite (getitem_some _ _ _ Ht); simpl.
  - now rewrite (getitem_some _ _ _ Hi), (getitem_some _ _ _ Ho).
  - now rewrite (getitem_some _ _ _ Hn), (getitem_some _ _ _ Hq).
Qed.

Lemma StatusCollector_resource_up (resource : dict) (id value : pyval) :
  up_vm resource id value ->
  forall m, StatusCollector_resource resource m = Ok (add_metric m [id] value).
Proof.
  intros [r i Hi Hs | r i st Hi Hs Hne] m; unfold StatusCollector_resource;
    rewrite (getitem_some _ _ _ Hi), (getitem_some _ _ _ Hs); simpl.
  - reflexivity.
  - apply py_eq_str_false in Hne. now rewrite Hne.
Qed.

Lemma StatusCollector_entry_unrecognised (entry : dict) :
  unrecognised entry ->
  forall m, exists e, StatusCollector_entry entry m = Raise e.
Proof.
  intros Hu m. unfold StatusCollector_entry, getitem.
  destruct (dict_get "type" entry) as [ty |] eqn:Ht; simpl; [| eauto].
  destruct (Hu ty Ht) as [Hn Hc].
  apply py_eq_str_false in Hn, Hc. rewrite Hn, Hc.
  destruct (py_format_s ty); simpl; eauto.
Qed.

(** C4: the [pve_up] family holds one sample per node or cluster entry of
    the cluster status (a node under its id with its online flag, a cluster
    under ["cluster/" ++ name] with its quorate flag), followed by one sample
    per guest resource under its id, [True] (that is 1) for a running guest
    and [False] (0) otherwise; an entry of another type makes the collector
    raise. *)
Theorem StatusCollector_collect_up (pve : ProxmoxAPI) (entries resources : list dict) :
  cluster_status_get pve = Ok entries ->
  cluster_resources_get pve (Some "vm") = Ok resources ->
  (forall ups vms : list (pyval * pyval),
      Forall2 (fun entry up => up_entry entry (fst up) (snd up)) entries ups ->
      Forall2 (fun resource up => up_vm resource (fst up) (snd up)) resources vms ->
      StatusCollector_collect (StatusCollector_init pve)
      = Ok [ {| m_name := "pve_up";
                m_documentation := "Node/VM/CT-Status is online/running";
                m_type := "gauge";
                m_labelnames := ["id"];
                m_samples := map (fun up => up_sample (fst up) (snd up)) (ups ++ vms) |} ])
  /\ (Exists unrecognised entries ->
      exists e, StatusCollector_collect (StatusCollector_init pve) = Raise e)
  /\ py_num (PBool true) = Some 1%Z /\ py_num (PBool false) = Some 0%Z.
Proof.
  intros Hstatus Hvm. repeat split.
  - intros ups vms Hups Hvms. unfold StatusCollector_collect. simpl.
    rewrite Hstatus. simpl.
    rewrite (rfold_add_each StatusCollector_entry entries ups).
    + simpl. rewrite Hvm. simpl.
      rewrite (rfold_add_each StatusCollector_resource resources vms).
      * simpl. now rewrite map_app.
      * eapply Forall2_impl; [| exact Hvms].
        intros r up H. now apply StatusCollector_resource_up.
    + eapply Forall2_impl; [| exact Hups].
      intros e up H. now apply StatusCollector_entry_up.
  - intro Hex. unfold StatusCollector_collect. simpl. rewrite Hstatus. simpl.
    destruct (rfold_raises StatusCollector_entry entries) with
      (acc := GaugeMetricFamily "pve_up" "Node/VM/CT-Status is online/running" ["id"])
      as [e He].
    + eapply Exists_impl; [| exact Hex].
      intros entry Hu. now apply StatusCollector_entry_unrecognised.
    + rewrite He. simpl. now exists e.
Qed.

Lemma StatusCollector_collect_up_witness :
  StatusCollector_collect (StatusCollector_init Examples.healthy)
  = Ok [ {| m_name := "pve_up";
            m_documentation := "Node/VM/CT-Status is online/running";
            m_type := "gauge";
            m_labelnames := ["id"];
            m_samples :=
              [ up_sample (PStr "cluster/pvec") (PInt 1);
                up_sample (PStr "node/pve1") (PInt 1);
                up_sample (PStr "node/pve2") (PInt 0);
                up_sample (PStr "qemu/100") (PBool true);
                up_sample (PStr "lxc/101") (PBool false) ] |} ]
  /\ exists e, StatusCollector_collect (StatusCollector_init Examples.with_qdevice)
               = Raise e.
Proof.
  split.
  - apply (proj1 (StatusCollector_collect_up Examples.healthy Examples.status_entries
                    Examples.vm_resources eq_refl eq_refl)
             [ (PStr "cluster/pvec", PInt 1); (PStr "node/pve1", PInt 1);
               (PStr "node/pve2", PInt 0) ]
             [ (PStr "qemu/100", PBool true); (PStr "lxc/101", PBool false) ]).
    + constructor; [apply (up_cluster _ "pvec"); reflexivity |].
      constructor; [apply up_node; reflexivity |].
      constructor; [apply up_node; reflexivity | constructor].
    + constructor; [apply up_vm_running; reflexivity |].
      constructor; [| constructor].
      apply (up_vm_stopped _ _ (PStr "stopped")); [reflexivity | reflexivity | discriminate].
  - apply (proj1 (proj2 (StatusCollector_collect_up Examples.with_qdevice _
                           Examples.vm_resources eq_refl eq_refl))).
    do 3 apply Exists_cons_tl. apply Exists_cons_hd.
    intros ty H. inversion H. split; discriminate.
Defined.

(** ** VersionCollector *)

Lemma dict_set_fresh (k : string) (v : pyval) (d : dict) :
  ~ In k (dict_keys d) -> dict_set k v d = d ++ [(k, v)].
Proof.
  induction d as [| [k' v'] d IH]; simpl; intro Hn; [reflexivity |].
  destruct (String.eqb k k') eqn:E.
  - apply String.eqb_eq in E. subst. tauto.
  - rewrite IH; [reflexivity | tauto].
Qed.

Lemma fold_dict_set_wf (items : list (string * pyval)) :
  forall acc : dict,
    NoDup (dict_keys (acc ++ items)) ->
    fold_left (fun acc kv => dict_set (fst kv) (snd kv) acc) items acc = acc ++ items.
Proof.
  induction items as [| [k v] items IH]; intros acc Hnd; simpl.
  - now rewrite app_nil_r.
  - rewrite dict_set_fresh.
    + rewrite IH; rewrite <- app_assoc; [reflexivity | exact Hnd].
    + unfold dict_keys in Hnd. rewrite map_app in Hnd. simpl in Hnd.
      apply NoDup_remove_2 in Hnd. intro Hin. apply Hnd.
      apply in_or_app. now left.
Qed.

Lemma dict_of_items_wf (d : dict) : dict_wf d -> dict_of_items d = d.
Proof. intro H. unfold dict_of_items. now rewrite fold_dict_set_wf. Qed.

Lemma dict_wf_filter (p : string * pyval -> bool) (d : dict) :
  dict_wf d -> dict_wf (filter p d).
Proof.
  unfold dict_wf, dict_keys. induction d as [| kv d IH]; simpl; intro H; [constructor |].
  inversion H as [| ? ? Hn Hd]; subst.
  destruct (p kv); simpl; [| now apply IH].
  constructor; [| now apply IH].
  intro Hin. apply Hn. apply in_map_iff in Hin. destruct Hin as [x [Hx Hf]].
  apply filter_In in Hf. apply in_map_iff. exists x. tauto.
Qed.

Lemma combine_fst_snd {A B : Type} (l : list (A * B)) :
  combine (map fst l) (map snd l) = l.
Proof. induction l as [| [a b] l IH]; simpl; [| rewrite IH]; reflexivity. Qed.

Lemma str_in_In (k : string) (l : list string) : str_in k l = true <-> In k l.
Proof.
  unfold str_in. rewrite existsb_exists. split.
  - intros [x [Hx He]]. apply String.eqb_eq in He. now subst.
  - intro H. exists k. split; [exact H | apply String.eqb_refl].
Qed.

Lemma dict_contains_filter_keys (keep : list string) (k : string) (d : dict) :
  dict_contains k (filter (fun kv => str_in (fst kv) keep) d) = true
  <-> In k keep /\ dict_contains k d = true.
Proof.
  unfold dict_contains. induction d as [| [k' v'] d IH]; simpl.
  - split; [discriminate | intros [_ H]; discriminate].
  - destruct (str_in k' keep) eqn:Hk; simpl; destruct (String.eqb k k') eqn:E.
    + apply String.eqb_eq in E. subst. apply str_in_In in Hk. tauto.
    + exact IH.
    + apply String.eqb_eq in E. subst. rewrite IH. split.
      * tauto.
      * intros [Hin _]. apply str_in_In in Hin. congruence.
    + exact IH.
Qed.

Lemma unpack_zip_star_nonempty (items : list (string * pyval)) :
  items <> [] -> unpack_zip_star items = Ok (map fst items, map snd items).
Proof. destruct items; [contradiction | reflexivity]. Qed.

(** C5: the version family holds one sample of value 1 whose labels are the
    response restricted to the keys [release], [repoid] and [version]; when
    the response has none of them the collector raises. *)
Theorem VersionCollector_collect_labels (pve : ProxmoxAPI) (response : dict) :
  version_get pve = Ok response ->
  dict_wf response ->
  let present := filter (fun kv => str_in (fst kv) LABEL_WHITELIST) response in
  (present <> [] ->
   VersionCollector_collect (VersionCollector_init pve)
   = Ok [ {| m_name := "pve_version_info";
             m_documentation := "Proxmox VE version info";
             m_type := "gauge";
             m_labelnames := dict_keys present;
             m_samples := [plain_sample "pve_version_info" present (PInt 1)] |} ])
  /\ (present = [] ->
      exists msg, VersionCollector_collect (VersionCollector_init pve)
                  = Raise (ValueError msg))
  /\ (forall k, dict_contains k present = true
                <-> In k LABEL_WHITELIST /\ dict_contains k response = true).
Proof.
  intros Hget Hwf present.
  assert (Hversion : dict_of_items present = present)
    by (apply dict_of_items_wf, dict_wf_filter, Hwf).
  split; [| split].
  - intro Hne. unfold VersionCollector_collect, VersionCollector_init.
    change (self_pve [("_pve", AttrAPI pve)]) with (Ok pve).
    cbn [rbind]. rewrite Hget. cbn [rbind].
    fold present. rewrite Hversion, (unpack_zip_star_nonempty present Hne).
    unfold rbind, add_metric, mk_sample, GaugeMetricFamily, plain_sample.
    cbn [fst snd m_labelnames m_samples m_name set_samples app
         m_documentation m_type].
    rewrite combine_fst_snd, Hversion. reflexivity.
  - intro He. unfold VersionCollector_collect, VersionCollector_init.
    change (self_pve [("_pve", AttrAPI pve)]) with (Ok pve).
    cbn [rbind]. rewrite Hget. cbn [rbind].
    fold present. rewrite Hversion, He. simpl. eauto.
  - intro k. apply dict_contains_filter_keys.
Qed.

Lemma VersionCollector_collect_labels_witness :
  VersionCollector_collect (VersionCollector_init Examples.healthy)
  = Ok [ {| m_name := "pve_version_info";
            m_documentation := "Proxmox VE version info";
            m_type := "gauge";
            m_labelnames := ["release"; "repoid"; "version"];
            m_samples :=
              [ plain_sample "pve_version_info"
                  [("release", PStr "8.2"); ("repoid", PStr "7599e35a");
                   ("version", PStr "8.2.4")]
                  (PInt 1) ] |} ]
  /\ exists msg, VersionCollector_collect (VersionCollector_init Examples.with_qdevice)
                 = Raise (ValueError msg).
Proof.
  assert (Hwf : forall d : dict,
             NoDup (map fst d) -> dict_wf d) by (intros d H; exact H).
  split.
  - apply (proj1 (VersionCollector_collect_labels Examples.healthy
                    Examples.version_response eq_refl
                    ltac:(apply Hwf; simpl;
                          repeat (constructor; [simpl; intuition discriminate |]);
                          constructor))).
    discriminate.
  - apply (proj1 (proj2 (VersionCollector_collect_labels Examples.with_qdevice
                           [("console", PStr "html5")] eq_refl
                           ltac:(apply Hwf; simpl;
                                 repeat (constructor; [simpl; intuition discriminate |]);
                                 constructor)))).
    reflexivity.
Defined.

(** ** ClusterResourcesCollector *)

Lemma rmap_getitem_present (d : dict) (keys : list string) :
  Forall (fun k => dict_contains k d = true) keys ->
  exists vs, rmap (getitem d) keys = Ok vs /\ Forall2 (label_of d) keys vs.
Proof.
  induction 1 as [| k keys Hk _ [vs [Hvs Hall]]]; simpl.
  - exists []. split; [reflexivity | constructor].
  - unfold dict_contains in Hk. unfold getitem at 1.
    destruct (dict_get k d) as [v |] eqn:E; [| discriminate].
    simpl. rewrite Hvs. simpl. exists (v :: vs). split; [reflexivity |].
    constructor; assumption.
Qed.

Lemma metric_label_values_ok (resource : dict) (metric : Metric) :
  exists vs,
    metric_label_values resource metric = Ok vs
    /\ Forall2 (label_of resource)
               (filter (fun l => dict_contains l resource) (m_labelnames metric)) vs.
Proof.
  unfold metric_label_values. apply rmap_getitem_present.
  apply Forall_forall. intros l Hl. now apply filter_In in Hl.
Qed.

Lemma filter_length_missing {A : Type} (p : A -> bool) (l : list A) :
  (exists x, In x l /\ p x = false) -> (length (filter p l) < length l)%nat.
Proof.
  induction l as [| a l IH]; simpl; intros [x [Hin Hp]]; [contradiction |].
  assert (Hle : (length (filter p l) <= length l)%nat) by apply filter_length_le.
  destruct Hin as [-> | Hin].
  - rewrite Hp. lia.
  - destruct (p a); simpl; [| lia].
    apply -> Nat.succ_lt_mono. apply IH. now exists x.
Qed.

Lemma dict_get_not_key (k : string) (d : dict) :
  ~ In k (dict_keys d) -> dict_get k d = None.
Proof.
  induction d as [| [k' v] d IH]; simpl; intro H; [reflexivity |].
  destruct (String.eqb k k') eqn:E.
  - apply String.eqb_eq in E. subst. tauto.
  - apply IH. tauto.
Qed.

Lemma combine_keys_firstn {A : Type} (names : list string) (vs : list A) :
  map fst (combine names vs) = firstn (length vs) names.
Proof.
  revert vs. induction names as [| n names IH]; intros [| v vs]; simpl;
    [reflexivity | reflexivity | reflexivity | now rewrite IH].
Qed.

Lemma NoDup_firstn {A : Type} (n : nat) (l : list A) : NoDup l -> NoDup (firstn n l).
Proof.
  revert n. induction l as [| a l IH]; intros [| n] H; simpl; try constructor.
  - inversion H as [| ? ? Hn Hd]; subst. intro Hin. apply Hn.
    rewrite <- (firstn_skipn n l). apply in_or_app. now left.
  - inversion H. now apply IH.
Qed.

(** With distinct label names the labels of a sample are the names zipped
    with the values, cut at the shorter of the two. *)
Lemma mk_sample_labels (metric : Metric) (vs : list pyval) (value : pyval) :
  NoDup (m_labelnames metric) ->
  s_labels (mk_sample metric vs value) = combine (m_labelnames metric) vs.
Proof.
  intro Hnd. unfold mk_sample. simpl. apply dict_of_items_wf.
  unfold dict_wf, dict_keys. rewrite combine_keys_firstn. now apply NoDup_firstn.
Qed.

Lemma filter_all {A : Type} (p : A -> bool) (l : list A) :
  Forall (fun x => p x = true) l -> filter p l = l.
Proof.
  induction 1 as [| x l Hx _ IH]; simpl; [reflexivity |]. now rewrite Hx, IH.
Qed.

Lemma dict_get_app_fresh (k : string) (d1 d2 : dict) :
  ~ In k (dict_keys d1) -> dict_get k (d1 ++ d2) = dict_get k d2.
Proof.
  induction d1 as [| [k' v] d1 IH]; simpl; intro H; [reflexivity |].
  destruct (String.eqb k k') eqn:E.
  - apply String.eqb_eq in E. subst. tauto.
  - apply IH. tauto.
Qed.

Lemma families_get_update (key k : string) (f : Metric -> Metric) (fs : families) :
  families_get key (families_update k f fs)
  = if String.eqb key k then option_map f (families_get key fs) else families_get key fs.
Proof.
  induction fs as [| [k' m] fs IH]; simpl.
  - now destruct (String.eqb key k).
  - destruct (String.eqb k k') eqn:Ek; simpl.
    + apply String.eqb_eq in Ek. subst k'.
      destruct (String.eqb key k) eqn:E; [reflexivity | reflexivity].
    + destruct (String.eqb key k') eqn:Ek'.
      * apply String.eqb_eq in Ek'. subst k'.
        rewrite String.eqb_sym in Ek. now rewrite Ek.
      * exact IH.
Qed.

Lemma families_update_keys (k : string) (f : Metric -> Metric) (fs : families) :
  map fst (families_update k f fs) = map fst fs.
Proof.
  induction fs as [| [k' m] fs IH]; simpl; [reflexivity |].
  destruct (String.eqb k k'); simpl; [reflexivity | now rewrite IH].
Qed.

Lemma metric_label_values_present (resource : dict) (metric : Metric) :
  metric_label_values resource metric
  = Ok (present_values resource (m_labelnames metric)).
Proof.
  unfold metric_label_values, present_values.
  induction (m_labelnames metric) as [| name names IH]; [reflexivity |].
  cbn [filter flat_map]. unfold dict_contains at 1.
  destruct (dict_get name resource) as [v |] eqn:E.
  - cbn [rmap]. unfold getitem at 1. rewrite E. cbn [rbind]. rewrite IH. reflexivity.
  - exact IH.
Qed.

Lemma info_labels_keys (resource : dict) (names : list string) :
  dict_keys (info_labels resource names) = names.
Proof. unfold dict_keys, info_labels. rewrite map_map. simpl. apply map_id. Qed.

Lemma info_labels_get (resource : dict) (names : list string) (name : string) :
  In name names ->
  dict_get name (info_labels resource names)
  = Some (match dict_get name resource with
          | Some v => v
          | None => PStr ""
          end).
Proof.
  induction names as [| n names IH]; simpl; [contradiction |].
  intros [-> | Hin].
  - now rewrite String.eqb_refl.
  - destruct (String.eqb name n) eqn:E.
    + apply String.eqb_eq in E. now subst n.
    + now apply IH.
Qed.

Lemma present_values_length (resource : dict) (names : list string) :
  length (present_values resource names)
  = length (filter (fun l => dict_contains l resource) names).
Proof.
  unfold present_values, dict_contains.
  induction names as [| n names IH]; simpl; [reflexivity |].
  destruct (dict_get n resource); simpl; now rewrite IH.
Qed.

Lemma shifted_labels_keys (resource : dict) (names : list string) :
  dict_keys (shifted_labels resource names)
  = firstn (length (present_values resource names)) names.
Proof. apply combine_keys_firstn. Qed.

(** The labels a record has before the first one it lacks keep their own
    values. *)
Lemma shifted_labels_present (resource : dict) (present rest : list string) (l : string) :
  Forall (fun l => dict_contains l resource = true) present ->
  In l present ->
  dict_get l (shifted_labels resource (present ++ rest)) = dict_get l resource.
Proof.
  unfold shifted_labels, present_values.
  induction 1 as [| p present Hp _ IH]; intro Hin; [contradiction |].
  unfold dict_contains in Hp. cbn [app flat_map].
  destruct (dict_get p resource) as [v |] eqn:E; [| discriminate].
  cbn [app combine dict_get]. destruct (String.eqb l p) eqn:El.
  - apply String.eqb_eq in El. now subst p.
  - apply IH. destruct Hin as [-> | Hin]; [| exact Hin].
    now rewrite String.eqb_refl in El.
Qed.

(** The value of the next label the record has, under the name of the
    label it lacks. *)
Lemma shifted_labels_shift (resource : dict) (present : list string)
  (missing next : string) (others : list string) (v : pyval) :
  NoDup (present ++ missing :: next :: others) ->
  Forall (fun l => dict_contains l resource = true) present ->
  dict_get missing resource = None ->
  dict_get next resource = Some v ->
  dict_get missing (shifted_labels resource (present ++ missing :: next :: others))
  = Some v.
Proof.
  intros Hnd Hpresent Hmissing Hnext. unfold shifted_labels.
  assert (Hsplit : forall rest : list string,
             present_values resource (present ++ rest)
             = present_values resource present ++ present_values resource rest).
  { intro rest. unfold present_values. apply flat_map_app. }
  rewrite Hsplit.
  assert (Hlen : length present = length (present_values resource present)).
  { rewrite present_values_length, filter_all; [reflexivity | exact Hpresent]. }
  assert (Hcomb : forall (a : list string) (b c : list pyval) (d : list string),
             length a = length b ->
             combine (a ++ d) (b ++ c) = combine a b ++ combine d c).
  { induction a as [| x a IH]; intros [| y b] c d Hl; simpl in *; try discriminate;
      [reflexivity |]. f_equal. apply IH. now inversion Hl. }
  rewrite (Hcomb _ _ _ _ Hlen), dict_get_app_fresh.
  - unfold present_values. cbn [flat_map]. rewrite Hmissing, Hnext. simpl.
    now rewrite String.eqb_refl.
  - unfold dict_keys. rewrite combine_keys_firstn, <- Hlen, firstn_all.
    apply NoDup_remove_2 in Hnd. intro Hin. apply Hnd. apply in_or_app. now left.
Qed.

Lemma mk_sample_plain (m : Metric) (vs : list pyval) (value : pyval) :
  NoDup (m_labelnames m) ->
  mk_sample m vs value = plain_sample (m_name m) (combine (m_labelnames m) vs) value.
Proof.
  intro Hnd. unfold plain_sample.
  rewrite <- (mk_sample_labels m vs value Hnd). reflexivity.
Qed.

Lemma declared_as_name (m m' : Metric) :
  declared_as m m' -> m_name m' = m_name m /\ m_labelnames m' = m_labelnames m.
Proof.
  intro H. split; [exact (f_equal m_name H) | exact (f_equal m_labelnames H)].
Qed.

Lemma declared_as_samples (m m' : Metric) :
  declared_as m m' -> m' = set_samples m (m_samples m').
Proof.
  intro H. rewrite <- (set_samples_same m') at 1.
  change (set_samples (declaration m') (m_samples m')
          = set_samples (declaration m) (m_samples m')).
  now rewrite H.
Qed.

Lemma declared_as_add (m m' : Metric) (labels : list pyval) (value : pyval) :
  declared_as m m' -> declared_as m (add_metric m' labels value).
Proof. intro H. exact H. Qed.

Lemma dict_wf_filter_key (key : string) (d : dict) :
  dict_wf d ->
  map snd (filter (fun kv => String.eqb key (fst kv)) d)
  = match dict_get key d with
    | Some v => [v]
    | None => []
    end.
Proof.
  unfold dict_wf.
  induction d as [| [k v] d IH]; simpl; intro H; [reflexivity |].
  inversion H as [| ? ? Hn Hd]; subst.
  destruct (String.eqb key k) eqn:E; simpl.
  - apply String.eqb_eq in E. subst k. f_equal.
    rewrite (IH Hd). now rewrite (dict_get_not_key key d Hn).
  - now apply IH.
Qed.

(** The metric pass over the fields of a record: the family of a key gets
    one sample for each field of that name, labelled with the values the
    record has for the family's labels. *)
Lemma resources_metric_pass_samples (resource : dict) (key : string) (mk : Metric)
  (items : list (string * pyval)) :
  NoDup (m_labelnames mk) ->
  forall metrics m0,
    families_get key metrics = Some m0 ->
    declared_as mk m0 ->
    exists metrics' m1,
      rfold (resources_metric_item resource) items metrics = Ok metrics'
      /\ map fst metrics' = map fst metrics
      /\ families_get key metrics' = Some m1
      /\ declared_as mk m1
      /\ m_samples m1
         = m_samples m0
           ++ map (fun value =>
                     plain_sample (m_name mk)
                       (shifted_labels resource (m_labelnames mk)) value)
                  (map snd (filter (fun kv => String.eqb key (fst kv)) items)).
Proof.
  intro Hnd.
  induction items as [| [k v] items IH]; intros metrics m0 Hget Hdecl.
  - exists metrics, m0. simpl. rewrite app_nil_r. auto.
  - cbn [rfold]. unfold resources_metric_item at 1. cbn [fst snd].
    destruct (families_get k metrics) as [metric |] eqn:Hk.
    + rewrite metric_label_values_present. cbn [rbind].
      set (vs := present_values resource (m_labelnames metric)).
      destruct (String.eqb key k) eqn:E.
      * apply String.eqb_eq in E. subst k.
        rewrite Hget in Hk. inversion Hk. subst metric.
        destruct (IH (families_update key (fun m => add_metric m vs v) metrics)
                     (add_metric m0 vs v))
          as [metrics' [m1 [Hrun [Hkeys [Hget1 [Hdecl1 Hsamples]]]]]].
        { rewrite families_get_update, String.eqb_refl, Hget. reflexivity. }
        { now apply declared_as_add. }
        exists metrics', m1. split; [exact Hrun |].
        split; [now rewrite Hkeys, families_update_keys |]. split; [exact Hget1 |].
        split; [exact Hdecl1 |].
        rewrite Hsamples. cbn [filter fst]. rewrite String.eqb_refl.
        cbn [map snd]. unfold add_metric at 1. cbn [m_samples set_samples].
        rewrite <- app_assoc. f_equal. cbn [app]. f_equal.
        destruct (declared_as_name _ _ Hdecl) as [Hname Hlabels].
        rewrite mk_sample_plain by (rewrite Hlabels; exact Hnd).
        unfold vs, shifted_labels. now rewrite Hname, Hlabels.
      * destruct (IH (families_update k (fun m => add_metric m vs v) metrics) m0)
          as [metrics' [m1 [Hrun [Hkeys [Hget1 [Hdecl1 Hsamples]]]]]].
        { rewrite families_get_update, E. exact Hget. }
        { exact Hdecl. }
        exists metrics', m1. split; [exact Hrun |].
        split; [now rewrite Hkeys, families_update_keys |]. split; [exact Hget1 |].
        split; [exact Hdecl1 |]. rewrite Hsamples. cbn [filter fst]. now rewrite E.
    + cbn [rbind].
      destruct (IH metrics m0 Hget Hdecl)
        as [metrics' [m1 [Hrun [Hkeys [Hget1 [Hdecl1 Hsamples]]]]]].
      exists metrics', m1. split; [exact Hrun |]. split; [exact Hkeys |].
      split; [exact Hget1 |].
      split; [exact Hdecl1 |]. rewrite Hsamples. cbn [filter fst].
      destruct (String.eqb key k) eqn:E; [| reflexivity].
      apply String.eqb_eq in E. subst k. congruence.
Qed.

Lemma resources_info_pass_keys (resource : dict) (restype : pyval)
  (info_metrics : families) :
  map fst (resources_info_pass resource restype info_metrics) = map fst info_metrics.
Proof.
  unfold resources_info_pass.
  destruct (info_lookup_find restype) as [[labels gauge] |]; [| reflexivity].
  apply families_update_keys.
Qed.

(** The type of a record decides the info family it is filed under. *)
Lemma info_lookup_filed (resource : dict) (restype : pyval) :
  dict_get "type" resource = Some restype ->
  info_lookup_find restype
  = if is_guest resource then Some (m_labelnames guest_info, "guest")
    else if has_type "storage" resource then Some (m_labelnames storage_info, "storage")
    else None.
Proof.
  intro Ht. unfold is_guest, has_type, dict_get_default. rewrite Ht.
  destruct restype as [| b | z | t]; try reflexivity.
  unfold info_lookup_find, info_lookup. cbn [info_lookup_get py_eq].
  destruct (String.eqb t "lxc"); [reflexivity |].
  destruct (String.eqb t "qemu"); [reflexivity |].
  destruct (String.eqb t "storage"); reflexivity.
Qed.

Lemma is_guest_not_storage (resource : dict) :
  is_guest resource = true -> has_type "storage" resource = false.
Proof.
  unfold is_guest, has_type. intro H.
  destruct (py_eq _ (PStr "storage")) eqn:E; [| reflexivity].
  apply py_eq_str in E. rewrite E in H. discriminate H.
Qed.

(** The info pass for one record: the family the record is filed under gets
    one sample with every declared label. *)
Lemma resources_info_pass_samples (resource : dict) (restype : pyval)
  (info_metrics : families) (mg ms : Metric) :
  dict_get "type" resource = Some restype ->
  families_get "guest" info_metrics = Some mg ->
  families_get "storage" info_metrics = Some ms ->
  declared_as guest_info mg ->
  declared_as storage_info ms ->
  exists mg' ms',
    families_get "guest" (resources_info_pass resource restype info_metrics) = Some mg'
    /\ families_get "storage" (resources_info_pass resource restype info_metrics)
       = Some ms'
    /\ declared_as guest_info mg'
    /\ declared_as storage_info ms'
    /\ m_samples mg'
       = m_samples mg ++ map (info_sample guest_info) (filter is_guest [resource])
    /\ m_samples ms'
       = m_samples ms
         ++ map (info_sample storage_info) (filter (has_type "storage") [resource]).
Proof.
  intros Ht Hg Hs Hdg Hds. unfold resources_info_pass.
  rewrite (info_lookup_filed resource restype Ht). cbn [filter].
  destruct (is_guest resource) eqn:Eg.
  - rewrite (is_guest_not_storage resource Eg).
    rewrite !families_get_update. cbn [String.eqb Ascii.eqb Bool.eqb]. rewrite Hg, Hs.
    cbn [option_map]. eexists. eexists. split; [reflexivity |]. split; [reflexivity |].
    split; [exact Hdg |]. split; [exact Hds |]. split; [| now rewrite app_nil_r].
    cbn [add_metric m_samples set_samples map]. f_equal. f_equal.
    destruct (declared_as_name _ _ Hdg) as [Hname Hlabels].
    unfold mk_sample, info_sample, plain_sample.
    rewrite Hname, Hlabels. reflexivity.
  - destruct (has_type "storage" resource) eqn:Es.
    + rewrite !families_get_update. cbn [String.eqb Ascii.eqb Bool.eqb]. rewrite Hg, Hs.
      cbn [option_map]. eexists. eexists. split; [reflexivity |]. split; [reflexivity |].
      split; [exact Hdg |]. split; [exact Hds |]. split; [now rewrite app_nil_r |].
      cbn [add_metric m_samples set_samples map]. f_equal. f_equal.
      destruct (declared_as_name _ _ Hds) as [Hname Hlabels].
      unfold mk_sample, info_sample, plain_sample.
      rewrite Hname, Hlabels. reflexivity.
    + exists mg, ms. rewrite !app_nil_r.
      split; [exact Hg |]. split; [exact Hs |]. split; [exact Hdg |].
      split; [exact Hds |]. split; reflexivity.
Qed.

Lemma field_samples_wf (key : string) (mk : Metric) (resource : dict) :
  dict_wf resource ->
  map (fun value =>
         plain_sample (m_name mk) (shifted_labels resource (m_labelnames mk)) value)
      (map snd (filter (fun kv => String.eqb key (fst kv)) resource))
  = field_samples key mk resource.
Proof.
  intro Hwf. rewrite (dict_wf_filter_key key resource Hwf). unfold field_samples.
  now destruct (dict_get key resource).
Qed.

(** The loop over the resources: what each family has received. *)
Lemma resources_loop_samples (key : string) (mk : Metric) (resources : list dict) :
  NoDup (m_labelnames mk) ->
  Forall (fun r => dict_contains "type" r = true /\ dict_wf r) resources ->
  forall acc m0 mg ms,
    families_get key (fst acc) = Some m0 ->
    families_get "guest" (snd acc) = Some mg ->
    families_get "storage" (snd acc) = Some ms ->
    declared_as mk m0 ->
    declared_as guest_info mg ->
    declared_as storage_info ms ->
    exists acc' m1 mg' ms',
      rfold resources_resource resources acc = Ok acc'
      /\ map fst (fst acc') = map fst (fst acc)
      /\ map fst (snd acc') = map fst (snd acc)
      /\ families_get key (fst acc') = Some m1
      /\ families_get "guest" (snd acc') = Some mg'
      /\ families_get "storage" (snd acc') = Some ms'
      /\ declared_as mk m1
      /\ declared_as guest_info mg'
      /\ declared_as storage_info ms'
      /\ m_samples m1 = m_samples m0 ++ flat_map (field_samples key mk) resources
      /\ m_samples mg'
         = m_samples mg ++ map (info_sample guest_info) (filter is_guest resources)
      /\ m_samples ms'
         = m_samples ms
           ++ map (info_sample storage_info) (filter (has_type "storage") resources).
Proof.
  intro Hnd.
  induction 1 as [| r resources [Hr Hwf] _ IH]; intros acc m0 mg ms Hk Hg Hs Hdk Hdg Hds.
  - exists acc, m0, mg, ms. simpl. rewrite !app_nil_r. auto 12.
  - cbn [rfold]. unfold resources_resource at 1. unfold dict_contains in Hr.
    unfold getitem. destruct (dict_get "type" r) as [restype |] eqn:Ht; [| discriminate].
    cbn [rbind].
    destruct (resources_metric_pass_samples r key mk r Hnd (fst acc) m0 Hk Hdk)
      as [metrics1 [m1 [-> [Hkeys1 [Hk1 [Hdk1 Hs1]]]]]]. cbn [rbind].
    destruct (resources_info_pass_samples r restype (snd acc) mg ms Ht Hg Hs Hdg Hds)
      as [mg1 [ms1 [Hg1 [Hs1' [Hdg1 [Hds1 [Hgs Hss]]]]]]].
    destruct (IH (metrics1, resources_info_pass r restype (snd acc)) m1 mg1 ms1
                Hk1 Hg1 Hs1' Hdk1 Hdg1 Hds1)
      as [acc' [m2 [mg2 [ms2 [Hrun [Hkm [Hki [Hk2 [Hg2 [Hs2 [Hdk2 [Hdg2 [Hds2 [Hks
           [Hgs2 Hss2]]]]]]]]]]]]]]].
    cbn [fst snd] in Hkm, Hki.
    exists acc', m2, mg2, ms2. split; [exact Hrun |].
    split; [now rewrite Hkm |].
    split; [now rewrite Hki, resources_info_pass_keys |]. split; [exact Hk2 |].
    split; [exact Hg2 |]. split; [exact Hs2 |]. split; [exact Hdk2 |].
    split; [exact Hdg2 |]. split; [exact Hds2 |].
    rewrite Hks, Hs1, Hgs2, Hgs, Hss2, Hss, (field_samples_wf key mk r Hwf).
    cbn [flat_map]. rewrite <- !app_assoc, <- !map_app.
    split; [reflexivity |]. split; f_equal; f_equal;
      cbn [filter]; [destruct (is_guest r) | destruct (has_type "storage" r)]; reflexivity.
Qed.

Lemma resources_metrics_declared (key : string) (m : Metric) :
  families_get key resources_metrics = Some m ->
  NoDup (m_labelnames m) /\ m_samples m = [].
Proof.
  unfold resources_metrics. cbn [families_get]. intro H.
  repeat match type of H with
         | (if ?c then _ else _) = Some _ =>
             destruct c;
             [inversion H; subst m; split; [| reflexivity];
              cbn [m_labelnames GaugeMetricFamily];
              repeat (constructor; [simpl; intuition discriminate |]); constructor |]
         end.
  discriminate H.
Qed.

Lemma families_get_key (key : string) (fs : families) (m : Metric) :
  families_get key fs = Some m -> In (key, m) fs.
Proof.
  induction fs as [| [k m'] fs IH]; simpl; [discriminate |].
  destruct (String.eqb key k) eqn:E.
  - apply String.eqb_eq in E. subst k. intro H. inversion H. now left.
  - intro H. right. now apply IH.
Qed.

(** Families known key by key are known as a list. *)
Lemma families_values_exact (F : string -> Metric -> Metric) (fs0 : families) :
  NoDup (map fst fs0) ->
  forall fs,
    map fst fs = map fst fs0 ->
    (forall key m, families_get key fs0 = Some m -> families_get key fs = Some (F key m)) ->
    families_values fs = map (fun km => F (fst km) (snd km)) fs0.
Proof.
  induction fs0 as [| [k0 m0] fs0 IH]; intros Hnd [| [k m] fs] Hkeys Hget;
    try discriminate Hkeys; [reflexivity |].
  simpl in Hkeys. injection Hkeys as -> Hkeys.
  inversion Hnd as [| ? ? Hfresh Hnd']; subst.
  cbn [families_values map fst snd]. f_equal.
  - specialize (Hget k0 m0). simpl in Hget. rewrite String.eqb_refl in Hget.
    specialize (Hget eq_refl). now inversion Hget.
  - apply (IH Hnd' fs Hkeys). intros key m1 H1.
    assert (Hne : String.eqb key k0 = false).
    { apply String.eqb_neq. intros ->. apply Hfresh.
      apply families_get_key in H1. now apply (in_map fst) in H1. }
    specialize (Hget key m1). simpl in Hget. rewrite Hne in Hget. now apply Hget.
Qed.

(** What the resources collector returns: each of the twelve families with
    the samples of the records that have its field, then the two info
    families. *)
Lemma resources_collect_samples (pve : ProxmoxAPI) (resources : list dict) :
  cluster_resources_get pve None = Ok resources ->
  Forall (fun r => dict_contains "type" r = true /\ dict_wf r) resources ->
  ClusterResourcesCollector_collect (ClusterResourcesCollector_init pve)
  = Ok (map (fun km => set_samples (snd km)
                         (flat_map (field_samples (fst km) (snd km)) resources))
            resources_metrics
        ++ [ set_samples guest_info
               (map (info_sample guest_info) (filter is_guest resources));
             set_samples storage_info
               (map (info_sample storage_info)
                    (filter (has_type "storage") resources)) ]).
Proof.
  intros Hget Hres.
  assert (Hrun : ClusterResourcesCollector_collect (ClusterResourcesCollector_init pve)
                 = rbind (rfold resources_resource resources
                            (resources_metrics, resources_info_metrics))
                         (fun acc => Ok (families_values (fst acc)
                                         ++ families_values (snd acc)))).
  { unfold ClusterResourcesCollector_collect, ClusterResourcesCollector_init.
    change (self_pve [("_pve", AttrAPI pve)]) with (Ok pve).
    cbn [rbind]. now rewrite Hget. }
  rewrite Hrun. clear Hrun.
  assert (Hloop : forall key m,
             families_get key resources_metrics = Some m ->
             exists acc,
               rfold resources_resource resources (resources_metrics, resources_info_metrics)
               = Ok acc
               /\ map fst (fst acc) = map fst resources_metrics
               /\ map fst (snd acc) = map fst resources_info_metrics
               /\ families_get key (fst acc)
                  = Some (set_samples m (flat_map (field_samples key m) resources))
               /\ families_get "guest" (snd acc)
                  = Some (set_samples guest_info
                            (map (info_sample guest_info) (filter is_guest resources)))
               /\ families_get "storage" (snd acc)
                  = Some (set_samples storage_info
                            (map (info_sample storage_info)
                                 (filter (has_type "storage") resources)))).
  { intros key m Hkey. destruct (resources_metrics_declared key m Hkey) as [Hnd Hempty].
    destruct (resources_loop_samples key m resources Hnd Hres
                (resources_metrics, resources_info_metrics) m guest_info storage_info
                Hkey eq_refl eq_refl eq_refl eq_refl eq_refl)
      as [acc [m1 [mg [ms [Hacc [Hkm [Hki [H1 [H2 [H3 [D1 [D2 [D3 [H4 [H5 H6]]]]]]]]]]]]]]].
    rewrite Hempty in H4. cbn [app m_samples guest_info storage_info GaugeMetricFamily] in *.
    exists acc. split; [exact Hacc |]. split; [exact Hkm |]. split; [exact Hki |].
    rewrite (declared_as_samples _ _ D1), H4 in H1.
    rewrite (declared_as_samples _ _ D2), H5 in H2.
    rewrite (declared_as_samples _ _ D3), H6 in H3. auto. }
  destruct (Hloop "maxdisk" _ eq_refl) as [acc [Hacc [Hk [Hik [_ [Hg Hs]]]]]].
  rewrite Hacc. cbn [rbind]. f_equal. f_equal.
  - apply (families_values_exact
             (fun key m => set_samples m (flat_map (field_samples key m) resources))
             resources_metrics); [| exact Hk |].
    + cbn [map fst resources_metrics].
      repeat (constructor; [simpl; intuition discriminate |]). constructor.
    + intros key m Hkey. destruct (Hloop key m Hkey) as [acc' [Hacc' [_ [_ [Hget' _]]]]].
      rewrite Hacc in Hacc'. inversion Hacc'. now subst acc'.
  - destruct (snd acc) as [| [k1 m1] [| [k2 m2] [| ? ?]]]; try discriminate Hik.
    cbn [map fst resources_info_metrics] in Hik. injection Hik as -> ->.
    cbn in Hg, Hs. inversion Hg. inversion Hs. reflexivity.
Qed.

(** C9: what the resources collector returns, family by family.  An info
    family holds one sample per record filed under it, and that sample has
    every declared label, with the empty string under each label the
    record lacks.  The family of a field holds one sample per record with
    the field, and that sample has the values of the declared labels the
    record has, zipped with the declared names from the first on: it has
    fewer labels than were declared as soon as the record lacks one. *)
Theorem resources_label_values_two_policies (pve : ProxmoxAPI) (resources : list dict) :
  cluster_resources_get pve None = Ok resources ->
  Forall (fun r => dict_contains "type" r = true /\ dict_wf r) resources ->
  ClusterResourcesCollector_collect (ClusterResourcesCollector_init pve)
  = Ok (map (fun km => set_samples (snd km)
                         (flat_map (field_samples (fst km) (snd km)) resources))
            resources_metrics
        ++ [ set_samples guest_info
               (map (info_sample guest_info) (filter is_guest resources));
             set_samples storage_info
               (map (info_sample storage_info)
                    (filter (has_type "storage") resources)) ])
  /\ (forall r names,
         dict_keys (info_labels r names) = names
         /\ forall name, In name names -> dict_get name r = None ->
                         dict_get name (info_labels r names) = Some (PStr ""))
  /\ (forall r names,
         dict_keys (shifted_labels r names)
         = firstn (length (present_values r names)) names
         /\ Forall2 (label_of r) (filter (fun l => dict_contains l r) names)
                    (present_values r names)
         /\ ((exists name, In name names /\ dict_get name r = None) ->
             (length (shifted_labels r names) < length names)%nat)).
Proof.
  intros Hget Hres. split; [exact (resources_collect_samples pve resources Hget Hres) |].
  split.
  - intros r names. split; [apply info_labels_keys |].
    intros name Hin Hnone. rewrite (info_labels_get r names name Hin). now rewrite Hnone.
  - intros r names. split; [apply shifted_labels_keys |]. split.
    + unfold present_values, dict_contains, label_of.
      induction names as [| n names IH]; simpl; [constructor |].
      destruct (dict_get n r) eqn:E; simpl; [constructor; assumption | exact IH].
    + intros [name [Hin Hnone]].
      assert (Hlen : (length (present_values r names) < length names)%nat).
      { rewrite present_values_length. apply filter_length_missing.
        exists name. split; [exact Hin |]. unfold dict_contains. now rewrite Hnone. }
      unfold shifted_labels. rewrite length_combine. lia.
Qed.

Lemma resources_label_values_two_policies_witness :
  exists fams guest storage maxdisk,
    ClusterResourcesCollector_collect (ClusterResourcesCollector_init Examples.sparse)
    = Ok fams
    /\ nth_error fams 12 = Some guest
    /\ nth_error fams 13 = Some storage
    /\ nth_error fams 0 = Some maxdisk
    /\ m_samples guest = []
    /\ m_samples storage
       = [ plain_sample "pve_storage_info"
             [("id", PStr "storage/pve1/local"); ("node", PStr "");
              ("storage", PStr "local")]
             (PInt 1) ]
    /\ m_samples maxdisk
       = [ plain_sample "pve_disk_size_bytes"
             [("id", PStr "node/pve1"); ("type", PStr "node"); ("storage", PStr "pve1")]
             (PInt 100861726720) ].
Proof.
  destruct (resources_label_values_two_policies Examples.sparse
              [Examples.node_resource; Examples.storage_resource] eq_refl)
    as [Hrun _].
  - assert (Hwf : forall d : dict, NoDup (map fst d) -> dict_wf d) by (intros d H; exact H).
    constructor; [split; [reflexivity | apply Hwf; simpl] |
                  constructor; [split; [reflexivity | apply Hwf; simpl] | constructor]];
      repeat (constructor; [simpl; intuition discriminate |]); constructor.
  - eexists. eexists. eexists. eexists. split; [exact Hrun |].
    split; [reflexivity |]. split; [reflexivity |]. split; [reflexivity |].
    split; [reflexivity |]. split; reflexivity.
Defined.

Lemma declaration_add_metric (m : Metric) (labels : list pyval) (value : pyval) :
  declaration (add_metric m labels value) = declaration m.
Proof. reflexivity. Qed.

Lemma families_update_declarations (k : string) (f : Metric -> Metric) (fs : families) :
  (forall m, declaration (f m) = declaration m) ->
  map declaration (families_values (families_update k f fs))
  = map declaration (families_values fs).
Proof.
  intro Hf. unfold families_values.
  induction fs as [| [k' m] fs IH]; simpl; [reflexivity |].
  destruct (String.eqb k k'); simpl.
  - now rewrite Hf.
  - now rewrite IH.
Qed.

Lemma resources_info_pass_declarations (resource : dict) (restype : pyval)
  (info_metrics : families) :
  map declaration (families_values (resources_info_pass resource restype info_metrics))
  = map declaration (families_values info_metrics).
Proof.
  unfold resources_info_pass.
  destruct (info_lookup_find restype) as [[labels gauge] |]; [| reflexivity].
  apply families_update_declarations. intro m. apply declaration_add_metric.
Qed.

Lemma resources_metric_item_declarations (resource : dict) (item : string * pyval)
  (metrics : families) :
  exists metrics',
    resources_metric_item resource item metrics = Ok metrics'
    /\ map declaration (families_values metrics')
       = map declaration (families_values metrics).
Proof.
  unfold resources_metric_item.
  destruct (families_get (fst item) metrics) as [metric |].
  - destruct (metric_label_values_ok resource metric) as [vs [-> _]]. simpl.
    eexists. split; [reflexivity |].
    apply families_update_declarations. intro m. apply declaration_add_metric.
  - now exists metrics.
Qed.

Lemma resources_metric_pass_declarations (resource : dict)
  (items : list (string * pyval)) :
  forall metrics,
  exists metrics',
    rfold (resources_metric_item resource) items metrics = Ok metrics'
    /\ map declaration (families_values metrics')
       = map declaration (families_values metrics).
Proof.
  induction items as [| item items IH]; intro metrics; simpl.
  - now exists metrics.
  - destruct (resources_metric_item_declarations resource item metrics)
      as [m1 [-> H1]]. simpl.
    destruct (IH m1) as [m2 [-> H2]]. exists m2. split; [reflexivity | congruence].
Qed.

Lemma resources_loop_declarations (resources : list dict) :
  Forall (fun r => dict_contains "type" r = true) resources ->
  forall acc,
  exists acc',
    rfold resources_resource resources acc = Ok acc'
    /\ map declaration (families_values (fst acc'))
       = map declaration (families_values (fst acc))
    /\ map declaration (families_values (snd acc'))
       = map declaration (families_values (snd acc)).
Proof.
  induction 1 as [| r resources Hr _ IH]; intro acc; simpl.
  - exists acc. auto.
  - unfold resources_resource at 1. unfold dict_contains in Hr. unfold getitem.
    destruct (dict_get "type" r) as [restype |]; [| discriminate]. simpl.
    destruct (resources_metric_pass_declarations r r (fst acc)) as [m1 [-> H1]].
    simpl. destruct (IH (m1, resources_info_pass r restype (snd acc)))
      as [acc' [-> [Hm Hi]]].
    exists acc'. split; [reflexivity |]. simpl in Hm, Hi. split.
    + congruence.
    + rewrite Hi. apply resources_info_pass_declarations.
Qed.

Lemma entries_of_type_none (ty : string) (entries : list dict) :
  Forall (typed_other_than ty) entries -> entries_of_type ty entries = Ok [].
Proof.
  unfold entries_of_type.
  induction 1 as [| entry entries [t [Ht Hne]] _ IH]; simpl; [reflexivity |].
  rewrite (getitem_some _ _ _ Ht). simpl. rewrite IH. simpl.
  apply py_eq_str_false in Hne. now rewrite Hne.
Qed.

(** C7: whatever the resources are, the resources collector returns its
    twelve per-field families followed by the two info families, as they
    were declared and with whatever samples they received, none when there
    is no resource; the node and the cluster-info collectors return no
    family when the status has no entry of their type. *)
Theorem ClusterResourcesCollector_collect_all_families :
  (forall (pve : ProxmoxAPI) (resources : list dict),
      cluster_resources_get pve None = Ok resources ->
      Forall (fun r => dict_contains "type" r = true) resources ->
      exists fams,
        ClusterResourcesCollector_collect (ClusterResourcesCollector_init pve) = Ok fams
        /\ map declaration fams
           = families_values resources_metrics ++ families_values resources_info_metrics
        /\ length fams = 14%nat
        /\ (resources = [] -> Forall (fun m => m_samples m = []) fams))
  /\ (forall (pve : ProxmoxAPI) (entries : list dict),
         cluster_status_get pve = Ok entries ->
         (Forall (typed_other_than "node") entries ->
          ClusterNodeCollector_collect (ClusterNodeCollector_init pve) = Ok [])
         /\ (Forall (typed_other_than "cluster") entries ->
             ClusterInfoCollector_collect (ClusterInfoCollector_init pve) = Ok [])).
Proof.
  split.
  - intros pve resources Hget Htyped.
    unfold ClusterResourcesCollector_collect, ClusterResourcesCollector_init.
    change (self_pve [("_pve", AttrAPI pve)]) with (Ok pve).
    cbn [rbind]. rewrite Hget. cbn [rbind].
    destruct (resources_loop_declarations resources Htyped
                (resources_metrics, resources_info_metrics)) as [acc [Hacc [Hm Hi]]].
    exists (families_values (fst acc) ++ families_values (snd acc)).
    assert (Hdecl : map declaration (families_values (fst acc) ++ families_values (snd acc))
                    = families_values resources_metrics
                      ++ families_values resources_info_metrics).
    { rewrite map_app, Hm, Hi. reflexivity. }
    split; [now rewrite Hacc |]. split; [exact Hdecl |]. split.
    + rewrite <- (length_map declaration), Hdecl. reflexivity.
    + intros ->. simpl in Hacc. inversion Hacc. subst acc. simpl.
      repeat constructor.
  - intros pve entries Hget. split; intro Hnone.
    + unfold ClusterNodeCollector_collect, ClusterNodeCollector_init.
      change (self_pve [("_pve", AttrAPI pve)]) with (Ok pve).
      cbn [rbind]. rewrite Hget. cbn [rbind].
      now rewrite (entries_of_type_none _ _ Hnone).
    + unfold ClusterInfoCollector_collect, ClusterInfoCollector_init.
      change (self_pve [("_pve", AttrAPI pve)]) with (Ok pve).
      cbn [rbind]. rewrite Hget. cbn [rbind].
      now rewrite (entries_of_type_none _ _ Hnone).
Qed.

Lemma ClusterResourcesCollector_collect_all_families_witness :
  (exists fams,
      ClusterResourcesCollector_collect (ClusterResourcesCollector_init Examples.quiet)
      = Ok fams
      /\ length fams = 14%nat
      /\ Forall (fun m => m_samples m = []) fams)
  /\ ClusterNodeCollector_collect (ClusterNodeCollector_init Examples.quiet) = Ok []
  /\ ClusterInfoCollector_collect (ClusterInfoCollector_init Examples.quiet) = Ok [].
Proof.
  destruct ClusterResourcesCollector_collect_all_families as [Hres Hstatus].
  split; [| split].
  - destruct (Hres Examples.quiet [] eq_refl (Forall_nil _)) as [fams [H [_ [Hlen Hempty]]]].
    exists fams. auto.
  - apply (proj1 (Hstatus Examples.quiet [] eq_refl)). constructor.
  - apply (proj2 (Hstatus Examples.quiet [] eq_refl)). constructor.
Defined.

(** ** ClusterCustomMetricsCollector *)

Lemma dict_get_set_same (k : string) (v : pyval) (d : dict) :
  dict_get k (dict_set k v d) = Some v.
Proof.
  induction d as [| [k' v'] d IH]; simpl.
  - now rewrite String.eqb_refl.
  - destruct (String.eqb k k') eqn:E; simpl; rewrite ?String.eqb_refl, ?E; auto.
Qed.

Lemma dict_get_set_other (k k' : string) (v : pyval) (d : dict) :
  k <> k' -> dict_get k (dict_set k' v d) = dict_get k d.
Proof.
  intro Hne. apply String.eqb_neq in Hne.
  induction d as [| [k0 v0] d IH]; simpl.
  - now rewrite Hne.
  - destruct (String.eqb k' k0) eqn:E; simpl.
    + apply String.eqb_eq in E. subst k0. now rewrite Hne.
    + now rewrite IH.
Qed.

Lemma relabel_sample_relabelled (sample : Sample) :
  relabelled_sample sample (relabel_sample sample).
Proof.
  unfold relabelled_sample, relabel_sample, dict_union, forced_labels. simpl.
  repeat split.
  - apply dict_get_set_same.
  - intros k Hne. now apply dict_get_set_other.
Qed.

Lemma relabel_metric_relabelled (metric : Metric) :
  relabelled metric (relabel_metric metric).
Proof.
  split; [reflexivity |]. simpl.
  induction (m_samples metric) as [| s ss IH]; simpl; constructor;
    [apply relabel_sample_relabelled | exact IH].
Qed.

(** C8: when the notes hold a metrics block, every family parsed from it is
    returned with [pve_] before its name and before the name of each of its
    samples; each sample has the label [__source] set to "Datacenter > Notes",
    every other label as it was, and its value unchanged. *)
Theorem custom_metrics_relabelled
  (parser : string -> result (list Metric)) (pve : ProxmoxAPI) (options : dict)
  (text : string) (parsed : list Metric) :
  cluster_options_get pve = Ok options ->
  match_metrics_block (dict_get_default options "description" (PStr "")) = Ok (Some text) ->
  parser text = Ok parsed ->
  exists out,
    ClusterCustomMetricsCollector_collect parser (ClusterCustomMetricsCollector_init pve)
    = Ok out
    /\ Forall2 relabelled parsed out.
Proof.
  intros Hget Hmatch Hparse.
  unfold ClusterCustomMetricsCollector_collect, ClusterCustomMetricsCollector_init.
  change (self_pve [("_pve", AttrAPI pve)]) with (Ok pve).
  cbn [rbind]. rewrite Hget. cbn [rbind]. rewrite Hmatch. cbn [rbind].
  rewrite Hparse. cbn [rbind].
  exists (map relabel_metric parsed). split; [reflexivity |].
  induction parsed as [| m ms IH] in |- *; simpl; constructor;
    [apply relabel_metric_relabelled | exact IH].
Qed.

Lemma custom_metrics_relabelled_witness :
  exists out,
    ClusterCustomMetricsCollector_collect Examples.parse_foo
      (ClusterCustomMetricsCollector_init
         (Examples.with_notes Examples.notes_heading_first))
    = Ok out
    /\ Forall2 relabelled
         [ {| m_name := "foo";
              m_documentation := "";
              m_type := "unknown";
              m_labelnames := [];
              m_samples :=
                [ {| s_name := "foo";
                     s_labels := [("a", PStr "1"); ("__source", PStr "me")];
                     s_value := PInt 5;
                     s_timestamp := Some (PInt 1700000000);
                     s_exemplar := None |} ] |} ]
         out.
Proof.
  apply (custom_metrics_relabelled Examples.parse_foo
           (Examples.with_notes Examples.notes_heading_first)
           [("description", PStr Examples.notes_heading_first)]
           Examples.foo_payload).
  - reflexivity.
  - vm_compute. reflexivity.
  - vm_compute. reflexivity.
Defined.

(** *** Texts and their code points *)

(** Reading a code point takes at least one byte off the text. *)
Lemma next_shorter (s rest : string) (cp : N) :
  Utf8.next s = Some (cp, rest) -> (String.length rest < String.length s)%nat.
Proof.
  destruct s as [| a r]; [discriminate |]. unfold Utf8.next.
  repeat match goal with
         | |- context [if ?c then _ else _] => destruct c
         | |- context [match ?x with _ => _ end] => destruct x
         end;
    intro H; inversion H; subst; simpl; lia.
Qed.

(** The fuel of [code_points] is enough. *)
Lemma code_points_upto_enough (fuel fuel' : nat) :
  forall s,
    (String.length s <= fuel)%nat -> (String.length s <= fuel')%nat ->
    Utf8.code_points_upto fuel s = Utf8.code_points_upto fuel' s.
Proof.
  revert fuel'. induction fuel as [| fuel IH]; intros fuel' s H H'.
  - destruct s; [| simpl in H; lia]. now destruct fuel'.
  - destruct fuel' as [| fuel'].
    + destruct s; [reflexivity | simpl in H'; lia].
    + simpl. destruct (Utf8.next s) as [[cp rest] |] eqn:E; [| reflexivity].
      apply next_shorter in E. f_equal. apply IH; lia.
Qed.

(** The code points of a text: the one at its head, then those of the
    text after it. *)
Lemma code_points_eq (s : string) :
  Utf8.code_points s
  = match Utf8.next s with
    | Some (cp, rest) => cp :: Utf8.code_points rest
    | None => []
    end.
Proof.
  unfold Utf8.code_points. destruct s as [| a r]; [reflexivity |].
  cbn [String.length Utf8.code_points_upto].
  destruct (Utf8.next (String a r)) as [[cp rest] |] eqn:E; [| reflexivity].
  apply next_shorter in E. simpl in E. f_equal.
  apply code_points_upto_enough; lia.
Qed.

(** Only the byte of an ASCII character gives its code point. *)
Lemma next_ascii (s rest : string) (cp : N) :
  Utf8.next s = Some (cp, rest) -> (cp < 128)%N -> s = String (ascii_of_N cp) rest.
Proof.
  destruct s as [| a r]; [discriminate |]. unfold Utf8.next.
  destruct (N_of_ascii a <? 192)%N eqn:E1.
  { intros H Hcp. inversion H. subst. now rewrite ascii_N_embedding. }
  apply N.ltb_ge in E1.
  assert (Halone : Some (N_of_ascii a, r) = Some (cp, rest) -> (cp < 128)%N ->
                   String a r = String (ascii_of_N cp) rest).
  { intros H Hcp. inversion H. subst. lia. }
  repeat match goal with
         | |- context [if ?c then _ else _] => destruct c eqn:?
         | |- context [match ?x with _ => _ end] => destruct x eqn:?
         end;
    try exact Halone;
    intros H Hcp; inversion H; subst;
    repeat match goal with
           | H : (_ && _)%bool = true |- _ => apply andb_prop in H; destruct H
           | H : (_ <=? _)%N = true |- _ => apply N.leb_le in H
           end;
    lia.
Qed.

Lemma continuation_byte (x : N) :
  (x < 64)%N -> Utf8.continuation (ascii_of_N (128 + x)) = Some x.
Proof.
  intro H. unfold Utf8.continuation. rewrite N_ascii_embedding by lia.
  replace (128 <=? 128 + x)%N with true by (symmetry; apply N.leb_le; lia).
  replace (128 + x <? 192)%N with true by (symmetry; apply N.ltb_lt; lia).
  cbn [andb]. f_equal. lia.
Qed.

Lemma next_encode_one (cp : N) (rest : string) :
  (cp <= 1114111)%N ->
  Utf8.next (Utf8.encode_one cp ++ rest) = Some (cp, rest).
Proof.
  intro Hmax. unfold Utf8.encode_one.
  assert (H64 : (64 <> 0)%N) by discriminate.
  pose proof (N.div_mod cp 64 H64) as Hdm1.
  pose proof (N.mod_lt cp 64 H64) as Hr1.
  pose proof (N.div_mod (cp / 64) 64 H64) as Hdm2.
  pose proof (N.mod_lt (cp / 64) 64 H64) as Hr2.
  pose proof (N.div_mod (cp / 64 / 64) 64 H64) as Hdm3.
  pose proof (N.mod_lt (cp / 64 / 64) 64 H64) as Hr3.
  assert (E4096 : (cp / 4096 = cp / 64 / 64)%N).
  { now rewrite N.Div0.div_div. }
  assert (E262144 : (cp / 262144 = cp / 64 / 64 / 64)%N).
  { now rewrite !N.Div0.div_div. }
  rewrite E4096, E262144.
  set (q1 := (cp / 64)%N) in *. set (r1 := (cp mod 64)%N) in *.
  set (q2 := (q1 / 64)%N) in *. set (r2 := (q1 mod 64)%N) in *.
  set (q3 := (q2 / 64)%N) in *. set (r3 := (q2 mod 64)%N) in *.
  destruct (cp <? 128)%N eqn:E1.
  { apply N.ltb_lt in E1. cbn [append]. unfold Utf8.next.
    rewrite N_ascii_embedding by lia.
    replace (cp <? 192)%N with true by (symmetry; apply N.ltb_lt; lia). reflexivity. }
  apply N.ltb_ge in E1.
  destruct (cp <? 2048)%N eqn:E2.
  { apply N.ltb_lt in E2. cbn [append]. unfold Utf8.next.
    rewrite N_ascii_embedding by lia.
    replace (192 + q1 <? 192)%N with false by (symmetry; apply N.ltb_ge; lia).
    replace (192 + q1 <? 224)%N with true by (symmetry; apply N.ltb_lt; lia).
    rewrite continuation_byte by exact Hr1.
    replace (128 <=? (192 + q1 - 192) * 64 + r1)%N with true
      by (symmetry; apply N.leb_le; lia).
    f_equal. f_equal. lia. }
  apply N.ltb_ge in E2.
  destruct (cp <? 65536)%N eqn:E3.
  { apply N.ltb_lt in E3. cbn [append]. unfold Utf8.next.
    rewrite N_ascii_embedding by lia.
    replace (224 + q2 <? 192)%N with false by (symmetry; apply N.ltb_ge; lia).
    replace (224 + q2 <? 224)%N with false by (symmetry; apply N.ltb_ge; lia).
    replace (224 + q2 <? 240)%N with true by (symmetry; apply N.ltb_lt; lia).
    rewrite !continuation_byte by assumption.
    replace (2048 <=? ((224 + q2 - 224) * 64 + r2) * 64 + r1)%N with true
      by (symmetry; apply N.leb_le; lia).
    f_equal. f_equal. lia. }
  apply N.ltb_ge in E3.
  cbn [append]. unfold Utf8.next.
  rewrite N_ascii_embedding by lia.
  replace (240 + q3 <? 192)%N with false by (symmetry; apply N.ltb_ge; lia).
  replace (240 + q3 <? 224)%N with false by (symmetry; apply N.ltb_ge; lia).
  replace (240 + q3 <? 240)%N with false by (symmetry; apply N.ltb_ge; lia).
  rewrite !continuation_byte by assumption.
  replace (65536 <=? (((240 + q3 - 240) * 64 + r3) * 64 + r2) * 64 + r1)%N with true
    by (symmetry; apply N.leb_le; lia).
  replace ((((240 + q3 - 240) * 64 + r3) * 64 + r2) * 64 + r1 <=? 1114111)%N with true
    by (symmetry; apply N.leb_le; lia).
  cbn [andb]. f_equal. f_equal. lia.
Qed.

(** Every sequence of code points, surrogates included, is what is read
    back from its text: a [str] is held without loss. *)
Lemma code_points_encode (cps : list N) :
  Forall (fun cp => (cp <= 1114111)%N) cps ->
  Utf8.code_points (Utf8.encode cps) = cps.
Proof.
  induction 1 as [| cp cps Hcp _ IH]; [reflexivity |].
  cbn [Utf8.encode]. rewrite code_points_eq, (next_encode_one cp _ Hcp). now rewrite IH.
Qed.

(** *** Where the pattern matches *)

Lemma run_plus_empty (c : Re.charclass) (rest : list Re.item) :
  Re.run (Re.Plus c :: rest) [] = None.
Proof. reflexivity. Qed.

Lemma run_plus_mismatch (c : Re.charclass) (rest : list Re.item) (a : N) (r : list N) :
  Re.class_ok c a = false -> Re.run (Re.Plus c :: rest) (a :: r) = None.
Proof. intro H. simpl. now rewrite H. Qed.

(** The pattern starts with [#+]: a text that does not start with [#] has
    no match at position 0. *)
Lemma metrics_block_needs_leading_hash (text : string) :
  (forall rest, text <> String "#" rest) ->
  Re.re_match metrics_block_pattern (Utf8.code_points text) = None.
Proof.
  intro Hno. unfold Re.re_match, metrics_block_pattern.
  rewrite (code_points_eq text).
  destruct (Utf8.next text) as [[cp rest] |] eqn:E; [| apply run_plus_empty].
  apply run_plus_mismatch. unfold Re.class_ok.
  destruct (N.eqb (N_of_ascii "#") cp) eqn:Ecp; [| reflexivity].
  apply N.eqb_eq in Ecp. subst cp.
  apply next_ascii in E; [| reflexivity]. now destruct (Hno rest).
Qed.

(** A text without any heading and block has none at its start either. *)
Lemma search_none_match_none (p : list Re.item) (text : list N) :
  Re.re_search p text = None -> Re.re_match p text = None.
Proof.
  unfold Re.re_match. destruct text; simpl; destruct (Re.run p _); simpl; congruence.
Qed.

(** The group is lazy: the first closing fence ends the block. *)
Example metrics_block_first_fence :
  match_metrics_block
    (PStr ("###Prometheus metrics " ++ backticks ++ "a 1" ++ backticks
           ++ " text " ++ backticks ++ "b 2" ++ backticks))
  = Ok (Some "a 1").
Proof. reflexivity. Qed.

(** The heading is matched with its case. *)
Example metrics_block_case_sensitive :
  match_metrics_block (PStr ("# prometheus metrics " ++ backticks ++ "a 1" ++ backticks))
  = Ok None.
Proof. reflexivity. Qed.

(** White space beyond ASCII sets off the heading as well: a no-break
    space after the "#", an em space and an ideographic space after the
    words. *)
Example metrics_block_wide_spaces :
  Utf8.code_points (Examples.nbsp ++ Examples.em_space ++ Examples.ideographic_space)
  = [160; 8195; 12288]%N
  /\ match_metrics_block (PStr Examples.notes_wide_spaces)
     = Ok (Some Examples.foo_payload).
Proof. split; vm_compute; reflexivity. Qed.

(** C3, as the code behaves: the heading is looked for at the very start of
    the notes only; a text that starts with anything but [#] yields no
    family, whatever follows, a later heading with its block included. *)
Theorem custom_metrics_heading_not_at_start
  (parser : string -> result (list Metric)) (pve : ProxmoxAPI) (options : dict)
  (text : string) :
  cluster_options_get pve = Ok options ->
  dict_get "description" options = Some (PStr text) ->
  (forall rest, text <> String "#" rest) ->
  ClusterCustomMetricsCollector_collect parser (ClusterCustomMetricsCollector_init pve)
  = Ok [].
Proof.
  intros Hget Hnotes Hstart.
  unfold ClusterCustomMetricsCollector_collect, ClusterCustomMetricsCollector_init.
  change (self_pve [("_pve", AttrAPI pve)]) with (Ok pve).
  cbn [rbind]. rewrite Hget. cbn [rbind].
  unfold dict_get_default. rewrite Hnotes. unfold match_metrics_block.
  now rewrite (metrics_block_needs_leading_hash text Hstart).
Qed.

Lemma custom_metrics_heading_not_at_start_witness :
  option_map (fun m => Utf8.encode (Re.group1 m))
    (Re.re_search metrics_block_pattern (Utf8.code_points Examples.notes_heading_later))
  = Some Examples.foo_payload
  /\ ClusterCustomMetricsCollector_collect Examples.parse_foo
       (ClusterCustomMetricsCollector_init
          (Examples.with_notes Examples.notes_heading_later))
     = Ok [].
Proof.
  split; [vm_compute; reflexivity |].
  apply (custom_metrics_heading_not_at_start Examples.parse_foo
           (Examples.with_notes Examples.notes_heading_later)
           [("description", PStr Examples.notes_heading_later)]
           Examples.notes_heading_later eq_refl eq_refl).
  intros rest H. vm_compute in H. discriminate H.
Defined.

(** ** The state-and-error monad *)

Lemma bind_ok {L A B : Type} (c : M L A) (k : A -> M L B) (s s' : state L) (b : B) :
  bind c k s = (Ok b, s') ->
  exists a s1, c s = (Ok a, s1) /\ k a s1 = (Ok b, s').
Proof.
  unfold bind. destruct (c s) as [[a | e] s1]; intro H; [| discriminate].
  now exists a, s1.
Qed.

Lemma bind_run {L A B : Type} (c : M L A) (k : A -> M L B) (s s1 : state L) (a : A) :
  c s = (Ok a, s1) -> bind c k s = k a s1.
Proof. unfold bind. now intros ->. Qed.

Lemma bind_raise {L A B : Type} (c : M L A) (k : A -> M L B) (s s1 : state L) (e : exn) :
  c s = (Raise e, s1) -> bind c k s = (Raise e, s1).
Proof. unfold bind. now intros ->. Qed.

Lemma lift_ok {L A : Type} (r : result A) (s s' : state L) (a : A) :
  lift r s = (Ok a, s') -> r = Ok a /\ s' = s.
Proof. unfold lift. intro H. inversion H. auto. Qed.

Lemma api_call_ok {L A : Type} (r : request) (answer : result A) (s s' : state L) (a : A) :
  api_call r answer s = (Ok a, s') ->
  answer = Ok a
  /\ s' = {| locals := locals s; log := log s; calls := calls s ++ [r] |}.
Proof. unfold api_call. intro H. inversion H. auto. Qed.

Lemma for_each_cons_ok {L A : Type} (x : A) (xs : list A) (body : A -> M L unit)
  (s s' : state L) (u : unit) :
  for_each (x :: xs) body s = (Ok u, s') ->
  exists s1, body x s = (Ok tt, s1) /\ for_each xs body s1 = (Ok u, s').
Proof.
  simpl. intro H. apply bind_ok in H. destruct H as [[] [s1 [H1 H2]]]. now exists s1.
Qed.

(** A loop that ends normally carries an invariant from its start to its
    end when every turn that ends normally carries it. *)
Lemma for_each_invariant {L A : Type} (I : state L -> Prop) (body : A -> M L unit)
  (xs : list A) :
  (forall x s s', In x xs -> I s -> body x s = (Ok tt, s') -> I s') ->
  forall s s' u, I s -> for_each xs body s = (Ok u, s') -> I s'.
Proof.
  induction xs as [| x xs IH]; intros Hbody s s' u Hs Hrun.
  - simpl in Hrun. inversion Hrun. now subst.
  - apply for_each_cons_ok in Hrun. destruct Hrun as [s1 [H1 H2]].
    apply (IH (fun y t t' Hy => Hbody y t t' (or_intror Hy)) s1 s' u); [| exact H2].
    apply (Hbody x s s1); [now left | exact Hs | exact H1].
Qed.

(** A loop over [before ++ x :: after] that ends normally went through the
    turn of [x]. *)
Lemma for_each_split_ok {L A : Type} (body : A -> M L unit) (before : list A) (x : A)
  (after : list A) :
  forall s s' u,
    for_each (before ++ x :: after) body s = (Ok u, s') ->
    exists s1 s2,
      for_each before body s = (Ok tt, s1)
      /\ body x s1 = (Ok tt, s2)
      /\ for_each after body s2 = (Ok u, s').
Proof.
  induction before as [| y before IH]; intros s s' u Hrun.
  - simpl app in Hrun. apply for_each_cons_ok in Hrun. destruct Hrun as [s2 [H1 H2]].
    exists s, s2. auto.
  - simpl app in Hrun. apply for_each_cons_ok in Hrun. destruct Hrun as [sy [Hy Hrest]].
    destruct (IH sy s' u Hrest) as [s1 [s2 [Hb [Hx Ha]]]].
    exists s1, s2. split; [| auto].
    simpl. now rewrite (bind_run _ _ _ _ _ Hy).
Qed.

Lemma try_except_ok {L A : Type} (body : M L A) (handler : exn -> M L A)
  (s s' : state L) (a : A) :
  try_except_ResourceException body handler s = (Ok a, s') ->
  body s = (Ok a, s')
  \/ exists c s1, body s = (Raise (ResourceException c), s1)
                  /\ handler (ResourceException c) s1 = (Ok a, s').
Proof.
  unfold try_except_ResourceException.
  destruct (body s) as [[a' | e] s1]; [auto | destruct e; auto].
  intro H. right. now exists status_code, s1.
Qed.

(** ** VolumesCollector *)

(** The handler of [VolumesCollector] fails on [self._log]: nothing is
    logged and the attribute error replaces the API error. *)
Lemma volumes_handler_raises (pve : ProxmoxAPI) (node : dict) (e : exn)
  (s : state volumes_locals) :
  log_scrape_failure (VolumesCollector_init pve) node e s
  = (Raise (AttributeError "_log"), s).
Proof. reflexivity. Qed.

Lemma volumes_node_ok (pve : ProxmoxAPI) (node : dict) (s s' : state volumes_locals)
  (u : unit) :
  volumes_node (VolumesCollector_init pve) node s = (Ok u, s') ->
  volumes_node_body (VolumesCollector_init pve) node s = (Ok u, s').
Proof.
  intro H. apply try_except_ok in H. destruct H as [H | [c [s1 [_ H]]]]; [exact H |].
  rewrite volumes_handler_raises in H. discriminate.
Qed.

Lemma volumes_node_resource_error (pve : ProxmoxAPI) (node : dict) (c : Z)
  (s s1 : state volumes_locals) :
  volumes_node_body (VolumesCollector_init pve) node s = (Raise (ResourceException c), s1) ->
  volumes_node (VolumesCollector_init pve) node s = (Raise (AttributeError "_log"), s1).
Proof.
  intro H. unfold volumes_node, try_except_ResourceException. rewrite H.
  apply volumes_handler_raises.
Qed.

(** Whatever a node's turn does, it logs nothing and never ends with a
    [ResourceException]. *)
Lemma volumes_node_never_isolates (pve : ProxmoxAPI) (node : dict)
  (s : state volumes_locals) :
  match volumes_node (VolumesCollector_init pve) node s with
  | (Ok _, s') => volumes_node_body (VolumesCollector_init pve) node s = (Ok tt, s')
  | (Raise e, _) => forall c, e <> ResourceException c
  end.
Proof.
  unfold volumes_node, try_except_ResourceException.
  destruct (volumes_node_body (VolumesCollector_init pve) node s) as [[[] | e] s1] eqn:E.
  - reflexivity.
  - destruct e; intros c' H; discriminate H.
Qed.

Lemma py_eq_refl (v : pyval) : py_eq v v = true.
Proof.
  destruct v as [| b | z | s]; simpl;
    [reflexivity | now destruct b | apply Z.eqb_refl | apply String.eqb_refl].
Qed.

Lemma set_contains_add_same (v : pyval) (s : pyset) : set_contains v (set_add v s) = true.
Proof.
  unfold set_add. destruct (set_contains v s) eqn:E; [exact E |].
  unfold set_contains. rewrite existsb_app. simpl.
  now rewrite py_eq_refl, orb_true_r.
Qed.

Lemma set_contains_add_mono (x y : pyval) (s : pyset) :
  set_contains x s = true -> set_contains x (set_add y s) = true.
Proof.
  intro H. unfold set_add. destruct (set_contains y s); [exact H |].
  unfold set_contains in *. rewrite existsb_app, H. reflexivity.
Qed.

Lemma sampled_nil (s : state volumes_locals) : sampled s [] = s.
Proof.
  destruct s as [[seen ds] lg cs]. unfold sampled. simpl.
  now rewrite app_nil_r, set_samples_same.
Qed.

Lemma sampled_sampled (s : state volumes_locals) (a b : list Sample) :
  sampled (sampled s a) b = sampled s (a ++ b).
Proof. unfold sampled. simpl. now rewrite set_samples_twice, app_assoc. Qed.

Lemma volume_family_sampled (s : state volumes_locals) (new : list Sample) :
  volume_family (disk_size (locals s)) ->
  volume_family (disk_size (locals (sampled s new))).
Proof. intro H. exact H. Qed.

(** One volume: with both fields present its sample is appended, otherwise
    the missing key is raised. *)
Lemma volumes_disk_run (node storage disk : dict) (nodeid name : pyval)
  (s : state volumes_locals) :
  dict_get "node" node = Some nodeid ->
  dict_get "storage" storage = Some name ->
  volume_family (disk_size (locals s)) ->
  volumes_disk node storage disk s
  = match dict_get "volid" disk, dict_get "size" disk with
    | Some _, Some _ => (Ok tt, sampled s [volume_sample nodeid name disk])
    | Some _, None => (Raise (KeyError "size"), s)
    | None, _ => (Raise (KeyError "volid"), s)
    end.
Proof.
  intros Hnode Hname [Hn Hl]. unfold volumes_disk, bind, lift, getitem.
  rewrite Hnode, Hname.
  destruct (dict_get "volid" disk) as [volid |] eqn:Ev; [| reflexivity].
  destruct (dict_get "size" disk) as [size |] eqn:Es; [| reflexivity].
  unfold get_locals, put_locals, sampled, add_metric, mk_sample, volume_sample,
    plain_sample, dict_get_default.
  rewrite Ev, Es, Hn, Hl. reflexivity.
Qed.

Lemma volumes_disks_ok (node storage : dict) (nodeid name : pyval) (disks : list dict) :
  dict_get "node" node = Some nodeid ->
  dict_get "storage" storage = Some name ->
  forall (s s' : state volumes_locals) (u : unit),
    volume_family (disk_size (locals s)) ->
    for_each disks (volumes_disk node storage) s = (Ok u, s') ->
    Forall volume_wf disks
    /\ s' = sampled s (map (volume_sample nodeid name) disks).
Proof.
  intros Hnode Hname. induction disks as [| disk disks IH]; intros s s' u Hfam Hrun.
  - simpl in Hrun. inversion Hrun. subst. now rewrite sampled_nil.
  - apply for_each_cons_ok in Hrun. destruct Hrun as [s1 [H1 H2]].
    rewrite (volumes_disk_run _ _ _ _ _ _ Hnode Hname Hfam) in H1.
    destruct (dict_get "volid" disk) as [volid |] eqn:Ev; [| discriminate].
    destruct (dict_get "size" disk) as [size |] eqn:Es; [| discriminate].
    inversion H1. subst s1.
    destruct (IH _ _ _ (volume_family_sampled s _ Hfam) H2) as [Hwf ->].
    split.
    + constructor; [| exact Hwf]. unfold volume_wf, dict_contains. now rewrite Ev, Es.
    + rewrite sampled_sampled. reflexivity.
Qed.

Lemma volumes_disks_run (node storage : dict) (nodeid name : pyval) (disks : list dict) :
  dict_get "node" node = Some nodeid ->
  dict_get "storage" storage = Some name ->
  Forall volume_wf disks ->
  forall s : state volumes_locals,
    volume_family (disk_size (locals s)) ->
    for_each disks (volumes_disk node storage) s
    = (Ok tt, sampled s (map (volume_sample nodeid name) disks)).
Proof.
  intros Hnode Hname. induction 1 as [| disk disks [Hv Hs] _ IH]; intros s Hfam.
  - simpl. now rewrite sampled_nil.
  - simpl. unfold dict_contains in Hv, Hs.
    assert (Hdisk := volumes_disk_run node storage disk nodeid name s Hnode Hname Hfam).
    destruct (dict_get "volid" disk); [| discriminate].
    destruct (dict_get "size" disk); [| discriminate].
    rewrite (bind_run _ _ _ _ _ Hdisk), IH, sampled_sampled; [reflexivity |].
    now apply volume_family_sampled.
Qed.

Lemma volumes_retained_true (storage : dict) :
  retained storage ->
  exists v, volumes_retained storage = Ok v /\ py_truthy v = true.
Proof.
  intros [ty [active [Ht [Hne [Ha Htruthy]]]]]. exists active.
  unfold volumes_retained. rewrite (getitem_some _ _ _ Ht). simpl.
  apply py_eq_str_false in Hne. rewrite Hne. simpl.
  now rewrite (getitem_some _ _ _ Ha).
Qed.

Lemma volumes_retained_inv (storage : dict) (v : pyval) :
  volumes_retained storage = Ok v -> py_truthy v = true -> retained storage.
Proof.
  unfold volumes_retained, getitem.
  destruct (dict_get "type" storage) as [ty |] eqn:Ht; [| discriminate]. simpl.
  destruct (py_eq ty (PStr "dir")) eqn:E; simpl.
  - intros H Hv. inversion H. subst v. discriminate.
  - destruct (dict_get "active" storage) as [a |] eqn:Ha; [| discriminate].
    intros H Hv. inversion H. subst v. exists ty, a.
    apply py_eq_str_false in E. auto.
Qed.

(** A backend of type [dir], or one that is not active, is passed over. *)
Lemma volumes_storage_passes_over (pve : ProxmoxAPI) (nodeid : pyval) (node storage : dict)
  (s : state volumes_locals) (ty : pyval) :
  dict_get "type" storage = Some ty ->
  ty = PStr "dir"
  \/ (exists active, dict_get "active" storage = Some active /\ py_truthy active = false) ->
  volumes_storage pve nodeid node storage s = (Ok tt, s).
Proof.
  intros Ht Hwhy. unfold volumes_storage, volumes_retained, bind, lift.
  rewrite (getitem_some _ _ _ Ht). simpl.
  destruct (py_eq ty (PStr "dir")) eqn:E; simpl; [reflexivity |].
  destruct Hwhy as [-> | [active [Ha Hfalse]]]; [simpl in E; discriminate |].
  rewrite (getitem_some _ _ _ Ha). now rewrite Hfalse.
Qed.

(** A retained backend that is marked shared and whose name was seen is
    passed over. *)
Lemma volumes_storage_skips_seen (pve : ProxmoxAPI) (nodeid : pyval) (node storage : dict)
  (s : state volumes_locals) (name : pyval) :
  retained storage ->
  marked_shared storage true ->
  dict_get "storage" storage = Some name ->
  set_contains name (seen_shared_storages (locals s)) = true ->
  volumes_storage pve nodeid node storage s = (Ok tt, s).
Proof.
  intros Hret [shared [Hsh Htruthy]] Hname Hseen.
  destruct (volumes_retained_true storage Hret) as [v [Hv Hvt]].
  unfold volumes_storage, bind, lift, get_locals, volumes_seen.
  rewrite Hv, Hvt. simpl.
  rewrite (getitem_some _ _ _ Hsh). simpl. rewrite Htruthy.
  rewrite (getitem_some _ _ _ Hname). simpl. now rewrite Hseen.
Qed.

(** A retained backend that is not marked shared, or whose name was not
    seen, is inspected. *)
Lemma volumes_storage_inspects (pve : ProxmoxAPI) (nodeid : pyval) (node storage : dict)
  (s : state volumes_locals) (shared name : pyval) (disks : list dict) :
  dict_get "node" node = Some nodeid ->
  volume_family (disk_size (locals s)) ->
  retained storage ->
  dict_get "shared" storage = Some shared ->
  dict_get "storage" storage = Some name ->
  py_truthy shared && set_contains name (seen_shared_storages (locals s)) = false ->
  nodes_storage_content_get pve nodeid name = Ok disks ->
  Forall volume_wf disks ->
  volumes_storage pve nodeid node storage s = (Ok tt, inspected s nodeid name disks).
Proof.
  intros Hnode Hfam Hret Hsh Hname Hnew Hcontent Hwf.
  destruct (volumes_retained_true storage Hret) as [v [Hv Hvt]].
  unfold volumes_storage, bind, lift, get_locals, volumes_seen.
  rewrite Hv, Hvt. simpl.
  rewrite (getitem_some _ _ _ Hsh), (getitem_some _ _ _ Hname). simpl.
  assert (Hgo : (if py_truthy shared
                 then Ok (set_contains name (seen_shared_storages (locals s)))
                 else Ok false) = Ok false).
  { destruct (py_truthy shared); simpl in Hnew; [now rewrite Hnew | reflexivity]. }
  rewrite Hgo. simpl. unfold api_call. rewrite Hcontent.
  apply (volumes_disks_run node storage nodeid name disks Hnode Hname Hwf
           (requested s nodeid name)).
  exact Hfam.
Qed.

(** What a turn of the storage loop that ends normally did. *)
Lemma volumes_storage_ok (pve : ProxmoxAPI) (nodeid : pyval) (node storage : dict)
  (s s' : state volumes_locals) (u : unit) :
  dict_get "node" node = Some nodeid ->
  volume_family (disk_size (locals s)) ->
  volumes_storage pve nodeid node storage s = (Ok u, s') ->
  (s' = s /\ ~ retained storage)
  \/ (s' = s /\ retained storage
      /\ exists name,
          dict_get "storage" storage = Some name
          /\ marked_shared storage true
          /\ set_contains name (seen_shared_storages (locals s)) = true)
  \/ (exists name disks,
         retained storage
         /\ dict_get "storage" storage = Some name
         /\ (marked_shared storage false
             \/ set_contains name (seen_shared_storages (locals s)) = false)
         /\ nodes_storage_content_get pve nodeid name = Ok disks
         /\ Forall volume_wf disks
         /\ s' = inspected s nodeid name disks).
Proof.
  intros Hnode Hfam Hrun.
  unfold volumes_storage in Hrun.
  apply bind_ok in Hrun. destruct Hrun as [v [s1 [Hv Hrun]]].
  apply lift_ok in Hv. destruct Hv as [Hv ->].
  destruct (py_truthy v) eqn:Hvt; simpl in Hrun.
  - assert (Hret : retained storage) by (eapply volumes_retained_inv; eauto).
    apply bind_ok in Hrun. destruct Hrun as [l [s1 [Hl Hrun]]].
    inversion Hl. subst l s1. clear Hl.
    apply bind_ok in Hrun. destruct Hrun as [seen [s1 [Hseen Hrun]]].
    apply lift_ok in Hseen. destruct Hseen as [Hseen ->].
    unfold volumes_seen, getitem in Hseen.
    destruct (dict_get "shared" storage) as [shared |] eqn:Hsh; [| discriminate].
    simpl in Hseen.
    destruct seen.
    + right. left. inversion Hrun. subst s'. split; [reflexivity |].
      split; [exact Hret |].
      destruct (py_truthy shared) eqn:Hst; [| discriminate].
      destruct (dict_get "storage" storage) as [name |] eqn:Hname; [| discriminate].
      simpl in Hseen. injection Hseen as Hin.
      exists name. split; [reflexivity |]. split; [| exact Hin].
      now exists shared.
    + right. right.
      apply bind_ok in Hrun. destruct Hrun as [name [s1 [Hname Hrun]]].
      apply lift_ok in Hname. destruct Hname as [Hname ->].
      unfold getitem in Hname.
      destruct (dict_get "storage" storage) as [name' |] eqn:Hn; [| discriminate].
      inversion Hname. subst name'. clear Hname.
      apply bind_ok in Hrun. destruct Hrun as [[] [s1 [Hput Hrun]]].
      inversion Hput. subst s1. clear Hput.
      apply bind_ok in Hrun. destruct Hrun as [name' [s1 [Hname' Hrun]]].
      apply lift_ok in Hname'. destruct Hname' as [Hname' ->].
      unfold getitem in Hname'. rewrite Hn in Hname'. inversion Hname'. subst name'.
      apply bind_ok in Hrun. destruct Hrun as [disks [s1 [Hcall Hrun]]].
      apply api_call_ok in Hcall. destruct Hcall as [Hcontent ->].
      destruct (volumes_disks_ok node storage nodeid name disks Hnode Hn
                  (requested s nodeid name) s' u Hfam Hrun) as [Hwf ->].
      exists name, disks. split; [exact Hret |]. split; [reflexivity |].
      split; [| split; [exact Hcontent | split; [exact Hwf | reflexivity]]].
      destruct (py_truthy shared) eqn:Hst.
      * right. simpl in Hseen. now injection Hseen as Hin.
      * left. now exists shared.
  - left. inversion Hrun. subst s'. split; [reflexivity |].
    intro Hret. destruct (volumes_retained_true storage Hret) as [v' [Hv' Hvt']].
    congruence.
Qed.

(** *** Failure of a node *)

Lemma keeps_log_ret {L A : Type} (a : A) : keeps_log (@ret L A a).
Proof. intro s. reflexivity. Qed.

Lemma keeps_log_lift {L A : Type} (r : result A) : keeps_log (@lift L A r).
Proof. intro s. reflexivity. Qed.

Lemma keeps_log_get_locals {L : Type} : keeps_log (@get_locals L).
Proof. intro s. reflexivity. Qed.

Lemma keeps_log_put_locals {L : Type} (l : L) : keeps_log (put_locals l).
Proof. intro s. reflexivity. Qed.

Lemma keeps_log_api_call {L A : Type} (r : request) (answer : result A) :
  keeps_log (@api_call L A r answer).
Proof. intro s. reflexivity. Qed.

Lemma keeps_log_bind {L A B : Type} (c : M L A) (k : A -> M L B) :
  keeps_log c -> (forall a, keeps_log (k a)) -> keeps_log (bind c k).
Proof.
  intros Hc Hk s. unfold bind. specialize (Hc s).
  destruct (c s) as [[a | e] s1]; simpl in *; [| exact Hc].
  now rewrite (Hk a s1).
Qed.

Lemma keeps_log_for_each {L A : Type} (xs : list A) (body : A -> M L unit) :
  (forall x, keeps_log (body x)) -> keeps_log (for_each xs body).
Proof.
  intro Hbody. induction xs as [| x xs IH]; simpl.
  - apply keeps_log_ret.
  - apply keeps_log_bind; [apply Hbody | intros _; exact IH].
Qed.

Lemma keeps_log_if {L A : Type} (b : bool) (c1 c2 : M L A) :
  keeps_log c1 -> keeps_log c2 -> keeps_log (if b then c1 else c2).
Proof. now destruct b. Qed.

Lemma keeps_log_try_except {L A : Type} (body : M L A) (handler : exn -> M L A) :
  keeps_log body -> (forall e, keeps_log (handler e)) ->
  keeps_log (try_except_ResourceException body handler).
Proof.
  intros Hb Hh s. unfold try_except_ResourceException. specialize (Hb s).
  destruct (body s) as [[a | e] s1]; simpl in *; [exact Hb |].
  destruct e; simpl; try exact Hb.
  now rewrite (Hh (ResourceException status_code) s1).
Qed.

Create HintDb keeps_log.

#[local] Hint Resolve keeps_log_ret keeps_log_lift keeps_log_get_locals
  keeps_log_put_locals keeps_log_api_call : keeps_log.

Ltac keeps_log :=
  repeat first
    [ apply keeps_log_bind; [| intro]
    | apply keeps_log_for_each; intro
    | apply keeps_log_if
    | solve [auto with keeps_log] ].

Lemma volumes_disk_keeps_log (node storage disk : dict) :
  keeps_log (volumes_disk node storage disk).
Proof. unfold volumes_disk. keeps_log. Qed.

Lemma volumes_storage_keeps_log (pve : ProxmoxAPI) (nodeid : pyval) (node storage : dict) :
  keeps_log (volumes_storage pve nodeid node storage).
Proof.
  unfold volumes_storage. keeps_log.
Qed.

Lemma volumes_node_keeps_log (pve : ProxmoxAPI) (node : dict) :
  keeps_log (volumes_node (VolumesCollector_init pve) node).
Proof.
  unfold volumes_node. apply keeps_log_try_except.
  - unfold volumes_node_body. keeps_log.
  - intros e s. now rewrite volumes_handler_raises.
Qed.

Lemma volumes_collect_keeps_log (pve : ProxmoxAPI) :
  keeps_log (VolumesCollector_collect (VolumesCollector_init pve)).
Proof.
  unfold VolumesCollector_collect. keeps_log. apply volumes_node_keeps_log.
Qed.

(** A node whose storage listing fails with an API error. *)
Lemma volumes_node_unreachable (pve : ProxmoxAPI) (node : dict) (nodeid : pyval) (c : Z)
  (s : state volumes_locals) :
  dict_get "node" node = Some nodeid ->
  nodes_storage_get pve nodeid = Raise (ResourceException c) ->
  volumes_node (VolumesCollector_init pve) node s
  = (Raise (AttributeError "_log"), listed s nodeid).
Proof.
  intros Hnode Hdown. apply (volumes_node_resource_error pve node c).
  unfold volumes_node_body, bind, lift, api_call. simpl.
  rewrite (getitem_some _ _ _ Hnode), Hdown. reflexivity.
Qed.

(** A loop with a turn that raises in whatever state it starts raises,
    with an exception of the kind all its turns raise. *)
Lemma for_each_raises {L A : Type} (P : exn -> Prop) (body : A -> M L unit)
  (xs : list A) :
  (forall x s e s', body x s = (Raise e, s') -> P e) ->
  Exists (fun x => forall s, exists e s', body x s = (Raise e, s')) xs ->
  forall s, exists e s', for_each xs body s = (Raise e, s') /\ P e.
Proof.
  intros HP. induction 1 as [x xs Hx | x xs _ IH]; intro s; simpl.
  - destruct (Hx s) as [e [s' He]]. exists e, s'.
    split; [now rewrite (bind_raise _ _ _ _ _ He) | now apply (HP x s e s')].
  - destruct (body x s) as [[[] | e] s1] eqn:E.
    + rewrite (bind_run _ _ _ _ _ E). apply IH.
    + exists e, s1. split; [now rewrite (bind_raise _ _ _ _ _ E) | now apply (HP x s e s1)].
Qed.

(** The collector is its loop over the listed nodes, started afresh. *)
Lemma volumes_collect_run (pve : ProxmoxAPI) (nodes : list dict)
  (s : state volumes_locals) :
  nodes_get pve = Ok nodes ->
  VolumesCollector_collect (VolumesCollector_init pve) s
  = match for_each nodes (volumes_node (VolumesCollector_init pve)) (begun s) with
    | (Ok _, s') => (Ok [disk_size (locals s')], s')
    | (Raise e, s') => (Raise e, s')
    end.
Proof.
  intro Hnodes. unfold VolumesCollector_collect, bind, put_locals, lift, api_call.
  simpl. rewrite Hnodes. unfold begun. simpl.
  now destruct (for_each nodes _ _) as [[[] | e] s'].
Qed.

(** C1 on the code: when the storage listing of a node fails with an API
    error, the collector raises, and not the API error: the handler's
    [self._log] has no attribute to read, so nothing is logged either. *)
Theorem volumes_collect_api_error_escapes (pve : ProxmoxAPI) (nodes : list dict)
  (node : dict) (nodeid : pyval) (c : Z) (s : state volumes_locals) :
  nodes_get pve = Ok nodes ->
  In node nodes ->
  dict_get "node" node = Some nodeid ->
  nodes_storage_get pve nodeid = Raise (ResourceException c) ->
  exists e s',
    VolumesCollector_collect (VolumesCollector_init pve) s = (Raise e, s')
    /\ (forall c', e <> ResourceException c')
    /\ log s' = log s.
Proof.
  intros Hnodes Hin Hnode Hdown.
  assert (Hlog := volumes_collect_keeps_log pve s).
  rewrite (volumes_collect_run pve nodes s Hnodes) in *.
  destruct (for_each_raises (fun e => forall c', e <> ResourceException c')
              (volumes_node (VolumesCollector_init pve)) nodes) with (s := begun s)
    as [e [s' [Hrun He]]].
  - intros x t e t' Hx.
    assert (Hnever := volumes_node_never_isolates pve x t).
    rewrite Hx in Hnever. exact Hnever.
  - apply Exists_exists. exists node. split; [exact Hin |].
    intro t. eexists. eexists.
    apply (volumes_node_unreachable pve node nodeid c t Hnode Hdown).
  - exists e, s'. rewrite Hrun in *. auto.
Qed.

Lemma volumes_collect_api_error_escapes_witness :
  exists e s',
    VolumesCollector_collect (VolumesCollector_init Examples.second_node_down)
      (start volumes_fresh) = (Raise e, s')
    /\ (forall c', e <> ResourceException c')
    /\ log s' = [].
Proof.
  apply (volumes_collect_api_error_escapes Examples.second_node_down Examples.node_list
           [("node", PStr "pve2"); ("status", PStr "online")] (PStr "pve2") 595
           (start volumes_fresh) eq_refl).
  - simpl. tauto.
  - reflexivity.
  - reflexivity.
Defined.

(** With the second of two nodes down the scrape of the volumes ends in
    the attribute error, after the first node's volume was sampled. *)
Example volumes_second_node_down :
  fst (VolumesCollector_collect (VolumesCollector_init Examples.second_node_down)
         (start volumes_fresh))
  = Raise (AttributeError "_log").
Proof. reflexivity. Qed.

(** The sibling collector has its logger: there the API error of a node is
    logged with the node's name and the loop goes on. *)
Lemma config_node_isolates (pve : ProxmoxAPI) (node : dict) (nodeid : pyval) (c : Z)
  (s s1 : state families) :
  dict_get "node" node = Some nodeid ->
  config_node_body (ClusterNodeConfigCollector_init pve) node s
  = (Raise (ResourceException c), s1) ->
  config_node (ClusterNodeConfigCollector_init pve) node s
  = (Ok tt,
     {| locals := locals s1;
        log := log s1 ++ [ {| lr_logger := "pve_exporter.collector";
                              lr_message := scrape_failed nodeid;
                              lr_exc_info := ResourceException c |} ];
        calls := calls s1 |}).
Proof.
  intros Hnode Hbody. unfold config_node, try_except_ResourceException. rewrite Hbody.
  unfold log_scrape_failure, bind, lift. simpl.
  now rewrite (getitem_some _ _ _ Hnode).
Qed.

Example config_second_node_down :
  ClusterNodeConfigCollector_collect
    (ClusterNodeConfigCollector_init Examples.second_node_down) (start config_metrics)
  = (Ok [ {| m_name := "pve_onboot_status";
             m_documentation := "Proxmox vm config onboot value";
             m_type := "gauge";
             m_labelnames := ["id"; "node"; "type"];
             m_samples :=
               [ plain_sample "pve_onboot_status"
                   [("id", PStr "qemu/100"); ("node", PStr "pve1"); ("type", PStr "qemu")]
                   (PInt 1) ] |} ],
     {| locals :=
          [ ("onboot",
             {| m_name := "pve_onboot_status";
                m_documentation := "Proxmox vm config onboot value";
                m_type := "gauge";
                m_labelnames := ["id"; "node"; "type"];
                m_samples :=
                  [ plain_sample "pve_onboot_status"
                      [("id", PStr "qemu/100"); ("node", PStr "pve1");
                       ("type", PStr "qemu")]
                      (PInt 1) ] |}) ];
        log := [ {| lr_logger := "pve_exporter.collector";
                    lr_message :=
                      "Exception thrown while scraping quemu/lxc config from pve2";
                    lr_exc_info := ResourceException 595 |} ];
        calls := [ GET_nodes; GET_nodes_qemu (PStr "pve1");
                   GET_nodes_qemu_config (PStr "pve1") (PInt 100);
                   GET_nodes_lxc (PStr "pve1"); GET_nodes_qemu (PStr "pve2") ] |}).
Proof. reflexivity. Qed.

(** *** Which backends are inspected *)




(** *** Deduplication by name *)

Lemma attributed_volume_sample (n nm nodeid name : pyval) (disk : dict) :
  attributed n nm (volume_sample nodeid name disk) -> nodeid = n /\ name = nm.
Proof.
  unfold attributed, volume_sample, plain_sample. simpl.
  intros [Hn Hs]. inversion Hn. inversion Hs. auto.
Qed.

Lemma remembered_inspected_same (s : state volumes_locals) (nodeid name : pyval)
  (disks : list dict) :
  remembered name (inspected s nodeid name disks).
Proof. unfold remembered, inspected. simpl. apply set_contains_add_same. Qed.

Lemma remembered_inspected (x : pyval) (s : state volumes_locals) (nodeid name : pyval)
  (disks : list dict) :
  remembered x s -> remembered x (inspected s nodeid name disks).
Proof. unfold remembered, inspected. simpl. apply set_contains_add_mono. Qed.

Lemma uninspected_inspected (n nm : pyval) (s : state volumes_locals)
  (nodeid name : pyval) (disks : list dict) :
  uninspected n nm s ->
  nodeid <> n \/ name <> nm ->
  uninspected n nm (inspected s nodeid name disks).
Proof.
  intros [Hsamples Hcalls] Hother. unfold uninspected, inspected. simpl. split.
  - intros sample Hin Hattr. apply in_app_or in Hin. destruct Hin as [Hin | Hin].
    + exact (Hsamples sample Hin Hattr).
    + apply in_map_iff in Hin. destruct Hin as [disk [<- _]].
      apply attributed_volume_sample in Hattr. tauto.
  - intro Hin. apply in_app_or in Hin. destruct Hin as [Hin | [Heq | []]].
    + exact (Hcalls Hin).
    + inversion Heq. tauto.
Qed.

Lemma uninspected_listed (n nm : pyval) (s : state volumes_locals) (nodeid : pyval) :
  uninspected n nm s -> uninspected n nm (listed s nodeid).
Proof.
  intros [Hsamples Hcalls]. split; [exact Hsamples |]. simpl.
  intro Hin. apply in_app_or in Hin. destruct Hin as [Hin | [Heq | []]];
    [exact (Hcalls Hin) | discriminate Heq].
Qed.

Section StorageTurn.

Variables (pve : ProxmoxAPI) (nodeid : pyval) (node storage : dict).
Variables (s s' : state volumes_locals) (u : unit).
Hypothesis Hnode : dict_get "node" node = Some nodeid.
Hypothesis Hfam : volume_family (disk_size (locals s)).
Hypothesis Hrun : volumes_storage pve nodeid node storage s = (Ok u, s').

Lemma volumes_storage_keeps_family : volume_family (disk_size (locals s')).
Proof.
  destruct (volumes_storage_ok pve nodeid node storage s s' u Hnode Hfam Hrun)
    as [[-> _] | [[-> _] | [name [disks [_ [_ [_ [_ [_ ->]]]]]]]]]; exact Hfam.
Qed.

Lemma volumes_storage_keeps_seen (x : pyval) : remembered x s -> remembered x s'.
Proof.
  intro Hx.
  destruct (volumes_storage_ok pve nodeid node storage s s' u Hnode Hfam Hrun)
    as [[-> _] | [[-> _] | [name [disks [_ [_ [_ [_ [_ ->]]]]]]]]];
    [exact Hx | exact Hx | now apply remembered_inspected].
Qed.

(** The name of a retained backend is in the set after its turn, whether
    the backend is marked shared or not. *)
Lemma volumes_storage_remembers (name : pyval) :
  retained storage -> dict_get "storage" storage = Some name -> remembered name s'.
Proof.
  intros Hret Hname.
  destruct (volumes_storage_ok pve nodeid node storage s s' u Hnode Hfam Hrun)
    as [[_ Hno] | [[-> [_ [nm [Hnm [_ Hseen]]]]] | [nm [disks [_ [Hnm [_ [_ [_ ->]]]]]]]]].
  - contradiction.
  - rewrite Hname in Hnm. inversion Hnm. subst nm. exact Hseen.
  - rewrite Hname in Hnm. inversion Hnm. subst nm. apply remembered_inspected_same.
Qed.

(** A turn made for another node leaves the pair uninspected. *)
Lemma volumes_storage_elsewhere (n nm : pyval) :
  nodeid <> n -> uninspected n nm s -> uninspected n nm s'.
Proof.
  intros Hother Hun.
  destruct (volumes_storage_ok pve nodeid node storage s s' u Hnode Hfam Hrun)
    as [[-> _] | [[-> _] | [name [disks [_ [_ [_ [_ [_ ->]]]]]]]]];
    [exact Hun | exact Hun |].
  apply uninspected_inspected; auto.
Qed.

(** Once the name is in the set, a turn for a backend that bears the name
    only if it is marked shared leaves the pair uninspected. *)
Lemma volumes_storage_later (nm : pyval) :
  remembered nm s ->
  (dict_get "storage" storage = Some nm -> marked_shared storage true) ->
  uninspected nodeid nm s -> uninspected nodeid nm s'.
Proof.
  intros Hseen Hshared Hun.
  destruct (volumes_storage_ok pve nodeid node storage s s' u Hnode Hfam Hrun)
    as [[-> _] | [[-> _] | [name [disks [_ [Hname [Hnew [_ [_ ->]]]]]]]]];
    [exact Hun | exact Hun |].
  apply uninspected_inspected; [exact Hun |]. right. intros ->.
  destruct Hnew as [[sh [Hsh Hfalse]] | Hnot].
  - destruct (Hshared Hname) as [sh' [Hsh' Htrue]]. congruence.
  - unfold remembered in Hseen. congruence.
Qed.

End StorageTurn.

Lemma volumes_node_body_ok (pve : ProxmoxAPI) (node : dict) (s s' : state volumes_locals)
  (u : unit) :
  volumes_node (VolumesCollector_init pve) node s = (Ok u, s') ->
  exists nodeid storages,
    dict_get "node" node = Some nodeid
    /\ nodes_storage_get pve nodeid = Ok storages
    /\ for_each storages (volumes_storage pve nodeid node) (listed s nodeid) = (Ok u, s').
Proof.
  intro Hrun. apply volumes_node_ok in Hrun. unfold volumes_node_body in Hrun.
  apply bind_ok in Hrun. destruct Hrun as [pve' [s1 [Hpve Hrun]]].
  apply lift_ok in Hpve. destruct Hpve as [Hpve ->].
  inversion Hpve. subst pve'. clear Hpve.
  apply bind_ok in Hrun. destruct Hrun as [nodeid [s1 [Hid Hrun]]].
  apply lift_ok in Hid. destruct Hid as [Hid ->].
  unfold getitem in Hid. destruct (dict_get "node" node) as [nodeid' |] eqn:Hn;
    [| discriminate].
  inversion Hid. subst nodeid'. clear Hid.
  apply bind_ok in Hrun. destruct Hrun as [storages [s1 [Hcall Hrun]]].
  apply api_call_ok in Hcall. destruct Hcall as [Hlist ->].
  now exists nodeid, storages.
Qed.

Section NodeTurn.

Variables (pve : ProxmoxAPI) (node : dict).
Variables (s s' : state volumes_locals) (u : unit).
Hypothesis Hfam : volume_family (disk_size (locals s)).
Hypothesis Hrun : volumes_node (VolumesCollector_init pve) node s = (Ok u, s').

Lemma volumes_node_keeps :
  volume_family (disk_size (locals s'))
  /\ forall x, remembered x s -> remembered x s'.
Proof.
  destruct (volumes_node_body_ok pve node s s' u Hrun)
    as [nodeid [storages [Hnode [_ Hloop]]]].
  apply (for_each_invariant
           (fun t => volume_family (disk_size (locals t))
                     /\ forall x, remembered x s -> remembered x t)
           (volumes_storage pve nodeid node) storages) with (s := listed s nodeid) (u := u);
    [| split; [exact Hfam | auto] | exact Hloop].
  intros st t t' _ [Ht Hx] Hst. split.
  - exact (volumes_storage_keeps_family pve nodeid node st t t' tt Hnode Ht Hst).
  - intros x Hxs.
    exact (volumes_storage_keeps_seen pve nodeid node st t t' tt Hnode Ht Hst x (Hx x Hxs)).
Qed.

Lemma volumes_node_elsewhere (n nm : pyval) :
  dict_get "node" node <> Some n -> uninspected n nm s -> uninspected n nm s'.
Proof.
  intros Hother Hun.
  destruct (volumes_node_body_ok pve node s s' u Hrun)
    as [nodeid [storages [Hnode [_ Hloop]]]].
  assert (Hne : nodeid <> n) by congruence.
  apply (for_each_invariant
           (fun t => volume_family (disk_size (locals t)) /\ uninspected n nm t)
           (volumes_storage pve nodeid node) storages) with (s := listed s nodeid) (u := u);
    [| split; [exact Hfam | now apply uninspected_listed] | exact Hloop].
  intros st t t' _ [Ht Hunt] Hst. split.
  - exact (volumes_storage_keeps_family pve nodeid node st t t' tt Hnode Ht Hst).
  - exact (volumes_storage_elsewhere pve nodeid node st t t' tt Hnode Ht Hst n nm Hne Hunt).
Qed.

Lemma volumes_node_remembers (nodeid name : pyval) (storages : list dict) (st : dict) :
  dict_get "node" node = Some nodeid ->
  nodes_storage_get pve nodeid = Ok storages ->
  In st storages ->
  retained st ->
  dict_get "storage" st = Some name ->
  remembered name s'.
Proof.
  intros Hnode Hlist Hin Hret Hname.
  destruct (volumes_node_body_ok pve node s s' u Hrun)
    as [nodeid' [storages' [Hnode' [Hlist' Hloop]]]].
  rewrite Hnode in Hnode'. inversion Hnode'. subst nodeid'.
  rewrite Hlist in Hlist'. inversion Hlist'. subst storages'.
  destruct (in_split st storages Hin) as [pre [post ->]].
  apply for_each_split_ok in Hloop. destruct Hloop as [t1 [t2 [Hpre [Hst Hpost]]]].
  assert (Ht1 : volume_family (disk_size (locals t1))).
  { apply (for_each_invariant (fun t => volume_family (disk_size (locals t)))
             (volumes_storage pve nodeid node) pre) with (s := listed s nodeid) (u := tt);
      [| exact Hfam | exact Hpre].
    intros x t t' _ Ht Hx.
    exact (volumes_storage_keeps_family pve nodeid node x t t' tt Hnode Ht Hx). }
  assert (Ht2 : volume_family (disk_size (locals t2)) /\ remembered name t2).
  { split.
    - exact (volumes_storage_keeps_family pve nodeid node st t1 t2 tt Hnode Ht1 Hst).
    - exact (volumes_storage_remembers pve nodeid node st t1 t2 tt Hnode Ht1 Hst name
               Hret Hname). }
  apply (for_each_invariant
           (fun t => volume_family (disk_size (locals t)) /\ remembered name t)
           (volumes_storage pve nodeid node) post) with (s := t2) (u := u);
    [| exact Ht2 | exact Hpost].
  intros x t t' _ [Ht Hx] Hstep. split.
  - exact (volumes_storage_keeps_family pve nodeid node x t t' tt Hnode Ht Hstep).
  - exact (volumes_storage_keeps_seen pve nodeid node x t t' tt Hnode Ht Hstep name Hx).
Qed.

Lemma volumes_node_later (nodeid name : pyval) :
  dict_get "node" node = Some nodeid ->
  remembered name s ->
  (forall storages st,
      nodes_storage_get pve nodeid = Ok storages ->
      In st storages ->
      dict_get "storage" st = Some name ->
      marked_shared st true) ->
  uninspected nodeid name s ->
  uninspected nodeid name s'.
Proof.
  intros Hnode Hseen Hshared Hun.
  destruct (volumes_node_body_ok pve node s s' u Hrun)
    as [nodeid' [storages [Hnode' [Hlist Hloop]]]].
  rewrite Hnode in Hnode'. inversion Hnode'. subst nodeid'.
  apply (for_each_invariant
           (fun t => volume_family (disk_size (locals t))
                     /\ remembered name t /\ uninspected nodeid name t)
           (volumes_storage pve nodeid node) storages) with (s := listed s nodeid) (u := u);
    [| split; [exact Hfam | split; [exact Hseen | now apply uninspected_listed]]
     | exact Hloop].
  intros st t t' Hin [Ht [Hst Hunt]] Hstep. split; [| split].
  - exact (volumes_storage_keeps_family pve nodeid node st t t' tt Hnode Ht Hstep).
  - exact (volumes_storage_keeps_seen pve nodeid node st t t' tt Hnode Ht Hstep name Hst).
  - apply (volumes_storage_later pve nodeid node st t t' tt Hnode Ht Hstep name Hst);
      [| exact Hunt].
    intro Hname. exact (Hshared storages st Hlist Hin Hname).
Qed.

End NodeTurn.

Lemma volumes_nodes_keep (pve : ProxmoxAPI) (nodes : list dict)
  (s s' : state volumes_locals) (u : unit) :
  volume_family (disk_size (locals s)) ->
  for_each nodes (volumes_node (VolumesCollector_init pve)) s = (Ok u, s') ->
  volume_family (disk_size (locals s'))
  /\ forall x, remembered x s -> remembered x s'.
Proof.
  intros Hfam Hrun.
  apply (for_each_invariant
           (fun t => volume_family (disk_size (locals t))
                     /\ forall x, remembered x s -> remembered x t)
           (volumes_node (VolumesCollector_init pve)) nodes) with (s := s) (u := u);
    [| split; [exact Hfam | auto] | exact Hrun].
  intros node t t' _ [Ht Hx] Hnode.
  destruct (volumes_node_keeps pve node t t' tt Ht Hnode) as [Ht' Hmono]. auto.
Qed.

Lemma volumes_nodes_elsewhere (pve : ProxmoxAPI) (nodes : list dict) (n nm : pyval)
  (s s' : state volumes_locals) (u : unit) :
  (forall node, In node nodes -> dict_get "node" node <> Some n) ->
  volume_family (disk_size (locals s)) ->
  uninspected n nm s ->
  for_each nodes (volumes_node (VolumesCollector_init pve)) s = (Ok u, s') ->
  uninspected n nm s'.
Proof.
  intros Hother Hfam Hun Hrun.
  apply (for_each_invariant
           (fun t => volume_family (disk_size (locals t)) /\ uninspected n nm t)
           (volumes_node (VolumesCollector_init pve)) nodes) with (s := s) (u := u);
    [| split; [exact Hfam | exact Hun] | exact Hrun].
  intros node t t' Hin [Ht Hunt] Hnode. split.
  - exact (proj1 (volumes_node_keeps pve node t t' tt Ht Hnode)).
  - exact (volumes_node_elsewhere pve node t t' tt Ht Hnode n nm (Hother node Hin) Hunt).
Qed.

(** When a node lists a retained backend under a name, shared or not, a
    node that comes later in the listing and bears the name only on
    backends marked shared is not inspected for it. *)
Lemma volumes_later_copy_skipped (pve : ProxmoxAPI)
  (before between after : list dict) (nodeA nodeB : dict) (idA idB name : pyval)
  (storagesA : list dict) (stA : dict) (fams : list Metric)
  (s s' : state volumes_locals) :
  nodes_get pve = Ok (before ++ nodeA :: between ++ nodeB :: after) ->
  dict_get "node" nodeA = Some idA ->
  nodes_storage_get pve idA = Ok storagesA ->
  In stA storagesA ->
  retained stA ->
  dict_get "storage" stA = Some name ->
  dict_get "node" nodeB = Some idB ->
  (forall node, In node (before ++ nodeA :: between ++ after) ->
                dict_get "node" node <> Some idB) ->
  (forall storagesB st,
      nodes_storage_get pve idB = Ok storagesB ->
      In st storagesB ->
      dict_get "storage" st = Some name ->
      marked_shared st true) ->
  ~ In (GET_nodes_storage_content idB name) (calls s) ->
  VolumesCollector_collect (VolumesCollector_init pve) s = (Ok fams, s') ->
  exists fam,
    fams = [fam]
    /\ volume_family fam
    /\ (forall sample, In sample (m_samples fam) -> ~ attributed idB name sample)
    /\ ~ In (GET_nodes_storage_content idB name) (calls s').
Proof.
  intros Hnodes HidA HlistA HinA Hret Hname HidB Hothers Hshared Hfresh Hrun.
  rewrite (volumes_collect_run pve _ s Hnodes) in Hrun.
  destruct (for_each _ _ (begun s)) as [[[] | e] s1] eqn:Hloop; [| discriminate].
  inversion Hrun. subst fams s1. clear Hrun.
  assert (Hfam0 : volume_family (disk_size (locals (begun s)))) by (split; reflexivity).
  assert (Hun0 : uninspected idB name (begun s)).
  { split; [intros sample [] |]. simpl. intro Hin.
    apply in_app_or in Hin. destruct Hin as [Hin | [Heq | []]];
      [exact (Hfresh Hin) | discriminate Heq]. }
  apply for_each_split_ok in Hloop.
  destruct Hloop as [t1 [t2 [Hbefore [HnodeA Hrest]]]].
  apply for_each_split_ok in Hrest.
  destruct Hrest as [t3 [t4 [Hbetween [HnodeB Hafter]]]].
  assert (Hin_before : forall node, In node before -> dict_get "node" node <> Some idB).
  { intros node Hin. apply Hothers. apply in_or_app. now left. }
  assert (Hin_A : dict_get "node" nodeA <> Some idB).
  { apply Hothers. apply in_or_app. right. now left. }
  assert (Hin_between : forall node, In node between -> dict_get "node" node <> Some idB).
  { intros node Hin. apply Hothers. apply in_or_app. right. right.
    apply in_or_app. now left. }
  assert (Hin_after : forall node, In node after -> dict_get "node" node <> Some idB).
  { intros node Hin. apply Hothers. apply in_or_app. right. right.
    apply in_or_app. now right. }
  destruct (volumes_nodes_keep pve before _ _ _ Hfam0 Hbefore) as [Hfam1 _].
  assert (Hun1 := volumes_nodes_elsewhere pve before idB name _ _ _
                    Hin_before Hfam0 Hun0 Hbefore).
  destruct (volumes_node_keeps pve nodeA t1 t2 tt Hfam1 HnodeA) as [Hfam2 _].
  assert (Hun2 := volumes_node_elsewhere pve nodeA t1 t2 tt Hfam1 HnodeA idB name
                    Hin_A Hun1).
  assert (Hseen2 := volumes_node_remembers pve nodeA t1 t2 tt Hfam1 HnodeA idA name
                      storagesA stA HidA HlistA HinA Hret Hname).
  destruct (volumes_nodes_keep pve between _ _ _ Hfam2 Hbetween) as [Hfam3 Hmono3].
  assert (Hun3 := volumes_nodes_elsewhere pve between idB name _ _ _
                    Hin_between Hfam2 Hun2 Hbetween).
  destruct (volumes_node_keeps pve nodeB t3 t4 tt Hfam3 HnodeB) as [Hfam4 _].
  assert (Hun4 := volumes_node_later pve nodeB t3 t4 tt Hfam3 HnodeB idB name
                    HidB (Hmono3 name Hseen2) Hshared Hun3).
  destruct (volumes_nodes_keep pve after _ _ _ Hfam4 Hafter) as [Hfam5 _].
  destruct (volumes_nodes_elsewhere pve after idB name _ _ _
              Hin_after Hfam4 Hun4 Hafter) as [Hsamples Hcalls].
  exists (disk_size (locals s')). auto.
Qed.

(** *** The first node to list a name *)

Lemma grown_refl (s : state volumes_locals) : grown s s.
Proof. split; apply incl_refl. Qed.

Lemma grown_trans (s t r : state volumes_locals) : grown s t -> grown t r -> grown s r.
Proof. intros [H1 H2] [H3 H4]. split; eapply incl_tran; eauto. Qed.

Lemma grown_inspected (s : state volumes_locals) (nodeid name : pyval) (disks : list dict) :
  grown s (inspected s nodeid name disks).
Proof. split; simpl; apply incl_appl, incl_refl. Qed.

Lemma grown_listed (s : state volumes_locals) (nodeid : pyval) : grown s (listed s nodeid).
Proof. split; simpl; [apply incl_refl | apply incl_appl, incl_refl]. Qed.

Lemma set_contains_add_inv (x y : pyval) (s : pyset) :
  set_contains x (set_add y s) = true -> set_contains x s = true \/ py_eq x y = true.
Proof.
  unfold set_add. destruct (set_contains y s); [now left |].
  unfold set_contains. rewrite existsb_app. simpl. rewrite orb_false_r.
  intro H. apply orb_true_iff in H. exact H.
Qed.

Lemma volumes_storage_grows (pve : ProxmoxAPI) (nodeid : pyval) (node storage : dict)
  (s s' : state volumes_locals) (u : unit) :
  dict_get "node" node = Some nodeid ->
  volume_family (disk_size (locals s)) ->
  volumes_storage pve nodeid node storage s = (Ok u, s') ->
  grown s s'.
Proof.
  intros Hnode Hfam Hrun.
  destruct (volumes_storage_ok pve nodeid node storage s s' u Hnode Hfam Hrun)
    as [[-> _] | [[-> _] | [name [disks [_ [_ [_ [_ [_ ->]]]]]]]]];
    [apply grown_refl | apply grown_refl | apply grown_inspected].
Qed.

Lemma volumes_storages_grow (pve : ProxmoxAPI) (nodeid : pyval) (node : dict)
  (storages : list dict) (s s' : state volumes_locals) (u : unit) :
  dict_get "node" node = Some nodeid ->
  volume_family (disk_size (locals s)) ->
  for_each storages (volumes_storage pve nodeid node) s = (Ok u, s') ->
  volume_family (disk_size (locals s')) /\ grown s s'.
Proof.
  intros Hnode Hfam Hrun.
  apply (for_each_invariant
           (fun t => volume_family (disk_size (locals t)) /\ grown s t)
           (volumes_storage pve nodeid node) storages) with (s := s) (u := u);
    [| split; [exact Hfam | apply grown_refl] | exact Hrun].
  intros st t t' _ [Ht Hg] Hstep. split.
  - exact (volumes_storage_keeps_family pve nodeid node st t t' tt Hnode Ht Hstep).
  - apply (grown_trans s t t' Hg).
    exact (volumes_storage_grows pve nodeid node st t t' tt Hnode Ht Hstep).
Qed.

Lemma volumes_nodes_grow (pve : ProxmoxAPI) (nodes : list dict)
  (s s' : state volumes_locals) (u : unit) :
  volume_family (disk_size (locals s)) ->
  for_each nodes (volumes_node (VolumesCollector_init pve)) s = (Ok u, s') ->
  grown s s'.
Proof.
  intros Hfam Hrun.
  apply (proj2 (A := volume_family (disk_size (locals s')))).
  apply (for_each_invariant
           (fun t => volume_family (disk_size (locals t)) /\ grown s t)
           (volumes_node (VolumesCollector_init pve)) nodes) with (s := s) (u := u);
    [| split; [exact Hfam | apply grown_refl] | exact Hrun].
  intros node t t' _ [Ht Hg] Hnode. split.
  - exact (proj1 (volumes_node_keeps pve node t t' tt Ht Hnode)).
  - apply (grown_trans s t t' Hg).
    destruct (volumes_node_body_ok pve node t t' tt Hnode)
      as [nodeid [storages [Hid [_ Hloop]]]].
    apply (grown_trans t (listed t nodeid) t' (grown_listed t nodeid)).
    exact (proj2 (volumes_storages_grow pve nodeid node storages (listed t nodeid) t' tt
                    Hid Ht Hloop)).
Qed.

Lemma pyval_eq_dec (a b : pyval) : {a = b} + {a <> b}.
Proof.
  decide equality; [apply Bool.bool_dec | apply Z.eq_dec | apply string_dec].
Qed.

Lemma dict_contains_get (k : string) (d : dict) :
  dict_contains k d = true -> exists v, dict_get k d = Some v.
Proof.
  unfold dict_contains. destruct (dict_get k d) as [v |]; [eauto | discriminate].
Qed.

(** A loop returns when every turn does, from a state in the invariant. *)
Lemma for_each_returns {L A : Type} (I : state L -> Prop) (body : A -> M L unit)
  (xs : list A) :
  (forall x s, In x xs -> I s -> exists s', body x s = (Ok tt, s') /\ I s') ->
  forall s, I s -> exists s', for_each xs body s = (Ok tt, s') /\ I s'.
Proof.
  induction xs as [| x xs IH]; intros Hbody s Hs.
  - exists s. auto.
  - destruct (Hbody x s (or_introl eq_refl) Hs) as [s1 [H1 Hs1]].
    destruct (IH (fun y t Hy => Hbody y t (or_intror Hy)) s1 Hs1) as [s' [H2 Hs']].
    exists s'. split; [| exact Hs']. simpl. now rewrite (bind_run _ _ _ _ _ H1).
Qed.

(** The turn of a backend with its fields returns when the content of a
    retained backend answers. *)
Lemma volumes_storage_returns (pve : ProxmoxAPI) (nodeid : pyval) (node storage : dict)
  (s : state volumes_locals) :
  dict_get "node" node = Some nodeid ->
  volume_family (disk_size (locals s)) ->
  storage_wf storage ->
  (forall name,
      retained storage ->
      dict_get "storage" storage = Some name ->
      exists disks,
        nodes_storage_content_get pve nodeid name = Ok disks /\ Forall volume_wf disks) ->
  exists s',
    volumes_storage pve nodeid node storage s = (Ok tt, s')
    /\ volume_family (disk_size (locals s')).
Proof.
  intros Hnode Hfam Hwf Hcontent.
  inversion Hwf as [| ? ? Hty Hwf1]; subst.
  inversion Hwf1 as [| ? ? Hac Hwf2]; subst.
  inversion Hwf2 as [| ? ? Hsh Hwf3]; subst.
  inversion Hwf3 as [| ? ? Hnm _]; subst.
  destruct (dict_contains_get _ _ Hty) as [ty Ety].
  destruct (dict_contains_get _ _ Hac) as [active Eac].
  destruct (dict_contains_get _ _ Hsh) as [shared Esh].
  destruct (dict_contains_get _ _ Hnm) as [name Enm].
  destruct (py_eq ty (PStr "dir")) eqn:Edir.
  { apply py_eq_str in Edir. exists s. split; [| exact Hfam].
    apply (volumes_storage_passes_over pve nodeid node storage s ty Ety). now left. }
  destruct (py_truthy active) eqn:Eact.
  2:{ exists s. split; [| exact Hfam].
      apply (volumes_storage_passes_over pve nodeid node storage s ty Ety).
      right. now exists active. }
  assert (Hret : retained storage).
  { exists ty, active. apply py_eq_str_false in Edir. auto. }
  destruct (py_truthy shared && set_contains name (seen_shared_storages (locals s)))
    eqn:Eseen.
  - apply andb_prop in Eseen. destruct Eseen as [Es Ein].
    exists s. split; [| exact Hfam].
    apply (volumes_storage_skips_seen pve nodeid node storage s name Hret); try assumption.
    now exists shared.
  - destruct (Hcontent name Hret Enm) as [disks [Hdisks Hvol]].
    exists (inspected s nodeid name disks). split; [| exact Hfam].
    now apply (volumes_storage_inspects pve nodeid node storage s shared name disks).
Qed.

Lemma volumes_node_returns (pve : ProxmoxAPI) (nodes : list dict) (node : dict)
  (s : state volumes_locals) :
  volumes_answered pve nodes ->
  In node nodes ->
  volume_family (disk_size (locals s)) ->
  exists s',
    volumes_node (VolumesCollector_init pve) node s = (Ok tt, s')
    /\ volume_family (disk_size (locals s')).
Proof.
  intros [_ Hanswers] Hin Hfam.
  destruct (Hanswers node Hin) as [nodeid [storages [Hnode [Hlist [Hwf Hcontent]]]]].
  destruct (for_each_returns (fun t => volume_family (disk_size (locals t)))
              (volumes_storage pve nodeid node) storages) with (s := listed s nodeid)
    as [s' [Hloop Hfam']]; [| exact Hfam |].
  - intros st t Hst Ht.
    apply (volumes_storage_returns pve nodeid node st t Hnode Ht).
    + rewrite Forall_forall in Hwf. now apply Hwf.
    + intros name Hret Hname. exact (Hcontent st name Hst Hret Hname).
  - exists s'. split; [| exact Hfam'].
    unfold volumes_node, try_except_ResourceException.
    assert (Hbody : volumes_node_body (VolumesCollector_init pve) node s = (Ok tt, s')).
    { unfold volumes_node_body, bind, lift, api_call. simpl.
      rewrite (getitem_some _ _ _ Hnode), Hlist. exact Hloop. }
    now rewrite Hbody.
Qed.

(** On a cluster that answers, the collector returns its one family. *)
Lemma volumes_collect_returns (pve : ProxmoxAPI) (nodes : list dict)
  (s : state volumes_locals) :
  volumes_answered pve nodes ->
  exists s',
    VolumesCollector_collect (VolumesCollector_init pve) s
    = (Ok [disk_size (locals s')], s').
Proof.
  intro Hanswers.
  rewrite (volumes_collect_run pve nodes s (proj1 Hanswers)).
  destruct (for_each_returns (fun t => volume_family (disk_size (locals t)))
              (volumes_node (VolumesCollector_init pve)) nodes) with (s := begun s)
    as [s' [Hloop _]].
  - intros node t Hin Ht. exact (volumes_node_returns pve nodes node t Hanswers Hin Ht).
  - split; reflexivity.
  - exists s'. now rewrite Hloop.
Qed.

Lemma volumes_storage_unmet (pve : ProxmoxAPI) (nodeid : pyval) (node storage : dict)
  (s s' : state volumes_locals) (u : unit) (name : pyval) :
  dict_get "node" node = Some nodeid ->
  volume_family (disk_size (locals s)) ->
  volumes_storage pve nodeid node storage s = (Ok u, s') ->
  (retained storage -> ~ bears name storage) ->
  ~ remembered name s ->
  ~ remembered name s'.
Proof.
  intros Hnode Hfam Hrun Hbears Hnot.
  destruct (volumes_storage_ok pve nodeid node storage s s' u Hnode Hfam Hrun)
    as [[-> _] | [[-> _] | [nm [disks [Hret [Hnm [_ [_ [_ ->]]]]]]]]];
    [exact Hnot | exact Hnot |].
  unfold remembered, inspected. simpl. intro Hseen.
  apply set_contains_add_inv in Hseen. destruct Hseen as [Hseen | Heq].
  - exact (Hnot Hseen).
  - apply (Hbears Hret). now exists nm.
Qed.

(** A turn for a backend that is not a retained bearer of the name leaves
    the pair uninspected, whatever the node. *)
Lemma volumes_storage_unborne (pve : ProxmoxAPI) (nodeid : pyval) (node storage : dict)
  (s s' : state volumes_locals) (u : unit) (n name : pyval) :
  dict_get "node" node = Some nodeid ->
  volume_family (disk_size (locals s)) ->
  volumes_storage pve nodeid node storage s = (Ok u, s') ->
  (retained storage -> ~ bears name storage) ->
  uninspected n name s ->
  uninspected n name s'.
Proof.
  intros Hnode Hfam Hrun Hbears Hun.
  destruct (volumes_storage_ok pve nodeid node storage s s' u Hnode Hfam Hrun)
    as [[-> _] | [[-> _] | [nm [disks [Hret [Hnm [_ [_ [_ ->]]]]]]]]];
    [exact Hun | exact Hun |].
  apply uninspected_inspected; [exact Hun |]. right. intros ->.
  apply (Hbears Hret). exists name. split; [exact Hnm | apply py_eq_refl].
Qed.

Lemma volumes_storages_unmet (pve : ProxmoxAPI) (nodeid : pyval) (node : dict)
  (storages : list dict) (s s' : state volumes_locals) (u : unit) (n name : pyval) :
  dict_get "node" node = Some nodeid ->
  volume_family (disk_size (locals s)) ->
  (forall st, In st storages -> retained st -> ~ bears name st) ->
  ~ remembered name s ->
  uninspected n name s ->
  for_each storages (volumes_storage pve nodeid node) s = (Ok u, s') ->
  volume_family (disk_size (locals s')) /\ ~ remembered name s' /\ uninspected n name s'.
Proof.
  intros Hnode Hfam Hnone Hnot Hun Hrun.
  apply (for_each_invariant
           (fun t => volume_family (disk_size (locals t)) /\ ~ remembered name t
                     /\ uninspected n name t)
           (volumes_storage pve nodeid node) storages) with (s := s) (u := u);
    [| split; [exact Hfam | split; [exact Hnot | exact Hun]] | exact Hrun].
  intros st t t' Hin [Ht [Hn Hu]] Hstep. split; [| split].
  - exact (volumes_storage_keeps_family pve nodeid node st t t' tt Hnode Ht Hstep).
  - exact (volumes_storage_unmet pve nodeid node st t t' tt name Hnode Ht Hstep
             (Hnone st Hin) Hn).
  - exact (volumes_storage_unborne pve nodeid node st t t' tt n name Hnode Ht Hstep
             (Hnone st Hin) Hu).
Qed.

Lemma volumes_nodes_unmet (pve : ProxmoxAPI) (nodes : list dict)
  (s s' : state volumes_locals) (u : unit) (n name : pyval) :
  (forall node st, In node nodes -> lists pve node st -> retained st -> ~ bears name st) ->
  volume_family (disk_size (locals s)) ->
  ~ remembered name s ->
  uninspected n name s ->
  for_each nodes (volumes_node (VolumesCollector_init pve)) s = (Ok u, s') ->
  volume_family (disk_size (locals s')) /\ ~ remembered name s' /\ uninspected n name s'.
Proof.
  intros Hnone Hfam Hnot Hun Hrun.
  apply (for_each_invariant
           (fun t => volume_family (disk_size (locals t)) /\ ~ remembered name t
                     /\ uninspected n name t)
           (volumes_node (VolumesCollector_init pve)) nodes) with (s := s) (u := u);
    [| split; [exact Hfam | split; [exact Hnot | exact Hun]] | exact Hrun].
  intros node t t' Hin [Ht [Hn Hu]] Hnode.
  destruct (volumes_node_body_ok pve node t t' tt Hnode)
    as [nodeid [storages [Hid [Hlist Hloop]]]].
  apply (volumes_storages_unmet pve nodeid node storages (listed t nodeid) t' tt n name
           Hid Ht); [| exact Hn | now apply uninspected_listed | exact Hloop].
  intros st Hst. apply (Hnone node st Hin). now exists nodeid, storages.
Qed.

(** A retained backend that is not marked shared, or that no retained
    backend listed before it shares its name with, is inspected: its
    content is requested through its node and every volume of it is
    sampled under the node's name. *)
Lemma volumes_copy_inspected (pve : ProxmoxAPI)
  (before after : list dict) (nodeA : dict) (idA name : pyval)
  (storagesBefore storagesAfter : list dict) (stA : dict) (fams : list Metric)
  (s s' : state volumes_locals) :
  nodes_get pve = Ok (before ++ nodeA :: after) ->
  dict_get "node" nodeA = Some idA ->
  nodes_storage_get pve idA = Ok (storagesBefore ++ stA :: storagesAfter) ->
  retained stA ->
  dict_get "storage" stA = Some name ->
  marked_shared stA false
  \/ ((forall node st, In node before -> lists pve node st -> retained st ->
                       ~ bears name st)
      /\ (forall st, In st storagesBefore -> retained st -> ~ bears name st)) ->
  VolumesCollector_collect (VolumesCollector_init pve) s = (Ok fams, s') ->
  exists fam disks,
    fams = [fam]
    /\ nodes_storage_content_get pve idA name = Ok disks
    /\ In (GET_nodes_storage_content idA name) (calls s')
    /\ incl (map (volume_sample idA name) disks) (m_samples fam).
Proof.
  intros Hnodes HidA HlistA Hret Hname Hwhy Hrun.
  rewrite (volumes_collect_run pve _ s Hnodes) in Hrun.
  destruct (for_each _ _ (begun s)) as [[[] | e] s1] eqn:Hloop; [| discriminate].
  inversion Hrun. subst fams s1. clear Hrun.
  assert (Hfam0 : volume_family (disk_size (locals (begun s)))) by (split; reflexivity).
  assert (Hnot0 : ~ remembered name (begun s)) by (unfold remembered; simpl; discriminate).
  apply for_each_split_ok in Hloop.
  destruct Hloop as [t1 [t2 [Hloop1 [HnodeA Hloop2]]]].
  destruct (volumes_nodes_keep pve before _ _ _ Hfam0 Hloop1) as [Hfam1 _].
  destruct (volumes_node_keeps pve nodeA t1 t2 tt Hfam1 HnodeA) as [Hfam2 _].
  destruct (volumes_node_body_ok pve nodeA t1 t2 tt HnodeA)
    as [idA' [storages [HidA' [Hlist' HloopA]]]].
  rewrite HidA in HidA'. inversion HidA'. subst idA'.
  rewrite HlistA in Hlist'. inversion Hlist'. subst storages. clear HidA' Hlist'.
  apply for_each_split_ok in HloopA.
  destruct HloopA as [r1 [r2 [Hpre [HstA Hpost]]]].
  destruct (volumes_storages_grow pve idA nodeA storagesBefore (listed t1 idA) r1 tt
              HidA Hfam1 Hpre) as [Hfamr1 _].
  assert (Hfamr2 := volumes_storage_keeps_family pve idA nodeA stA r1 r2 tt HidA Hfamr1 HstA).
  assert (Hnew : marked_shared stA false \/ ~ remembered name r1).
  { destruct Hwhy as [Hunshared | [Hbefore HbeforeA]]; [now left | right].
    assert (Hnot1 : ~ remembered name t1).
    { intro Hseen.
      assert (Hinv := for_each_invariant
                        (fun t => volume_family (disk_size (locals t))
                                  /\ ~ remembered name t)
                        (volumes_node (VolumesCollector_init pve)) before).
      refine (proj2 (Hinv _ (begun s) t1 tt (conj Hfam0 Hnot0) Hloop1) Hseen).
      intros node t t' Hin [Ht Hn] Hnode.
      destruct (volumes_node_body_ok pve node t t' tt Hnode)
        as [nodeid [storages [Hid [Hlist Hl]]]].
      apply (for_each_invariant
               (fun r => volume_family (disk_size (locals r)) /\ ~ remembered name r)
               (volumes_storage pve nodeid node) storages) with (s := listed t nodeid)
                                                                 (u := tt);
        [| split; [exact Ht | exact Hn] | exact Hl].
      intros st r r' Hst [Hr Hnr] Hstep. split.
      - exact (volumes_storage_keeps_family pve nodeid node st r r' tt Hid Hr Hstep).
      - apply (volumes_storage_unmet pve nodeid node st r r' tt name Hid Hr Hstep);
          [| exact Hnr].
        apply (Hbefore node st Hin). now exists nodeid, storages. }
    apply (for_each_invariant
             (fun r => volume_family (disk_size (locals r)) /\ ~ remembered name r)
             (volumes_storage pve idA nodeA) storagesBefore) with (s := listed t1 idA)
                                                                  (u := tt);
      [| split; [exact Hfam1 | exact Hnot1] | exact Hpre].
    intros st r r' Hst [Hr Hnr] Hstep. split.
    - exact (volumes_storage_keeps_family pve idA nodeA st r r' tt HidA Hr Hstep).
    - apply (volumes_storage_unmet pve idA nodeA st r r' tt name HidA Hr Hstep);
        [| exact Hnr].
      now apply HbeforeA. }
  destruct (volumes_storage_ok pve idA nodeA stA r1 r2 tt HidA Hfamr1 HstA)
    as [[_ Hno] | [[_ [_ [nm [Hnm [Hsh Hseen]]]]]
                   | [nm [disks [_ [Hnm [_ [Hcontent [_ ->]]]]]]]]].
  - contradiction.
  - rewrite Hname in Hnm. inversion Hnm. subst nm. exfalso.
    destruct Hnew as [[sh [Hs1 Hf]] | Hnot]; [| now apply Hnot].
    destruct Hsh as [sh' [Hs2 Ht]]. congruence.
  - rewrite Hname in Hnm. inversion Hnm. subst nm.
    destruct (volumes_storages_grow pve idA nodeA storagesAfter _ _ _ HidA Hfamr2 Hpost)
      as [_ [Hs2 Hc2]].
    destruct (volumes_nodes_grow pve after _ _ _ Hfam2 Hloop2) as [Hs3 Hc3].
    exists (disk_size (locals s')), disks. split; [reflexivity |].
    split; [exact Hcontent |]. split.
    + apply Hc3, Hc2. simpl. apply in_or_app. right. now left.
    + intros sample Hin. apply Hs3, Hs2. simpl. apply in_or_app. now right.
Qed.

(** The name of every retained backend of a listed node is in the set when
    the scrape ends. *)
Lemma volumes_collect_remembers (pve : ProxmoxAPI) (nodes : list dict) (node st : dict)
  (name : pyval) (fams : list Metric) (s s' : state volumes_locals) :
  nodes_get pve = Ok nodes ->
  In node nodes ->
  lists pve node st ->
  retained st ->
  dict_get "storage" st = Some name ->
  VolumesCollector_collect (VolumesCollector_init pve) s = (Ok fams, s') ->
  remembered name s'.
Proof.
  intros Hnodes Hin [nodeid [storages [Hid [Hlist Hst]]]] Hret Hname Hrun.
  rewrite (volumes_collect_run pve _ s Hnodes) in Hrun.
  destruct (for_each _ _ (begun s)) as [[[] | e] s1] eqn:Hloop; [| discriminate].
  inversion Hrun. subst fams s1. clear Hrun.
  destruct (in_split node nodes Hin) as [before [after ->]].
  assert (Hfam0 : volume_family (disk_size (locals (begun s)))) by (split; reflexivity).
  apply for_each_split_ok in Hloop.
  destruct Hloop as [t1 [t2 [Hloop1 [Hnode Hloop2]]]].
  destruct (volumes_nodes_keep pve before _ _ _ Hfam0 Hloop1) as [Hfam1 _].
  destruct (volumes_node_keeps pve node t1 t2 tt Hfam1 Hnode) as [Hfam2 _].
  assert (Hseen := volumes_node_remembers pve node t1 t2 tt Hfam1 Hnode nodeid name
                     storages st Hid Hlist Hst Hret Hname).
  exact (proj2 (volumes_nodes_keep pve after _ _ _ Hfam2 Hloop2) name Hseen).
Qed.

(** When the first retained backend to bear a name is not marked shared,
    no node that bears the name on backends marked shared only is ever
    inspected for it. *)
Lemma volumes_shared_copies_uninspected (pve : ProxmoxAPI)
  (before after : list dict) (nodeA : dict) (idA name : pyval)
  (storagesBefore storagesAfter : list dict) (stA : dict)
  (nodeN : dict) (idN : pyval) (fams : list Metric) (s s' : state volumes_locals) :
  nodes_get pve = Ok (before ++ nodeA :: after) ->
  dict_get "node" nodeA = Some idA ->
  nodes_storage_get pve idA = Ok (storagesBefore ++ stA :: storagesAfter) ->
  retained stA ->
  marked_shared stA false ->
  dict_get "storage" stA = Some name ->
  (forall node st, In node before -> lists pve node st -> retained st -> ~ bears name st) ->
  (forall st, In st storagesBefore -> retained st -> ~ bears name st) ->
  dict_get "node" nodeN = Some idN ->
  (forall st, lists pve nodeN st -> dict_get "storage" st = Some name ->
              marked_shared st true) ->
  ~ In (GET_nodes_storage_content idN name) (calls s) ->
  VolumesCollector_collect (VolumesCollector_init pve) s = (Ok fams, s') ->
  exists fam,
    fams = [fam]
    /\ (forall sample, In sample (m_samples fam) -> ~ attributed idN name sample)
    /\ ~ In (GET_nodes_storage_content idN name) (calls s').
Proof.
  intros Hnodes HidA HlistA Hret Hunshared Hname Hbefore HbeforeA HidN Honly Hfresh Hrun.
  rewrite (volumes_collect_run pve _ s Hnodes) in Hrun.
  destruct (for_each _ _ (begun s)) as [[[] | e] s1] eqn:Hloop; [| discriminate].
  inversion Hrun. subst fams s1. clear Hrun.
  assert (Hfam0 : volume_family (disk_size (locals (begun s)))) by (split; reflexivity).
  assert (Hnot0 : ~ remembered name (begun s)) by (unfold remembered; simpl; discriminate).
  assert (Hun0 : uninspected idN name (begun s)).
  { split; [intros sample [] |]. simpl. intro Hin.
    apply in_app_or in Hin. destruct Hin as [Hin | [Heq | []]];
      [exact (Hfresh Hin) | discriminate Heq]. }
  assert (Hne : idA <> idN).
  { intros ->. destruct Hunshared as [sh [Hsh Hfalse]].
    destruct (Honly stA) as [sh' [Hsh' Htrue]]; [| exact Hname | congruence].
    exists idN, (storagesBefore ++ stA :: storagesAfter).
    split; [exact HidN |]. split; [exact HlistA |]. apply in_or_app. right. now left. }
  apply for_each_split_ok in Hloop.
  destruct Hloop as [t1 [t2 [Hloop1 [HnodeA Hloop2]]]].
  destruct (volumes_nodes_unmet pve before _ _ _ idN name Hbefore Hfam0 Hnot0 Hun0 Hloop1)
    as [Hfam1 [_ Hun1]].
  destruct (volumes_node_keeps pve nodeA t1 t2 tt Hfam1 HnodeA) as [Hfam2 _].
  assert (Hun2 : uninspected idN name t2).
  { apply (volumes_node_elsewhere pve nodeA t1 t2 tt Hfam1 HnodeA idN name); [| exact Hun1].
    rewrite HidA. intro H. inversion H. contradiction. }
  assert (Hseen2 : remembered name t2).
  { apply (volumes_node_remembers pve nodeA t1 t2 tt Hfam1 HnodeA idA name
             (storagesBefore ++ stA :: storagesAfter) stA HidA HlistA); try assumption.
    apply in_or_app. right. now left. }
  apply (for_each_invariant
           (fun t => volume_family (disk_size (locals t))
                     /\ remembered name t /\ uninspected idN name t)
           (volumes_node (VolumesCollector_init pve)) after) with (u := tt) (s' := s')
    in Hloop2 as [_ [_ [Hsamples Hcalls]]];
    [now exists (disk_size (locals s')) |
     | split; [exact Hfam2 | split; [exact Hseen2 | exact Hun2]]].
  intros node t t' Hin [Ht [Hs Hu]] Hnode.
  destruct (volumes_node_keeps pve node t t' tt Ht Hnode) as [Ht' Hmono].
  split; [exact Ht' |]. split; [now apply Hmono |].
  destruct (volumes_node_body_ok pve node t t' tt Hnode) as [nodeid [storages [Hid [Hlist _]]]].
  destruct (pyval_eq_dec nodeid idN) as [-> | Hother].
  - apply (volumes_node_later pve node t t' tt Ht Hnode idN name Hid Hs); [| exact Hu].
    intros storages' st Hlist' Hst Hnm. apply (Honly st); [| exact Hnm].
    now exists idN, storages'.
  - apply (volumes_node_elsewhere pve node t t' tt Ht Hnode idN name); [| exact Hu].
    rewrite Hid. intro H. inversion H. contradiction.
Qed.


(** The example clusters answer a scrape of the volumes. *)
Ltac volumes_answered :=
  split; [reflexivity |];
  intros node Hnode; simpl in Hnode;
  repeat (destruct Hnode as [<- | Hnode];
          [eexists; eexists; split; [reflexivity |]; split; [reflexivity |]; split;
           [repeat (constructor; [repeat constructor |]); constructor
           | intros st name Hst _ Hname; simpl in Hst;
             repeat (destruct Hst as [<- | Hst];
                     [inversion Hname; subst name; eexists; split; [reflexivity |];
                      repeat (constructor; [split; reflexivity |]); constructor |]);
             contradiction] |]);
  contradiction.



(** C10, on a cluster that answers the scrape: the collector returns, and
    when it does the name of every retained backend of a listed node is in
    its set of seen names, whether the backend is marked shared or not.  So
    a node that bears a name on backends marked shared only is not inspected
    for it once an earlier node has listed a retained backend of that name;
    and when the first retained backend to bear the name is not marked
    shared, no node that has the name on shared backends only is ever
    inspected for it: no shared copy is.  A retained backend that is not
    marked shared is never passed over: its content is requested and every
    volume of it sampled, whatever names were seen before. *)
Theorem volumes_seen_names_include_unshared (pve : ProxmoxAPI) (nodes : list dict)
  (s : state volumes_locals) :
  volumes_answered pve nodes ->
  exists fam s',
    VolumesCollector_collect (VolumesCollector_init pve) s = (Ok [fam], s')
    /\ (forall node st name,
           In node nodes -> lists pve node st -> retained st ->
           dict_get "storage" st = Some name ->
           remembered name s')
    /\ (forall before between after nodeA nodeB idB name stA,
           nodes = before ++ nodeA :: between ++ nodeB :: after ->
           lists pve nodeA stA -> retained stA -> dict_get "storage" stA = Some name ->
           dict_get "node" nodeB = Some idB ->
           (forall node, In node (before ++ nodeA :: between ++ after) ->
                         dict_get "node" node <> Some idB) ->
           (forall st, lists pve nodeB st -> dict_get "storage" st = Some name ->
                       marked_shared st true) ->
           ~ In (GET_nodes_storage_content idB name) (calls s) ->
           (forall sample, In sample (m_samples fam) -> ~ attributed idB name sample)
           /\ ~ In (GET_nodes_storage_content idB name) (calls s'))
    /\ (forall before after nodeA idA pre post stA name,
           nodes = before ++ nodeA :: after ->
           dict_get "node" nodeA = Some idA ->
           nodes_storage_get pve idA = Ok (pre ++ stA :: post) ->
           retained stA -> marked_shared stA false -> dict_get "storage" stA = Some name ->
           (exists disks,
               nodes_storage_content_get pve idA name = Ok disks
               /\ In (GET_nodes_storage_content idA name) (calls s')
               /\ incl (map (volume_sample idA name) disks) (m_samples fam))
           /\ ((forall node st, In node before -> lists pve node st -> retained st ->
                                ~ bears name st) ->
               (forall st, In st pre -> retained st -> ~ bears name st) ->
               forall nodeN idN,
                 dict_get "node" nodeN = Some idN ->
                 (forall st, lists pve nodeN st -> dict_get "storage" st = Some name ->
                             marked_shared st true) ->
                 ~ In (GET_nodes_storage_content idN name) (calls s) ->
                 (forall sample, In sample (m_samples fam) -> ~ attributed idN name sample)
                 /\ ~ In (GET_nodes_storage_content idN name) (calls s'))).
Proof.
  intro Hanswers.
  destruct (volumes_collect_returns pve nodes s Hanswers) as [s' Hrun].
  assert (Hnodes := proj1 Hanswers).
  exists (disk_size (locals s')), s'. split; [exact Hrun |]. split; [| split].
  - intros node st name Hin Hlists Hret Hname.
    exact (volumes_collect_remembers pve nodes node st name [disk_size (locals s')] s s'
             Hnodes Hin Hlists Hret Hname Hrun).
  - intros before between after nodeA nodeB idB name stA -> [idA [storagesA [HidA
           [HlistA HinA]]]] HretA HnameA HidB Hothers Honly Hfresh.
    destruct (volumes_later_copy_skipped pve before between after nodeA nodeB idA idB name
                storagesA stA [disk_size (locals s')] s s' Hnodes HidA HlistA HinA HretA
                HnameA HidB Hothers)
      as [fam [Hfam [_ [Hsamples Hcalls]]]]; [| exact Hfresh | exact Hrun |].
    + intros storages st Hlist Hin Hname. apply (Honly st); [| exact Hname].
      now exists idB, storages.
    + inversion Hfam. subst fam. split; assumption.
  - intros before after nodeA idA pre post stA name -> HidA HlistA Hret Hunshared Hname.
    split.
    + destruct (volumes_copy_inspected pve before after nodeA idA name pre post stA
                  [disk_size (locals s')] s s'
                  Hnodes HidA HlistA Hret Hname (or_introl Hunshared) Hrun)
        as [fam [disks [Hfam [Hcontent [Hreq Hincl]]]]].
      inversion Hfam. subst fam. now exists disks.
    + intros Hbefore Hpre nodeN idN HidN Honly Hfresh.
      destruct (volumes_shared_copies_uninspected pve before after nodeA idA name pre post
                  stA nodeN idN [disk_size (locals s')] s s' Hnodes HidA HlistA Hret
                  Hunshared Hname Hbefore Hpre HidN Honly Hfresh Hrun)
        as [fam [Hfam [Hsamples Hcalls]]].
      inversion Hfam. subst fam. split; assumption.
Qed.

Lemma volumes_seen_names_include_unshared_witness :
  exists fam s',
    VolumesCollector_collect (VolumesCollector_init Examples.thin_pools)
      (start volumes_fresh)
    = (Ok [fam], s')
    /\ remembered (PStr "data") s'
    /\ In (volume_sample (PStr "pve1") (PStr "data")
             (Examples.volume "data:vm-100-disk-0" 34359738368))
          (m_samples fam)
    /\ In (volume_sample (PStr "pve2") (PStr "data")
             (Examples.volume "data:vm-200-disk-0" 8589934592))
          (m_samples fam)
    /\ (forall sample, In sample (m_samples fam) ->
                       ~ attributed (PStr "pve3") (PStr "data") sample)
    /\ ~ In (GET_nodes_storage_content (PStr "pve3") (PStr "data")) (calls s').
Proof.
  destruct (volumes_seen_names_include_unshared Examples.thin_pools Examples.three_nodes
              (start volumes_fresh))
    as [fam [s' [Hrun [Hseen [Hlater Hunshared]]]]].
  - volumes_answered.
  - assert (Hthin : retained (Examples.storage "data" "lvmthin" 1 0)).
    { exists (PStr "lvmthin"), (PInt 1). repeat split. discriminate. }
    assert (Hlocal : marked_shared (Examples.storage "data" "lvmthin" 1 0) false).
    { exists (PInt 0). split; reflexivity. }
    destruct (Hunshared [] (skipn 1 Examples.three_nodes)
                [("node", PStr "pve1"); ("status", PStr "online")] (PStr "pve1")
                [] [] (Examples.storage "data" "lvmthin" 1 0) (PStr "data")
                eq_refl eq_refl eq_refl Hthin Hlocal eq_refl)
      as [[disks1 [Hcontent1 [_ Hincl1]]] Hnever].
    destruct (Hunshared (firstn 1 Examples.three_nodes) (skipn 2 Examples.three_nodes)
                [("node", PStr "pve2"); ("status", PStr "online")] (PStr "pve2")
                [] [] (Examples.storage "data" "lvmthin" 1 0) (PStr "data")
                eq_refl eq_refl eq_refl Hthin Hlocal eq_refl)
      as [[disks2 [Hcontent2 [_ Hincl2]]] _].
    destruct (Hnever (fun node st (H : In node []) => match H with end)
                     (fun st (H : In st []) => match H with end)
                     [("node", PStr "pve3"); ("status", PStr "online")] (PStr "pve3")
                     eq_refl)
      as [Hsamples Hcalls].
    { intros st [nodeid [storages [Hid [Hlist Hin]]]] _.
      inversion Hid. subst nodeid. vm_compute in Hlist. inversion Hlist. subst storages.
      destruct Hin as [<- | []]. exists (PInt 1). split; reflexivity. }
    { intros []. }
    exists fam, s'. split; [exact Hrun |]. split.
    { apply (Hseen [("node", PStr "pve1"); ("status", PStr "online")]
               (Examples.storage "data" "lvmthin" 1 0)); [simpl; tauto | | exact Hthin
                                                          | reflexivity].
      exists (PStr "pve1"), [Examples.storage "data" "lvmthin" 1 0].
      split; [reflexivity |]. split; [reflexivity | now left]. }
    split.
    { apply Hincl1. vm_compute in Hcontent1. inversion Hcontent1. now left. }
    split; [| split; assumption].
    apply Hincl2. vm_compute in Hcontent2. inversion Hcontent2. now left.
Defined.

(** The clash of names on two nodes, run: the thin pool of [pve1] is
    sampled, the shared storage [pve2] reports under the same name is
    passed over, and no request is made for its content. *)
Example volumes_name_clash :
  VolumesCollector_collect (VolumesCollector_init Examples.name_clash)
    (start volumes_fresh)
  = (Ok [ set_samples (disk_size volumes_fresh)
            [ plain_sample "pve_volume_size_bytes"
                [("id", PStr "disk/pve1/data:vm-100-disk-0");
                 ("node", PStr "pve1"); ("storage", PStr "data")]
                (PInt 34359738368) ] ],
     {| locals :=
          {| seen_shared_storages := [PStr "data"];
             disk_size :=
               set_samples (disk_size volumes_fresh)
                 [ plain_sample "pve_volume_size_bytes"
                     [("id", PStr "disk/pve1/data:vm-100-disk-0");
                      ("node", PStr "pve1"); ("storage", PStr "data")]
                     (PInt 34359738368) ] |};
        log := [];
        calls := [ GET_nodes; GET_nodes_storage (PStr "pve1");
                   GET_nodes_storage_content (PStr "pve1") (PStr "data");
                   GET_nodes_storage (PStr "pve2") ] |}).
Proof. reflexivity. Qed.

(** * Further properties of the collectors *)

(** ** ClusterNodeCollector *)

Lemma rfold_add_metric {A : Type} (body : A -> Metric -> result Metric)
  (labels : A -> list pyval) (value : A -> pyval) (xs : list A) :
  Forall (fun x => forall m, body x m = Ok (add_metric m (labels x) (value x))) xs ->
  forall m,
    rfold body xs m
    = Ok (set_samples m (m_samples m
                         ++ map (fun x => mk_sample m (labels x) (value x)) xs)).
Proof.
  induction 1 as [| x xs Hx _ IH]; intro m; simpl.
  - now rewrite app_nil_r, set_samples_same.
  - rewrite Hx. simpl. rewrite IH. unfold add_metric at 1 2. simpl.
    rewrite set_samples_twice, <- app_assoc. reflexivity.
Qed.

Lemma entries_of_type_filter (ty : string) (entries : list dict) :
  Forall (fun e => dict_contains "type" e = true) entries ->
  entries_of_type ty entries = Ok (filter (has_type ty) entries).
Proof.
  unfold entries_of_type.
  induction 1 as [| e entries He _ IH]; [reflexivity |].
  cbn [rfilter filter]. rewrite IH.
  unfold dict_contains in He. unfold has_type, dict_get_default, getitem.
  destruct (dict_get "type" e) as [t |]; [| discriminate]. reflexivity.
Qed.

Lemma entries_of_type_untyped (ty : string) (entries : list dict) :
  Exists (fun e => dict_get "type" e = None) entries ->
  entries_of_type ty entries = Raise (KeyError "type").
Proof.
  unfold entries_of_type.
  induction 1 as [e entries He | e entries _ IH].
  - simpl. unfold getitem. now rewrite He.
  - cbn [rfilter]. rewrite IH. unfold getitem.
    destruct (dict_get "type" e); reflexivity.
Qed.

Lemma str_label_values_ok (d : dict) (keys : list string) :
  has_keys keys d ->
  str_label_values d keys = Ok (map snd (str_labels d keys)).
Proof.
  unfold str_label_values, str_labels, has_keys.
  induction 1 as [| k keys Hk _ IH]; simpl; [reflexivity |].
  unfold dict_contains in Hk. unfold getitem at 1. unfold dict_get_default at 1.
  destruct (dict_get k d) as [v |]; [| discriminate]. simpl.
  now rewrite IH.
Qed.

Lemma str_label_values_missing (d : dict) (keys : list string) :
  Exists (fun k => dict_get k d = None) keys ->
  exists k, In k keys /\ str_label_values d keys = Raise (KeyError k).
Proof.
  unfold str_label_values.
  induction 1 as [k keys Hk | k keys _ [k' [Hin IH]]]; simpl.
  - exists k. split; [now left |]. unfold getitem. now rewrite Hk.
  - unfold getitem at 1. destruct (dict_get k d) as [v |]; simpl.
    + exists k'. split; [now right |]. now rewrite IH.
    + exists k. split; [now left | reflexivity].
Qed.

Lemma combine_str_labels (d : dict) (keys : list string) :
  combine keys (map snd (str_labels d keys)) = str_labels d keys.
Proof.
  unfold str_labels. induction keys as [| k keys IH]; simpl; [reflexivity |].
  now rewrite IH.
Qed.

Lemma str_labels_keys (d : dict) (keys : list string) :
  dict_keys (str_labels d keys) = keys.
Proof.
  unfold str_labels, dict_keys. rewrite map_map. simpl. apply map_id.
Qed.

Lemma str_label_values_raise (d : dict) (keys : list string) (e : exn) :
  str_label_values d keys = Raise e -> exists k, In k keys /\ e = KeyError k.
Proof.
  unfold str_label_values. induction keys as [| k keys IH]; simpl; [discriminate |].
  unfold getitem at 1. destruct (dict_get k d) as [v |]; simpl.
  - destruct (rmap _ keys) as [vs | e'] eqn:E; simpl; [discriminate |].
    intro H. inversion H. subst e'. destruct (IH eq_refl) as [k' [Hin ->]].
    exists k'. auto.
  - intro H. inversion H. exists k. auto.
Qed.

Lemma info_samples_missing (labels : list string) (nodes : list dict) :
  Exists (fun node => Exists (fun k => dict_get k node = None) labels) nodes ->
  forall m, exists k,
    In k labels /\ rfold (info_samples labels) nodes m = Raise (KeyError k).
Proof.
  induction 1 as [node nodes Hnode | node nodes _ IH]; intro m; simpl.
  - destruct (str_label_values_missing node labels Hnode) as [k [Hin Hk]].
    exists k. split; [exact Hin |]. unfold info_samples. now rewrite Hk.
  - unfold info_samples at 1.
    destruct (str_label_values node labels) as [vs | e] eqn:E; simpl.
    + apply IH.
    + destruct (str_label_values_raise node labels e E) as [k [Hin ->]]. now exists k.
Qed.

(** X1: with every status entry typed and at least one node among them,
    the node collector returns one family with one sample per node entry,
    in order, whose four labels are [str] of the entry's id, level, name
    and nodeid and whose value is 1, provided every node entry has the four
    fields; a node entry that lacks one of them makes it raise the key
    error, and so does an entry without a type. *)
Theorem ClusterNodeCollector_collect_nodes (pve : ProxmoxAPI) (entries : list dict) :
  cluster_status_get pve = Ok entries ->
  (Forall (fun e => dict_contains "type" e = true) entries ->
   filter (has_type "node") entries <> [] ->
   Forall (has_keys node_info_labels) (filter (has_type "node") entries) ->
   ClusterNodeCollector_collect (ClusterNodeCollector_init pve)
   = Ok [ {| m_name := "pve_node_info";
             m_documentation := "Node info";
             m_type := "gauge";
             m_labelnames := node_info_labels;
             m_samples :=
               map (fun node => plain_sample "pve_node_info"
                                  (str_labels node node_info_labels) (PInt 1))
                   (filter (has_type "node") entries) |} ])
  /\ (Forall (fun e => dict_contains "type" e = true) entries ->
      Exists (fun node => Exists (fun k => dict_get k node = None) node_info_labels)
             (filter (has_type "node") entries) ->
      exists k, In k node_info_labels
                /\ ClusterNodeCollector_collect (ClusterNodeCollector_init pve)
                   = Raise (KeyError k))
  /\ (Exists (fun e => dict_get "type" e = None) entries ->
      ClusterNodeCollector_collect (ClusterNodeCollector_init pve)
      = Raise (KeyError "type")).
Proof.
  intro Hget.
  assert (Hrun : ClusterNodeCollector_collect (ClusterNodeCollector_init pve)
                 = rbind (entries_of_type "node" entries) (fun nodes =>
                   match nodes with
                   | [] => Ok []
                   | _ :: _ =>
                       rbind (rfold (info_samples node_info_labels) nodes
                                (GaugeMetricFamily "pve_node_info" "Node info"
                                   node_info_labels))
                             (fun info_metrics => Ok [info_metrics])
                   end)).
  { unfold ClusterNodeCollector_collect, ClusterNodeCollector_init.
    change (self_pve [("_pve", AttrAPI pve)]) with (Ok pve).
    cbn [rbind]. rewrite Hget. reflexivity. }
  rewrite Hrun. clear Hrun. split; [| split].
  - intros Htyped Hsome Hkeys. rewrite (entries_of_type_filter _ _ Htyped). cbn [rbind].
    destruct (filter (has_type "node") entries) as [| n nodes] eqn:Hf; [contradiction |].
    rewrite (rfold_add_metric (info_samples node_info_labels)
               (fun node => map snd (str_labels node node_info_labels))
               (fun _ => PInt 1)).
    + cbn [rbind]. unfold set_samples, GaugeMetricFamily, mk_sample, plain_sample.
      cbn [m_name m_documentation m_type m_labelnames m_samples app].
      rewrite (map_ext _ (fun node => plain_sample "pve_node_info"
                                        (str_labels node node_info_labels) (PInt 1)));
        [reflexivity |].
      intro node. unfold plain_sample.
      rewrite combine_str_labels, dict_of_items_wf; [reflexivity |].
      unfold dict_wf. rewrite str_labels_keys.
      repeat constructor; simpl; intuition discriminate.
    + eapply Forall_impl; [| exact Hkeys].
      intros node Hnode m. unfold info_samples.
      now rewrite (str_label_values_ok node node_info_labels Hnode).
  - intros Htyped Hmissing. rewrite (entries_of_type_filter _ _ Htyped). cbn [rbind].
    destruct (info_samples_missing node_info_labels _ Hmissing
                (GaugeMetricFamily "pve_node_info" "Node info" node_info_labels))
      as [k [Hin Hk]].
    exists k. split; [exact Hin |].
    destruct (filter (has_type "node") entries); [inversion Hmissing |].
    now rewrite Hk.
  - intro Huntyped. now rewrite (entries_of_type_untyped _ _ Huntyped).
Qed.

Lemma ClusterNodeCollector_collect_nodes_witness :
  ClusterNodeCollector_collect (ClusterNodeCollector_init Examples.healthy)
  = Ok [ {| m_name := "pve_node_info";
            m_documentation := "Node info";
            m_type := "gauge";
            m_labelnames := ["id"; "level"; "name"; "nodeid"];
            m_samples :=
              [ plain_sample "pve_node_info"
                  [("id", PStr "node/pve1"); ("level", PStr "c"); ("name", PStr "pve1");
                   ("nodeid", PStr "1")] (PInt 1);
                plain_sample "pve_node_info"
                  [("id", PStr "node/pve2"); ("level", PStr "c"); ("name", PStr "pve2");
                   ("nodeid", PStr "2")] (PInt 1) ] |} ].
Proof.
  apply (proj1 (ClusterNodeCollector_collect_nodes Examples.healthy
                  Examples.status_entries eq_refl)).
  - repeat constructor.
  - discriminate.
  - repeat constructor.
Defined.

(** ** ClusterInfoCollector *)

Lemma dict_keys_remove_incl (k : string) (d : dict) :
  incl (dict_keys (dict_remove k d)) (dict_keys d).
Proof.
  induction d as [| [k' v] d IH]; simpl; [apply incl_refl |].
  destruct (String.eqb k k'); simpl.
  - apply incl_tl, incl_refl.
  - intros x [<- | Hx]; [now left | right; now apply IH].
Qed.

Lemma dict_wf_remove (k : string) (d : dict) : dict_wf d -> dict_wf (dict_remove k d).
Proof.
  unfold dict_wf. induction d as [| [k' v] d IH]; simpl; intro H; [constructor |].
  inversion H as [| ? ? Hn Hd]; subst.
  destruct (String.eqb k k'); simpl; [exact Hd |].
  constructor; [| now apply IH].
  intro Hin. apply Hn. now apply (dict_keys_remove_incl k d).
Qed.

Lemma dict_keys_set_incl (k : string) (v : pyval) (d : dict) :
  incl (dict_keys (dict_set k v d)) (k :: dict_keys d).
Proof.
  induction d as [| [k' v'] d IH]; simpl.
  - apply incl_refl.
  - destruct (String.eqb k k') eqn:E; simpl.
    + apply String.eqb_eq in E. subst k'. intros x [<- | Hx]; [now left | right; now right].
    + intros x [<- | Hx]; [right; now left |].
      destruct (IH x Hx) as [<- | Hin]; [now left | right; now right].
Qed.

Lemma dict_wf_set (k : string) (v : pyval) (d : dict) : dict_wf d -> dict_wf (dict_set k v d).
Proof.
  unfold dict_wf. induction d as [| [k' v'] d IH]; simpl; intro H.
  - repeat constructor. intros [].
  - inversion H as [| ? ? Hn Hd]; subst.
    destruct (String.eqb k k') eqn:E; simpl.
    + apply String.eqb_eq in E. subst k'. now constructor.
    + constructor; [| now apply IH].
      intro Hin. destruct (dict_keys_set_incl k v d k' Hin) as [Heq | Hin'].
      * apply String.eqb_neq in E. congruence.
      * exact (Hn Hin').
Qed.

Lemma dict_get_remove_same (k : string) (d : dict) :
  dict_wf d -> dict_get k (dict_remove k d) = None.
Proof.
  unfold dict_wf. induction d as [| [k' v] d IH]; simpl; intro H; [reflexivity |].
  inversion H as [| ? ? Hn Hd]; subst.
  destruct (String.eqb k k') eqn:E; simpl.
  - apply String.eqb_eq in E. subst k'. now apply dict_get_not_key.
  - rewrite E. now apply IH.
Qed.

Lemma dict_get_remove_other (k k' : string) (d : dict) :
  k <> k' -> dict_get k (dict_remove k' d) = dict_get k d.
Proof.
  intro Hne. induction d as [| [k0 v] d IH]; simpl; [reflexivity |].
  destruct (String.eqb k' k0) eqn:E; simpl.
  - apply String.eqb_eq in E. subst k0. apply String.eqb_neq in Hne. now rewrite Hne.
  - now rewrite IH.
Qed.

Lemma has_keys_own (d : dict) : has_keys (dict_keys d) d.
Proof.
  unfold has_keys. apply Forall_forall. intros k Hin. unfold dict_contains.
  destruct (dict_get k d) eqn:E; [reflexivity |].
  exfalso. induction d as [| [k' v] d IH]; simpl in *; [contradiction |].
  destruct (String.eqb k k') eqn:Ek; [discriminate |].
  destruct Hin as [-> | Hin]; [now rewrite String.eqb_refl in Ek | now apply IH].
Qed.

Lemma has_type_get (ty : string) (entry : dict) :
  has_type ty entry = true -> dict_get "type" entry = Some (PStr ty).
Proof.
  unfold has_type, dict_get_default.
  destruct (dict_get "type" entry) as [t |]; intro H.
  - apply py_eq_str in H. now subst.
  - discriminate.
Qed.

(** X2: when the status has exactly one cluster entry, with a string as
    name, the cluster-info collector returns one family whose label names
    are the keys of the rewritten entry and whose one sample, of value 1,
    carries [str] of each of its values: the id is "cluster/" and the name,
    the type and the name are gone, every other field is as the API gave
    it.  Without a string as name the collector raises. *)
Theorem ClusterInfoCollector_collect_single (pve : ProxmoxAPI) (entries : list dict)
  (cluster : dict) :
  cluster_status_get pve = Ok entries ->
  Forall (fun e => dict_contains "type" e = true) entries ->
  filter (has_type "cluster") entries = [cluster] ->
  dict_wf cluster ->
  (forall name,
      dict_get "name" cluster = Some (PStr name) ->
      ClusterInfoCollector_collect (ClusterInfoCollector_init pve)
      = Ok [ {| m_name := "pve_cluster_info";
                m_documentation := "Cluster info";
                m_type := "gauge";
                m_labelnames := dict_keys (cluster_info_record cluster name);
                m_samples :=
                  [ plain_sample "pve_cluster_info"
                      (str_labels (cluster_info_record cluster name)
                         (dict_keys (cluster_info_record cluster name)))
                      (PInt 1) ] |} ]
      /\ dict_get "id" (cluster_info_record cluster name)
         = Some (PStr ("cluster/" ++ name))
      /\ dict_get "type" (cluster_info_record cluster name) = None
      /\ dict_get "name" (cluster_info_record cluster name) = None
      /\ (forall k, k <> "id" -> k <> "type" -> k <> "name" ->
                    dict_get k (cluster_info_record cluster name) = dict_get k cluster))
  /\ ((forall name, dict_get "name" cluster <> Some (PStr name)) ->
      exists e, ClusterInfoCollector_collect (ClusterInfoCollector_init pve) = Raise e).
Proof.
  intros Hget Htyped Hone Hwf.
  assert (Htype : dict_get "type" cluster = Some (PStr "cluster")).
  { apply has_type_get.
    assert (Hin : In cluster (filter (has_type "cluster") entries))
      by (rewrite Hone; now left).
    now apply filter_In in Hin. }
  assert (Hrun : ClusterInfoCollector_collect (ClusterInfoCollector_init pve)
                 = rbind (cluster_prefix_id (dict_remove "type" cluster)) (fun c =>
                   rbind (rfold (info_samples (dict_keys c)) [c]
                            (GaugeMetricFamily "pve_cluster_info" "Cluster info"
                               (dict_keys c)))
                         (fun info_metrics => Ok [info_metrics]))).
  { unfold ClusterInfoCollector_collect, ClusterInfoCollector_init.
    change (self_pve [("_pve", AttrAPI pve)]) with (Ok pve).
    cbn [rbind]. rewrite Hget. cbn [rbind].
    rewrite (entries_of_type_filter _ _ Htyped), Hone. cbn [rbind rmap].
    unfold dict_del at 1, dict_contains. rewrite Htype. cbn [rbind rmap].
    destruct (cluster_prefix_id (dict_remove "type" cluster)); reflexivity. }
  rewrite Hrun. clear Hrun. unfold cluster_prefix_id, getitem.
  rewrite (dict_get_remove_other "name" "type") by discriminate.
  split.
  - intros name Hname. rewrite Hname. cbn [rbind py_format_s].
    unfold dict_del, dict_contains.
    rewrite (dict_get_set_other "name" "id") by discriminate.
    rewrite (dict_get_remove_other "name" "type") by discriminate.
    rewrite Hname. cbn [rbind]. fold (cluster_info_record cluster name).
    assert (Hwf' : dict_wf (cluster_info_record cluster name))
      by (apply dict_wf_remove, dict_wf_set, dict_wf_remove, Hwf).
    split; [| split; [| split; [| split]]].
    + cbn [rfold rbind]. unfold info_samples.
      rewrite (str_label_values_ok _ _ (has_keys_own (cluster_info_record cluster name))).
      cbn [rbind]. unfold add_metric, mk_sample, GaugeMetricFamily, set_samples,
        plain_sample.
      cbn [m_name m_documentation m_type m_labelnames m_samples app].
      rewrite combine_str_labels, dict_of_items_wf; [reflexivity |].
      unfold dict_wf. rewrite str_labels_keys. exact Hwf'.
    + unfold cluster_info_record.
      rewrite (dict_get_remove_other "id" "name") by discriminate.
      apply dict_get_set_same.
    + unfold cluster_info_record.
      rewrite (dict_get_remove_other "type" "name") by discriminate.
      rewrite (dict_get_set_other "type" "id") by discriminate.
      now apply dict_get_remove_same.
    + unfold cluster_info_record.
      apply dict_get_remove_same, dict_wf_set, dict_wf_remove, Hwf.
    + intros k Hid Hty Hnm. unfold cluster_info_record.
      rewrite (dict_get_remove_other k "name") by exact Hnm.
      rewrite (dict_get_set_other k "id") by exact Hid.
      now apply dict_get_remove_other.
  - intro Hno. destruct (dict_get "name" cluster) as [v |] eqn:Hname;
      cbn [rbind]; [| eauto].
    destruct v as [| b | z | name]; cbn [py_format_s rbind]; eauto.
    now destruct (Hno name).
Qed.

Lemma ClusterInfoCollector_collect_single_witness :
  ClusterInfoCollector_collect (ClusterInfoCollector_init Examples.healthy)
  = Ok [ {| m_name := "pve_cluster_info";
            m_documentation := "Cluster info";
            m_type := "gauge";
            m_labelnames := ["id"; "nodes"; "quorate"; "version"];
            m_samples :=
              [ plain_sample "pve_cluster_info"
                  [("id", PStr "cluster/pvec"); ("nodes", PStr "2");
                   ("quorate", PStr "1"); ("version", PStr "2")] (PInt 1) ] |} ].
Proof.
  refine (proj1 (proj1 (ClusterInfoCollector_collect_single Examples.healthy
                   Examples.status_entries
                   [("type", PStr "cluster"); ("name", PStr "pvec"); ("id", PStr "cluster");
                    ("nodes", PInt 2); ("quorate", PInt 1); ("version", PInt 2)]
                   eq_refl _ eq_refl _) "pvec" eq_refl)).
  - repeat constructor.
  - unfold dict_wf. simpl. repeat (constructor; [simpl; intuition discriminate |]).
    constructor.
Defined.

(** ** ClusterResourcesCollector: labels and sample counts *)

(** X3: in the metric pass the values of the labels a record has are
    zipped with the declared names from the left.  So when a record with
    the field has the first declared labels of the field's family, lacks
    the next one and has the one after it, the family the collector returns
    holds a sample of the record that keeps the first labels, files the
    value of that later label under the name of the missing one, and has
    fewer labels than the family declares. *)
Theorem resources_metric_labels_shift (pve : ProxmoxAPI) (resources : list dict)
  (resource : dict) (key : string) (m : Metric) (value v : pyval) (present : list string)
  (missing next : string) (others : list string) :
  cluster_resources_get pve None = Ok resources ->
  Forall (fun r => dict_contains "type" r = true /\ dict_wf r) resources ->
  In resource resources ->
  families_get key resources_metrics = Some m ->
  dict_get key resource = Some value ->
  m_labelnames m = present ++ missing :: next :: others ->
  Forall (fun l => dict_contains l resource = true) present ->
  dict_get missing resource = None ->
  dict_get next resource = Some v ->
  exists fams family sample,
    ClusterResourcesCollector_collect (ClusterResourcesCollector_init pve) = Ok fams
    /\ In family fams
    /\ declaration family = m
    /\ In sample (m_samples family)
    /\ s_name sample = m_name m
    /\ s_value sample = value
    /\ s_labels sample = shifted_labels resource (m_labelnames m)
    /\ Forall (fun l => dict_get l (s_labels sample) = dict_get l resource) present
    /\ dict_get missing (s_labels sample) = Some v
    /\ dict_keys (s_labels sample)
       = firstn (length (present_values resource (m_labelnames m))) (m_labelnames m)
    /\ (length (s_labels sample) < length (m_labelnames m))%nat.
Proof.
  intros Hget Hres Hin Hkey Hvalue Hnames Hpresent Hmissing Hnext.
  destruct (resources_metrics_declared key m Hkey) as [Hnd Hempty].
  exists (map (fun km => set_samples (snd km)
                           (flat_map (field_samples (fst km) (snd km)) resources))
              resources_metrics
          ++ [ set_samples guest_info
                 (map (info_sample guest_info) (filter is_guest resources));
               set_samples storage_info
                 (map (info_sample storage_info)
                      (filter (has_type "storage") resources)) ]),
         (set_samples m (flat_map (field_samples key m) resources)),
         (plain_sample (m_name m) (shifted_labels resource (m_labelnames m)) value).
  split; [exact (resources_collect_samples pve resources Hget Hres) |].
  split.
  { apply in_or_app. left. apply in_map_iff. exists (key, m).
    split; [reflexivity | now apply families_get_key]. }
  split.
  { unfold declaration. rewrite set_samples_twice, <- Hempty. apply set_samples_same. }
  split.
  { cbn [m_samples set_samples]. apply in_flat_map. exists resource.
    split; [exact Hin |]. unfold field_samples. rewrite Hvalue. now left. }
  split; [reflexivity |]. split; [reflexivity |]. split; [reflexivity |].
  cbn [s_labels plain_sample].
  split.
  { rewrite Hnames. apply Forall_forall. intros l Hl.
    now apply shifted_labels_present. }
  split.
  { rewrite Hnames in Hnd |- *.
    now apply shifted_labels_shift. }
  split; [apply shifted_labels_keys |].
  unfold shifted_labels. rewrite length_combine, present_values_length.
  assert (Hlt : (length (filter (fun l => dict_contains l resource) (m_labelnames m))
                 < length (m_labelnames m))%nat).
  { apply filter_length_missing. exists missing. split.
    - rewrite Hnames. apply in_or_app. right. now left.
    - unfold dict_contains. now rewrite Hmissing. }
  lia.
Qed.

Lemma resources_metric_labels_shift_witness :
  exists fams family,
    ClusterResourcesCollector_collect (ClusterResourcesCollector_init Examples.sparse)
    = Ok fams
    /\ In family fams
    /\ m_name family = "pve_disk_size_bytes"
    /\ exists sample,
        In sample (m_samples family)
        /\ s_value sample = PInt 100861726720
        /\ dict_get "id" (s_labels sample) = Some (PStr "node/pve1")
        /\ dict_get "storage" (s_labels sample) = Some (PStr "pve1")
        /\ dict_get "node" (s_labels sample) = None.
Proof.
  destruct (resources_metric_labels_shift Examples.sparse
              [Examples.node_resource; Examples.storage_resource]
              Examples.node_resource "maxdisk"
              (GaugeMetricFamily "pve_disk_size_bytes" "Size of storage device"
                 ["id"; "type"; "storage"; "node"])
              (PInt 100861726720) (PStr "pve1") ["id"; "type"] "storage" "node" []
              eq_refl)
    as [fams [family [sample [Hrun [Hfam [Hdecl [Hin [_ [Hvalue [_ [Hpresent [Hshift
         [Hkeys _]]]]]]]]]]]]].
  - assert (Hwf : forall d : dict, NoDup (map fst d) -> dict_wf d) by (intros d H; exact H).
    constructor; [split; [reflexivity | apply Hwf; simpl] |
                  constructor; [split; [reflexivity | apply Hwf; simpl] | constructor]];
      repeat (constructor; [simpl; intuition discriminate |]); constructor.
  - simpl. tauto.
  - reflexivity.
  - reflexivity.
  - reflexivity.
  - repeat constructor.
  - reflexivity.
  - reflexivity.
  - exists fams, family. split; [exact Hrun |]. split; [exact Hfam |].
    split; [exact (f_equal m_name Hdecl) |].
    exists sample. split; [exact Hin |]. split; [exact Hvalue |].
    split; [exact (Forall_inv Hpresent) |]. split; [exact Hshift |].
    apply dict_get_not_key. rewrite Hkeys. simpl. intuition discriminate.
Defined.

Lemma samples_under_add (key k : string) (labels : list pyval) (value : pyval)
  (fs : families) :
  families_get key fs <> None ->
  samples_under key (families_update k (fun m => add_metric m labels value) fs)
  = (samples_under key fs + if String.eqb key k then 1 else 0)%nat.
Proof.
  intro Hin. unfold samples_under. rewrite families_get_update.
  destruct (families_get key fs) as [m |]; [| contradiction].
  destruct (String.eqb key k); simpl; [| lia].
  rewrite length_app. simpl. lia.
Qed.

Lemma families_get_update_some (key k : string) (f : Metric -> Metric) (fs : families) :
  families_get key fs <> None -> families_get key (families_update k f fs) <> None.
Proof.
  intro H. rewrite families_get_update.
  destruct (families_get key fs); [| contradiction].
  destruct (String.eqb key k); discriminate.
Qed.

(** The metric pass over the fields of a record: the family of a key gets
    one sample for each field of that name. *)
Lemma resources_metric_pass_count (resource : dict) (key : string)
  (items : list (string * pyval)) :
  forall metrics,
    families_get key metrics <> None ->
    exists metrics',
      rfold (resources_metric_item resource) items metrics = Ok metrics'
      /\ families_get key metrics' <> None
      /\ map fst metrics' = map fst metrics
      /\ samples_under key metrics'
         = (samples_under key metrics
            + length (filter (fun kv => String.eqb key (fst kv)) items))%nat.
Proof.
  induction items as [| [k v] items IH]; intros metrics Hin; simpl.
  - exists metrics. repeat split; [exact Hin | lia].
  - unfold resources_metric_item at 1. simpl.
    destruct (families_get k metrics) as [metric |] eqn:Hk.
    + destruct (metric_label_values_ok resource metric) as [vs [-> _]]. simpl.
      destruct (IH (families_update k (fun m => add_metric m vs v) metrics))
        as [metrics' [Hrun [Hin' [Hkeys Hcount]]]];
        [now apply families_get_update_some |].
      exists metrics'. split; [exact Hrun |]. split; [exact Hin' |].
      split; [now rewrite Hkeys, families_update_keys |].
      rewrite Hcount, (samples_under_add key k vs v metrics Hin).
      destruct (String.eqb key k); simpl; lia.
    + simpl. destruct (IH metrics Hin) as [metrics' [Hrun [Hin' [Hkeys Hcount]]]].
      exists metrics'. split; [exact Hrun |]. split; [exact Hin' |].
      split; [exact Hkeys |]. rewrite Hcount.
      destruct (String.eqb key k) eqn:E; simpl; [| lia].
      apply String.eqb_eq in E. subst k. contradiction.
Qed.

Lemma dict_wf_count (key : string) (d : dict) :
  dict_wf d ->
  length (filter (fun kv => String.eqb key (fst kv)) d)
  = if dict_contains key d then 1%nat else 0%nat.
Proof.
  unfold dict_wf, dict_contains.
  induction d as [| [k v] d IH]; simpl; intro H; [reflexivity |].
  inversion H as [| ? ? Hn Hd]; subst.
  destruct (String.eqb key k) eqn:E; simpl.
  - apply String.eqb_eq in E. subst k. f_equal.
    rewrite (IH Hd). now rewrite (dict_get_not_key key d Hn).
  - now apply IH.
Qed.

(** The info pass: the family aliased by the type's entry of the lookup
    table gets one sample. *)
Lemma resources_info_pass_count (resource : dict) (restype : pyval) (g : string)
  (info_metrics : families) :
  families_get g info_metrics <> None ->
  families_get g (resources_info_pass resource restype info_metrics) <> None
  /\ map fst (resources_info_pass resource restype info_metrics) = map fst info_metrics
  /\ samples_under g (resources_info_pass resource restype info_metrics)
     = (samples_under g info_metrics
        + match info_lookup_find restype with
          | Some (_, g') => if String.eqb g g' then 1 else 0
          | None => 0
          end)%nat.
Proof.
  intro Hin. unfold resources_info_pass.
  destruct (info_lookup_find restype) as [[labels g'] |].
  - split; [now apply families_get_update_some |].
    split; [apply families_update_keys |]. now apply samples_under_add.
  - split; [exact Hin |]. split; [reflexivity | lia].
Qed.

Lemma info_lookup_guest (resource : dict) (restype : pyval) :
  dict_get "type" resource = Some restype ->
  match info_lookup_find restype with
  | Some (_, g') => if String.eqb "guest" g' then 1%nat else 0%nat
  | None => 0%nat
  end = if is_guest resource then 1%nat else 0%nat.
Proof.
  intro Ht. unfold is_guest, has_type, dict_get_default. rewrite Ht.
  destruct restype as [| b | z | t]; try reflexivity.
  unfold info_lookup_find, info_lookup. cbn [info_lookup_get py_eq].
  destruct (String.eqb t "lxc"); [reflexivity |].
  destruct (String.eqb t "qemu"); [reflexivity |].
  destruct (String.eqb t "storage"); reflexivity.
Qed.

Lemma info_lookup_storage (resource : dict) (restype : pyval) :
  dict_get "type" resource = Some restype ->
  match info_lookup_find restype with
  | Some (_, g') => if String.eqb "storage" g' then 1%nat else 0%nat
  | None => 0%nat
  end = if has_type "storage" resource then 1%nat else 0%nat.
Proof.
  intro Ht. unfold has_type, dict_get_default. rewrite Ht.
  destruct restype as [| b | z | t]; try reflexivity.
  unfold info_lookup_find, info_lookup. cbn [info_lookup_get py_eq].
  destruct (String.eqb t "lxc") eqn:E1.
  - apply String.eqb_eq in E1. now subst t.
  - destruct (String.eqb t "qemu") eqn:E2.
    + apply String.eqb_eq in E2. now subst t.
    + destruct (String.eqb t "storage"); reflexivity.
Qed.

Lemma resources_loop_count (key : string) (resources : list dict) :
  Forall (fun r => dict_contains "type" r = true /\ dict_wf r) resources ->
  forall acc,
    families_get key (fst acc) <> None ->
    families_get "guest" (snd acc) <> None ->
    families_get "storage" (snd acc) <> None ->
    exists acc',
      rfold resources_resource resources acc = Ok acc'
      /\ map fst (fst acc') = map fst (fst acc)
      /\ map fst (snd acc') = map fst (snd acc)
      /\ samples_under key (fst acc')
         = (samples_under key (fst acc)
            + length (filter (fun r => dict_contains key r) resources))%nat
      /\ samples_under "guest" (snd acc')
         = (samples_under "guest" (snd acc) + length (filter is_guest resources))%nat
      /\ samples_under "storage" (snd acc')
         = (samples_under "storage" (snd acc)
            + length (filter (has_type "storage") resources))%nat.
Proof.
  induction 1 as [| r resources [Hr Hwf] _ IH]; intros acc Hkey Hguest Hstorage.
  - exists acc. simpl. repeat split; lia.
  - cbn [rfold]. unfold resources_resource at 1. unfold dict_contains in Hr.
    unfold getitem. destruct (dict_get "type" r) as [restype |] eqn:Ht; [| discriminate].
    cbn [rbind].
    destruct (resources_metric_pass_count r key r (fst acc) Hkey)
      as [m1 [-> [Hkey1 [Hkeys1 Hcount1]]]]. cbn [rbind].
    destruct (resources_info_pass_count r restype "guest" (snd acc) Hguest)
      as [Hguest1 [Hikeys1 Hg1]].
    destruct (resources_info_pass_count r restype "storage" (snd acc) Hstorage)
      as [Hstorage1 [_ Hs1]].
    destruct (IH (m1, resources_info_pass r restype (snd acc)) Hkey1 Hguest1 Hstorage1)
      as [acc' [Hrun [Hk [Hik [Hc [Hg Hs]]]]]].
    exists acc'. cbn [fst snd] in *. split; [exact Hrun |].
    split; [congruence |]. split; [congruence |].
    rewrite Hc, Hcount1, Hg, Hg1, Hs, Hs1.
    rewrite (dict_wf_count key r Hwf), (info_lookup_guest r restype Ht),
      (info_lookup_storage r restype Ht).
    cbn [filter]. destruct (dict_contains key r), (is_guest r), (has_type "storage" r);
      cbn [length]; repeat split; lia.
Qed.

(** X4: over resources that each have a type and no field twice, the
    family of each of the twelve fields ends with one sample per resource
    that has the field, the guest-info family with one per resource of type
    lxc or qemu, and the storage-info family with one per resource of type
    storage; the families come in the order of their declaration. *)
Theorem ClusterResourcesCollector_collect_counts (pve : ProxmoxAPI)
  (resources : list dict) :
  cluster_resources_get pve None = Ok resources ->
  Forall (fun r => dict_contains "type" r = true /\ dict_wf r) resources ->
  exists metrics info_metrics,
    ClusterResourcesCollector_collect (ClusterResourcesCollector_init pve)
    = Ok (families_values metrics ++ families_values info_metrics)
    /\ map fst metrics = map fst resources_metrics
    /\ map fst info_metrics = map fst resources_info_metrics
    /\ (forall key, In key (map fst resources_metrics) ->
                    samples_under key metrics
                    = length (filter (fun r => dict_contains key r) resources))
    /\ samples_under "guest" info_metrics = length (filter is_guest resources)
    /\ samples_under "storage" info_metrics
       = length (filter (has_type "storage") resources).
Proof.
  intros Hget Hres.
  assert (Hrun : ClusterResourcesCollector_collect (ClusterResourcesCollector_init pve)
                 = rbind (rfold resources_resource resources
                            (resources_metrics, resources_info_metrics))
                         (fun acc => Ok (families_values (fst acc)
                                         ++ families_values (snd acc)))).
  { unfold ClusterResourcesCollector_collect, ClusterResourcesCollector_init.
    change (self_pve [("_pve", AttrAPI pve)]) with (Ok pve).
    cbn [rbind]. now rewrite Hget. }
  rewrite Hrun. clear Hrun.
  destruct (resources_loop_count "maxdisk" resources Hres
              (resources_metrics, resources_info_metrics))
    as [acc [Hacc [Hk [Hik [_ [Hg Hs]]]]]]; try discriminate.
  exists (fst acc), (snd acc). rewrite Hacc. cbn [rbind].
  split; [reflexivity |]. split; [exact Hk |]. split; [exact Hik |].
  split; [| split; [exact Hg | exact Hs]].
  intros key Hin.
  assert (Hpresent : families_get key resources_metrics <> None).
  { simpl in Hin.
    repeat (destruct Hin as [<- | Hin]; [discriminate |]). contradiction. }
  destruct (resources_loop_count key resources Hres
              (resources_metrics, resources_info_metrics) Hpresent)
    as [acc' [Hacc' [_ [_ [Hc _]]]]]; try discriminate.
  rewrite Hacc in Hacc'. inversion Hacc'. subst acc'. rewrite Hc.
  cbn [fst]. unfold samples_under.
  destruct (families_get key resources_metrics) as [m |] eqn:E; [| contradiction].
  assert (Hempty : m_samples m = []).
  { simpl in Hin.
    repeat (destruct Hin as [<- | Hin]; [simpl in E; inversion E; reflexivity |]).
    contradiction. }
  now rewrite Hempty.
Qed.

Lemma ClusterResourcesCollector_collect_counts_witness :
  exists metrics info_metrics,
    ClusterResourcesCollector_collect (ClusterResourcesCollector_init Examples.healthy)
    = Ok (families_values metrics ++ families_values info_metrics)
    /\ samples_under "maxmem" metrics = 2%nat
    /\ samples_under "uptime" metrics = 0%nat
    /\ samples_under "guest" info_metrics = 2%nat
    /\ samples_under "storage" info_metrics = 0%nat.
Proof.
  destruct (ClusterResourcesCollector_collect_counts Examples.healthy
              Examples.vm_resources eq_refl)
    as [metrics [info [Hrun [_ [_ [Hcount [Hguest Hstorage]]]]]]].
  - assert (Hwf : forall d : dict, NoDup (map fst d) -> dict_wf d) by (intros d H; exact H).
    constructor; [split; [reflexivity | apply Hwf; simpl] |
                  constructor; [split; [reflexivity | apply Hwf; simpl] | constructor]];
      repeat (constructor; [simpl; intuition discriminate |]); constructor.
  - exists metrics, info. split; [exact Hrun |].
    split; [apply Hcount; simpl; tauto |].
    split; [apply Hcount; simpl; tauto |].
    split; [exact Hguest | exact Hstorage].
Defined.

(** ** ClusterNodeConfigCollector *)

Lemma config_item_run (vmtype : string) (node vmdata : dict) (item : string * pyval)
  (nodeid vmid : pyval) (m : Metric) (s : state families) :
  dict_get "node" node = Some nodeid ->
  dict_get "vmid" vmdata = Some vmid ->
  locals s = [("onboot", m)] ->
  config_item vmtype node vmdata item s
  = (Ok tt,
     {| locals := [("onboot",
                    if String.eqb (fst item) "onboot"
                    then add_metric m (config_labels vmtype vmid nodeid) (snd item)
                    else m)];
        log := log s;
        calls := calls s |}).
Proof.
  intros Hnode Hvmid Hlocals. unfold config_item, bind, lift, get_locals, put_locals.
  rewrite (getitem_some _ _ _ Hvmid), (getitem_some _ _ _ Hnode), Hlocals. simpl.
  destruct (String.eqb (fst item) "onboot"); [reflexivity |].
  unfold ret. destruct s as [l lg cs]. simpl in *. now subst l.
Qed.

Lemma config_items_run (vmtype : string) (node vmdata : dict) (nodeid vmid : pyval)
  (config : dict) :
  dict_get "node" node = Some nodeid ->
  dict_get "vmid" vmdata = Some vmid ->
  forall (m : Metric) (s : state families),
    locals s = [("onboot", m)] ->
    for_each config (config_item vmtype node vmdata) s
    = (Ok tt,
       {| locals := [("onboot", config_sampled vmtype vmid nodeid config m)];
          log := log s;
          calls := calls s |}).
Proof.
  intros Hnode Hvmid. induction config as [| item config IH]; intros m s Hlocals.
  - simpl. unfold ret. destruct s as [l lg cs]. simpl in *. now subst l.
  - cbn [for_each].
    rewrite (bind_run _ _ _ _ _
               (config_item_run vmtype node vmdata item nodeid vmid m s Hnode Hvmid Hlocals)).
    rewrite (IH (if String.eqb (fst item) "onboot"
                 then add_metric m (config_labels vmtype vmid nodeid) (snd item)
                 else m)); reflexivity.
Qed.

Lemma config_sampled_wf (vmtype : string) (vmid nodeid : pyval) (config : dict)
  (m : Metric) :
  dict_wf config ->
  config_sampled vmtype vmid nodeid config m
  = match dict_get "onboot" config with
    | Some v => add_metric m (config_labels vmtype vmid nodeid) v
    | None => m
    end.
Proof.
  unfold config_sampled, dict_wf. revert m.
  induction config as [| [k v] config IH]; intros m Hwf; [reflexivity |].
  cbn [fold_left dict_get fst snd map] in *.
  inversion Hwf as [| ? ? Hn Hd]; subst.
  rewrite (String.eqb_sym "onboot" k).
  destruct (String.eqb k "onboot") eqn:E.
  - apply String.eqb_eq in E. subst k.
    rewrite (IH _ Hd), (dict_get_not_key "onboot" config Hn). reflexivity.
  - now apply IH.
Qed.

(** X5: a guest's configuration gives the onboot family one sample when it
    has the key [onboot], with the labels "type/vmid", the node and the
    type and the key's value, and none otherwise; the other keys of the
    configuration leave no trace. *)
Theorem config_guest_onboot (vmtype : string)
  (config_request : pyval -> pyval -> request)
  (config_get : pyval -> pyval -> result dict) (node vmdata config : dict)
  (nodeid vmid : pyval) (m : Metric) (s : state families) :
  dict_get "node" node = Some nodeid ->
  dict_get "vmid" vmdata = Some vmid ->
  config_get nodeid vmid = Ok config ->
  dict_wf config ->
  locals s = [("onboot", m)] ->
  config_guest vmtype config_request config_get node vmdata s
  = (Ok tt,
     {| locals := [("onboot",
                    match dict_get "onboot" config with
                    | Some v => add_metric m (config_labels vmtype vmid nodeid) v
                    | None => m
                    end)];
        log := log s;
        calls := calls s ++ [config_request nodeid vmid] |}).
Proof.
  intros Hnode Hvmid Hconfig Hwf Hlocals.
  unfold config_guest, bind at 1, lift. rewrite (getitem_some _ _ _ Hnode).
  unfold bind at 1. rewrite (getitem_some _ _ _ Hvmid).
  unfold bind, api_call. rewrite Hconfig.
  rewrite (config_items_run vmtype node vmdata nodeid vmid config Hnode Hvmid m);
    [| exact Hlocals].
  now rewrite (config_sampled_wf vmtype vmid nodeid config m Hwf).
Qed.

Lemma config_guest_onboot_witness :
  config_guest "qemu" GET_nodes_qemu_config
    (nodes_qemu_config_get Examples.second_node_down)
    [("node", PStr "pve1"); ("status", PStr "online")]
    [("vmid", PInt 100); ("name", PStr "vm1")]
    (start config_metrics)
  = (Ok tt,
     {| locals :=
          [("onboot",
            add_metric (GaugeMetricFamily "pve_onboot_status"
                          "Proxmox vm config onboot value" ["id"; "node"; "type"])
              [PStr "qemu/100"; PStr "pve1"; PStr "qemu"] (PInt 1))];
        log := [];
        calls := [GET_nodes_qemu_config (PStr "pve1") (PInt 100)] |}).
Proof.
  apply (config_guest_onboot "qemu" GET_nodes_qemu_config
           (nodes_qemu_config_get Examples.second_node_down)
           [("node", PStr "pve1"); ("status", PStr "online")]
           [("vmid", PInt 100); ("name", PStr "vm1")]
           [("onboot", PInt 1); ("cores", PInt 2)]
           (PStr "pve1") (PInt 100)
           (GaugeMetricFamily "pve_onboot_status" "Proxmox vm config onboot value"
              ["id"; "node"; "type"])
           (start config_metrics)).
  - reflexivity.
  - reflexivity.
  - reflexivity.
  - unfold dict_wf. simpl. repeat (constructor; [simpl; intuition discriminate |]).
    constructor.
  - reflexivity.
Defined.

Lemma bind_mild {L A B : Type} (I : state L -> Prop) (c : M L A) (k : A -> M L B)
  (s : state L) :
  mild_outcome I (c s) ->
  (forall a s1, c s = (Ok a, s1) -> I s1 -> mild_outcome I (k a s1)) ->
  mild_outcome I (bind c k s).
Proof.
  unfold bind. destruct (c s) as [[a | e] s1]; simpl; intros Hc Hk.
  - now apply Hk.
  - exact Hc.
Qed.

Lemma for_each_mild {L A : Type} (I : state L -> Prop) (body : A -> M L unit)
  (xs : list A) :
  (forall x s, In x xs -> I s -> mild_outcome I (body x s)) ->
  forall s, I s -> mild_outcome I (for_each xs body s).
Proof.
  induction xs as [| x xs IH]; intros Hbody s Hs; simpl; [exact Hs |].
  apply bind_mild.
  - apply Hbody; [now left | exact Hs].
  - intros [] s1 _ Hs1. apply IH; [| exact Hs1].
    intros y t Hy. apply Hbody. now right.
Qed.

Lemma config_sampled_declaration (vmtype : string) (vmid nodeid : pyval) (config : dict)
  (m : Metric) :
  declaration (config_sampled vmtype vmid nodeid config m) = declaration m.
Proof.
  unfold config_sampled. revert m.
  induction config as [| kv config IH]; intro m; simpl; [reflexivity |].
  rewrite IH. now destruct (String.eqb (fst kv) "onboot").
Qed.

Lemma config_guest_mild (vmtype : string) (config_request : pyval -> pyval -> request)
  (config_get : pyval -> pyval -> result dict) (node vmdata : dict) (nodeid : pyval)
  (s : state families) :
  dict_get "node" node = Some nodeid ->
  dict_contains "vmid" vmdata = true ->
  (forall vmid, api_answer (config_get nodeid vmid)) ->
  config_inv s ->
  mild_outcome config_inv (config_guest vmtype config_request config_get node vmdata s).
Proof.
  intros Hnode Hvmid Hanswer [m [Hlocals Hdecl]].
  unfold dict_contains in Hvmid.
  destruct (dict_get "vmid" vmdata) as [vmid |] eqn:Ev; [| discriminate].
  unfold config_guest, bind at 1, lift. rewrite (getitem_some _ _ _ Hnode).
  unfold bind at 1. rewrite (getitem_some _ _ _ Ev).
  unfold bind, api_call. specialize (Hanswer vmid).
  destruct (config_get nodeid vmid) as [config | e].
  - rewrite (config_items_run vmtype node vmdata nodeid vmid config Hnode Ev m);
      [| exact Hlocals].
    simpl. eexists. split; [reflexivity |].
    now rewrite config_sampled_declaration.
  - destruct e; simpl in *; try contradiction. now exists m.
Qed.

Lemma config_guests_mild (vmtype : string) (config_request : pyval -> pyval -> request)
  (config_get : pyval -> pyval -> result dict) (node : dict) (nodeid : pyval)
  (guests : list dict) (s : state families) :
  dict_get "node" node = Some nodeid ->
  Forall (fun g => dict_contains "vmid" g = true) guests ->
  (forall vmid, api_answer (config_get nodeid vmid)) ->
  config_inv s ->
  mild_outcome config_inv
    (for_each guests (config_guest vmtype config_request config_get node) s).
Proof.
  intros Hnode Hguests Hanswer Hs. apply for_each_mild; [| exact Hs].
  intros g t Hin Ht. apply (config_guest_mild _ _ _ _ _ nodeid); auto.
  now apply (proj1 (Forall_forall _ _) Hguests).
Qed.

Lemma config_inv_calls (s : state families) (r : request) :
  config_inv s ->
  config_inv {| locals := locals s; log := log s; calls := calls s ++ [r] |}.
Proof. intro H. exact H. Qed.

Lemma config_node_body_mild (pve : ProxmoxAPI) (node : dict) (s : state families) :
  dict_contains "node" node = true ->
  config_api_answers pve ->
  config_inv s ->
  mild_outcome config_inv
    (config_node_body (ClusterNodeConfigCollector_init pve) node s).
Proof.
  intros Hnode Hapi Hs. unfold dict_contains in Hnode.
  destruct (dict_get "node" node) as [nodeid |] eqn:En; [| discriminate].
  destruct (Hapi nodeid) as [Hq [Hl [Hqc [Hlc [Hqv Hlv]]]]].
  unfold config_node_body.
  change (self_pve (ClusterNodeConfigCollector_init pve)) with (Ok pve).
  unfold bind at 1, lift at 1. unfold bind at 1, lift at 1.
  rewrite (getitem_some _ _ _ En).
  apply bind_mild.
  - unfold api_call. destruct (nodes_qemu_get pve nodeid) as [gs | e]; simpl;
      [exact Hs | destruct e; simpl in *; try contradiction; exact Hs].
  - intros guests s1 Hcall Hs1. apply api_call_ok in Hcall. destruct Hcall as [Hlist ->].
    apply bind_mild.
    + apply (config_guests_mild _ _ _ _ nodeid); auto.
    + intros [] s2 _ Hs2.
      unfold bind at 1, lift at 1. unfold bind at 1, lift at 1.
      apply bind_mild.
      * unfold api_call. destruct (nodes_lxc_get pve nodeid) as [gs | e]; simpl;
          [exact Hs2 | destruct e; simpl in *; try contradiction; exact Hs2].
      * intros guests' s3 Hcall' Hs3. apply api_call_ok in Hcall'.
        destruct Hcall' as [Hlist' ->].
        apply (config_guests_mild _ _ _ _ nodeid); auto.
Qed.

(** A node's turn of the config collector ends normally whatever the API
    answers for the node. *)
Lemma config_node_safe (pve : ProxmoxAPI) (node : dict) (s : state families) :
  dict_contains "node" node = true ->
  config_api_answers pve ->
  config_inv s ->
  exists s', config_node (ClusterNodeConfigCollector_init pve) node s = (Ok tt, s')
             /\ config_inv s'.
Proof.
  intros Hnode Hapi Hs.
  assert (Hbody := config_node_body_mild pve node s Hnode Hapi Hs).
  unfold config_node, try_except_ResourceException.
  destruct (config_node_body (ClusterNodeConfigCollector_init pve) node s)
    as [[[] | e] s1]; simpl in Hbody.
  - now exists s1.
  - destruct e; try contradiction.
    unfold dict_contains in Hnode.
    destruct (dict_get "node" node) as [nodeid |] eqn:En; [| discriminate].
    unfold log_scrape_failure, bind, lift. simpl. rewrite (getitem_some _ _ _ En).
    eexists. split; [reflexivity |]. exact Hbody.
Qed.

(** X6: when the guest listings and configurations of every node answer
    or fail with an API error, the config collector never raises: it
    returns its one family, as declared, whichever nodes failed. *)
Theorem config_collect_isolates_nodes (pve : ProxmoxAPI) (nodes : list dict)
  (s : state families) :
  nodes_get pve = Ok nodes ->
  Forall (fun node => dict_contains "node" node = true) nodes ->
  config_api_answers pve ->
  exists fam s',
    ClusterNodeConfigCollector_collect (ClusterNodeConfigCollector_init pve) s
    = (Ok [fam], s')
    /\ declaration fam
       = GaugeMetricFamily "pve_onboot_status" "Proxmox vm config onboot value"
           ["id"; "node"; "type"].
Proof.
  intros Hnodes Hkeys Hapi.
  unfold ClusterNodeConfigCollector_collect.
  change (self_pve (ClusterNodeConfigCollector_init pve)) with (Ok pve).
  unfold bind at 1, put_locals. unfold bind at 1, lift at 1.
  unfold bind at 1, api_call. rewrite Hnodes. cbn [locals log calls].
  assert (Hloop : forall t, config_inv t ->
            exists t', for_each nodes (config_node (ClusterNodeConfigCollector_init pve)) t
                       = (Ok tt, t') /\ config_inv t').
  { clear Hnodes. induction Hkeys as [| node nodes Hnode _ IH]; intros t Ht.
    - exists t. split; [reflexivity | exact Ht].
    - destruct (config_node_safe pve node t Hnode Hapi Ht) as [t1 [H1 Ht1]].
      destruct (IH t1 Ht1) as [t' [H' Ht']]. exists t'. split; [| exact Ht'].
      cbn [for_each]. now rewrite (bind_run _ _ _ _ _ H1). }
  destruct (Hloop {| locals := config_metrics; log := log s; calls := calls s ++ [GET_nodes] |})
    as [t' [Hrun [m [Hlocals Hdecl]]]].
  { eexists. split; reflexivity. }
  rewrite (bind_run _ _ _ _ _ Hrun). unfold bind, get_locals, ret. rewrite Hlocals.
  exists m, t'. split; [reflexivity | exact Hdecl].
Qed.

Lemma config_collect_isolates_nodes_witness :
  exists fam s',
    ClusterNodeConfigCollector_collect
      (ClusterNodeConfigCollector_init Examples.second_node_down) (start config_metrics)
    = (Ok [fam], s')
    /\ declaration fam
       = GaugeMetricFamily "pve_onboot_status" "Proxmox vm config onboot value"
           ["id"; "node"; "type"].
Proof.
  apply (config_collect_isolates_nodes Examples.second_node_down Examples.node_list
           (start config_metrics) eq_refl).
  - repeat constructor.
  - intro node. simpl. unfold Examples.on_node.
    destruct (py_eq node (PStr "pve1")); simpl; repeat split; trivial;
      intros guests H; inversion H; repeat constructor.
Defined.

(** X7: when the qemu guests of a node were gone through and its lxc
    listing then fails with an API error, the node's turn ends normally:
    the failure is logged under the module's logger with the node's name,
    and what the qemu guests added to the family stays. *)
Theorem config_node_keeps_partial (pve : ProxmoxAPI) (node : dict) (nodeid : pyval)
  (guests : list dict) (c : Z) (s s1 : state families) :
  dict_get "node" node = Some nodeid ->
  nodes_qemu_get pve nodeid = Ok guests ->
  for_each guests
    (config_guest "qemu" GET_nodes_qemu_config (nodes_qemu_config_get pve) node)
    {| locals := locals s; log := log s; calls := calls s ++ [GET_nodes_qemu nodeid] |}
  = (Ok tt, s1) ->
  nodes_lxc_get pve nodeid = Raise (ResourceException c) ->
  config_node (ClusterNodeConfigCollector_init pve) node s
  = (Ok tt,
     {| locals := locals s1;
        log := log s1 ++ [ {| lr_logger := "pve_exporter.collector";
                              lr_message := scrape_failed nodeid;
                              lr_exc_info := ResourceException c |} ];
        calls := calls s1 ++ [GET_nodes_lxc nodeid] |}).
Proof.
  intros Hnode Hqemu Hguests Hlxc.
  apply (config_node_isolates pve node nodeid c s
           {| locals := locals s1; log := log s1;
              calls := calls s1 ++ [GET_nodes_lxc nodeid] |} Hnode).
  unfold config_node_body.
  change (self_pve (ClusterNodeConfigCollector_init pve)) with (Ok pve).
  unfold bind at 1, lift at 1. unfold bind at 1, lift at 1.
  rewrite (getitem_some _ _ _ Hnode).
  unfold bind at 1, api_call at 1. rewrite Hqemu.
  unfold bind at 1. rewrite Hguests.
  unfold bind, lift, api_call. now rewrite Hlxc.
Qed.

Lemma config_node_keeps_partial_witness :
  config_node (ClusterNodeConfigCollector_init Examples.lxc_down)
    [("node", PStr "pve2"); ("status", PStr "online")] (start config_metrics)
  = (Ok tt,
     {| locals :=
          [("onboot",
            add_metric (GaugeMetricFamily "pve_onboot_status"
                          "Proxmox vm config onboot value" ["id"; "node"; "type"])
              [PStr "qemu/100"; PStr "pve2"; PStr "qemu"] (PInt 1))];
        log := [ {| lr_logger := "pve_exporter.collector";
                    lr_message :=
                      "Exception thrown while scraping quemu/lxc config from pve2";
                    lr_exc_info := ResourceException 595 |} ];
        calls := [ GET_nodes_qemu (PStr "pve2");
                   GET_nodes_qemu_config (PStr "pve2") (PInt 100);
                   GET_nodes_lxc (PStr "pve2") ] |}).
Proof.
  refine (config_node_keeps_partial Examples.lxc_down
            [("node", PStr "pve2"); ("status", PStr "online")]
            (PStr "pve2") [[("vmid", PInt 100)]] 595 (start config_metrics)
            {| locals :=
                 [("onboot",
                   add_metric (GaugeMetricFamily "pve_onboot_status"
                                 "Proxmox vm config onboot value" ["id"; "node"; "type"])
                     [PStr "qemu/100"; PStr "pve2"; PStr "qemu"] (PInt 1))];
               log := [];
               calls := [ GET_nodes_qemu (PStr "pve2");
                          GET_nodes_qemu_config (PStr "pve2") (PInt 100) ] |}
            eq_refl eq_refl eq_refl eq_refl).
Defined.

(** ** VolumesCollector: where the samples come from *)

Lemma volumes_storage_sound (pve : ProxmoxAPI) (nodes : list dict) (nodeid : pyval)
  (node storage : dict) (s s' : state volumes_locals) (u : unit) :
  In node nodes ->
  dict_get "node" node = Some nodeid ->
  lists pve node storage ->
  volume_family (disk_size (locals s)) ->
  Forall (volume_of pve nodes) (m_samples (disk_size (locals s))) ->
  volumes_storage pve nodeid node storage s = (Ok u, s') ->
  Forall (volume_of pve nodes) (m_samples (disk_size (locals s'))).
Proof.
  intros Hin Hnode Hlists Hfam Hall Hrun.
  destruct (volumes_storage_ok pve nodeid node storage s s' u Hnode Hfam Hrun)
    as [[-> _] | [[-> _] | [name [disks [Hret [Hname [_ [Hcontent [Hwf ->]]]]]]]]];
    [exact Hall | exact Hall |].
  simpl. apply Forall_app. split; [exact Hall |].
  apply Forall_forall. intros sample Hs. apply in_map_iff in Hs.
  destruct Hs as [disk [<- Hdisk]].
  exists node, nodeid, storage, name, disks, disk.
  repeat split; try assumption.
  - exact (proj1 (proj1 (Forall_forall _ _) Hwf disk Hdisk)).
  - exact (proj2 (proj1 (Forall_forall _ _) Hwf disk Hdisk)).
Qed.

(** X8: a volumes scrape that ends normally returns the one volume family,
    as declared, has logged nothing, and every sample of it stands for a
    volume: of a retained backend reported by a listed node, in the content
    the API gives for that backend through that node, with the id, node and
    storage labels and the size of that volume. *)
Theorem volumes_collect_samples_sound (pve : ProxmoxAPI) (nodes : list dict)
  (fams : list Metric) (s s' : state volumes_locals) :
  nodes_get pve = Ok nodes ->
  VolumesCollector_collect (VolumesCollector_init pve) s = (Ok fams, s') ->
  exists fam,
    fams = [fam]
    /\ declaration fam = disk_size volumes_fresh
    /\ log s' = log s
    /\ Forall (volume_of pve nodes) (m_samples fam).
Proof.
  intros Hnodes Hrun.
  assert (Hlog := volumes_collect_keeps_log pve s). rewrite Hrun in Hlog. simpl in Hlog.
  rewrite (volumes_collect_run pve nodes s Hnodes) in Hrun.
  destruct (for_each _ _ (begun s)) as [[[] | e] s1] eqn:Hloop; [| discriminate].
  inversion Hrun. subst fams s1. clear Hrun.
  exists (disk_size (locals s')). split; [reflexivity |].
  assert (Hinv : (volume_family (disk_size (locals s'))
                  /\ declaration (disk_size (locals s')) = disk_size volumes_fresh)
                 /\ Forall (volume_of pve nodes) (m_samples (disk_size (locals s')))).
  { apply (for_each_invariant
             (fun t => (volume_family (disk_size (locals t))
                        /\ declaration (disk_size (locals t)) = disk_size volumes_fresh)
                       /\ Forall (volume_of pve nodes) (m_samples (disk_size (locals t))))
             (volumes_node (VolumesCollector_init pve)) nodes)
      with (s := begun s) (u := tt);
      [| split; [split; [split; reflexivity | reflexivity] | constructor] | exact Hloop].
    intros node t t' Hin [[Ht Hd] Hall] Hnode.
    destruct (volumes_node_body_ok pve node t t' tt Hnode)
      as [nodeid [storages [Hid [Hlist Hstorages]]]].
    apply (for_each_invariant
             (fun r => (volume_family (disk_size (locals r))
                        /\ declaration (disk_size (locals r)) = disk_size volumes_fresh)
                       /\ Forall (volume_of pve nodes) (m_samples (disk_size (locals r))))
             (volumes_storage pve nodeid node) storages)
      with (s := listed t nodeid) (u := tt);
      [| split; [split; [exact Ht | exact Hd] | exact Hall] | exact Hstorages].
    intros st r r' Hst [[Hr Hdr] Hallr] Hstep. split; [split |].
    - exact (volumes_storage_keeps_family pve nodeid node st r r' tt Hid Hr Hstep).
    - destruct (volumes_storage_ok pve nodeid node st r r' tt Hid Hr Hstep)
        as [[-> _] | [[-> _] | [name [disks [_ [_ [_ [_ [_ ->]]]]]]]]]; exact Hdr.
    - apply (volumes_storage_sound pve nodes nodeid node st r r' tt Hin Hid); auto.
      now exists nodeid, storages. }
  destruct Hinv as [[_ Hd] Hall]. auto.
Qed.

Lemma volumes_collect_samples_sound_witness :
  exists fam s',
    VolumesCollector_collect (VolumesCollector_init Examples.shared_ceph)
      (start volumes_fresh) = (Ok [fam], s')
    /\ declaration fam = disk_size volumes_fresh
    /\ log s' = []
    /\ Forall (volume_of Examples.shared_ceph Examples.node_list) (m_samples fam).
Proof.
  destruct (VolumesCollector_collect (VolumesCollector_init Examples.shared_ceph)
              (start volumes_fresh)) as [r s'] eqn:Hrun.
  assert (Hok : exists fams, r = Ok fams).
  { vm_compute in Hrun. inversion Hrun. eauto. }
  destruct Hok as [fams ->].
  destruct (volumes_collect_samples_sound Examples.shared_ceph Examples.node_list
              fams (start volumes_fresh) s' eq_refl Hrun)
    as [fam [-> [Hd [Hlog Hall]]]].
  exists fam, s'. auto.
Defined.

(** ** The pattern of the metrics block *)

Lemma run_star_eq (c : Re.charclass) (rest : list Re.item) (s : list N) :
  Re.run (Re.Star c :: rest) s
  = match s with
    | a :: r =>
        if Re.class_ok c a
        then Re.or_else (Re.run (Re.Star c :: rest) r) (Re.run rest s)
        else Re.run rest s
    | [] => Re.run rest s
    end.
Proof. destruct s; reflexivity. Qed.

Lemma run_plus_eq (c : Re.charclass) (rest : list Re.item) (s : list N) :
  Re.run (Re.Plus c :: rest) s
  = match s with
    | a :: r => if Re.class_ok c a then Re.run (Re.Star c :: rest) r else None
    | [] => None
    end.
Proof. destruct s; reflexivity. Qed.

Lemma run_lazy_eq (c : Re.charclass) (rest : list Re.item) (s : list N) :
  Re.run (Re.LazyStar c :: rest) s
  = Re.or_else (Re.run rest s)
      match s with
      | a :: r => if Re.class_ok c a then Re.run (Re.LazyStar c :: rest) r else None
      | [] => None
      end.
Proof. destruct s; reflexivity. Qed.

Lemma run_open_eq (rest : list Re.item) (s : list N) :
  Re.run (Re.GroupOpen :: rest) s
  = option_map (fun x => {| Re.match_end := Re.match_end x;
                            Re.group_start := s;
                            Re.group_end := Re.group_end x |})
               (Re.run rest s).
Proof. reflexivity. Qed.

Lemma run_close_eq (rest : list Re.item) (s : list N) :
  Re.run (Re.GroupClose :: rest) s
  = option_map (fun x => {| Re.match_end := Re.match_end x;
                            Re.group_start := Re.group_start x;
                            Re.group_end := s |})
               (Re.run rest s).
Proof. reflexivity. Qed.

Lemma strip_prefix_sound (p s s' : list N) :
  Re.strip_prefix p s = Some s' -> s = p ++ s'.
Proof.
  revert s. induction p as [| a p IH]; intros s H; simpl in *.
  - now inversion H.
  - destruct s as [| b s]; [discriminate |].
    destruct (N.eqb a b) eqn:E; [| discriminate].
    apply N.eqb_eq in E. subst b. now rewrite (IH s H).
Qed.

Lemma run_lit_sound (text : list N) (rest : list Re.item) (s : list N) (m : Re.span) :
  Re.run (Re.Lit text :: rest) s = Some m ->
  exists s', s = text ++ s' /\ Re.run rest s' = Some m.
Proof.
  cbn [Re.run]. destruct (Re.strip_prefix text s) as [s' |] eqn:E; [| discriminate].
  intro H. exists s'. split; [exact (strip_prefix_sound _ _ _ E) | exact H].
Qed.

Lemma run_star_sound (c : Re.charclass) (rest : list Re.item) (s : list N) (m : Re.span) :
  Re.run (Re.Star c :: rest) s = Some m ->
  exists w s',
    s = w ++ s' /\ forallb (Re.class_ok c) w = true /\ Re.run rest s' = Some m.
Proof.
  induction s as [| a r IH]; rewrite run_star_eq; intro H.
  - exists [], []. auto.
  - destruct (Re.class_ok c a) eqn:Ec.
    + destruct (Re.run (Re.Star c :: rest) r) as [m' |] eqn:Er; simpl in H.
      * inversion H. subst m'. destruct (IH eq_refl) as [w [s' [-> [Hw Hr]]]].
        exists (a :: w), s'. simpl. rewrite Ec, Hw. auto.
      * exists [], (a :: r). auto.
    + exists [], (a :: r). auto.
Qed.

Lemma run_plus_sound (c : Re.charclass) (rest : list Re.item) (s : list N) (m : Re.span) :
  Re.run (Re.Plus c :: rest) s = Some m ->
  exists w s',
    s = w ++ s' /\ w <> [] /\ forallb (Re.class_ok c) w = true
    /\ Re.run rest s' = Some m.
Proof.
  rewrite run_plus_eq. destruct s as [| a r]; [discriminate |].
  destruct (Re.class_ok c a) eqn:Ec; [| discriminate].
  intro H. destruct (run_star_sound c rest r m H) as [w [s' [-> [Hw Hr]]]].
  exists (a :: w), s'. simpl. rewrite Ec, Hw. repeat split; [discriminate | exact Hr].
Qed.

(** A lazy repetition stops at the first place where the rest matches. *)
Lemma run_lazy_sound (c : Re.charclass) (rest : list Re.item) (s : list N) (m : Re.span) :
  Re.run (Re.LazyStar c :: rest) s = Some m ->
  exists w s',
    s = w ++ s'
    /\ Re.run rest s' = Some m
    /\ forall p q, w = p ++ q -> q <> [] -> Re.run rest (q ++ s') = None.
Proof.
  induction s as [| a r IH]; rewrite run_lazy_eq; intro H.
  - destruct (Re.run rest []) as [m' |] eqn:E; simpl in H; [| discriminate].
    exists [], []. split; [reflexivity |]. split; [congruence |].
    intros p q Hpq Hq. destruct p; [simpl in Hpq; now subst q | discriminate].
  - destruct (Re.run rest (a :: r)) as [m' |] eqn:E; simpl in H.
    + exists [], (a :: r). split; [reflexivity |]. split; [congruence |].
      intros p q Hpq Hq. destruct p; [simpl in Hpq; now subst q | discriminate].
    + destruct (Re.class_ok c a); [| discriminate].
      destruct (IH H) as [w [s' [-> [Hr Hfirst]]]].
      exists (a :: w), s'. split; [reflexivity |]. split; [exact Hr |].
      intros p q Hpq Hq. destruct p as [| b p]; simpl in Hpq.
      * subst q. exact E.
      * inversion Hpq. subst. exact (Hfirst p q eq_refl Hq).
Qed.

Lemma firstn_head {A : Type} (a b : list A) :
  firstn (length (a ++ b) - length b) (a ++ b) = a.
Proof.
  rewrite length_app, Nat.add_sub.
  induction a as [| x a IH]; simpl; [now destruct b | now rewrite IH].
Qed.

(** The white space of a pattern, code point by code point. *)
Lemma is_space_spec (cp : N) :
  Re.is_space cp = true
  <-> (9 <= cp <= 13 \/ 28 <= cp <= 32 \/ cp = 133 \/ cp = 160 \/ cp = 5760
       \/ 8192 <= cp <= 8202 \/ cp = 8232 \/ cp = 8233 \/ cp = 8239 \/ cp = 8287
       \/ cp = 12288)%N.
Proof.
  unfold Re.is_space.
  rewrite !orb_true_iff, !andb_true_iff, !N.leb_le, !N.eqb_eq. tauto.
Qed.

(** X9: when the notes hold a block for the collector, their code points
    are: one or more "#", then white space if any, the words "Prometheus
    metrics", white space if any, and the opening fence; the block is the
    text of what stands between that fence and the first closing fence
    after it.  White space is what [str.isspace] holds of, the no-break
    space and the other spaces beyond ASCII included. *)
Theorem metrics_block_decomposition (text block : string) :
  match_metrics_block (PStr text) = Ok (Some block) ->
  exists hashes ws1 ws2 inner rest,
    Utf8.code_points text
    = hashes ++ ws1 ++ Utf8.code_points "Prometheus metrics" ++ ws2
      ++ Utf8.code_points backticks ++ inner ++ Utf8.code_points backticks ++ rest
    /\ block = Utf8.encode inner
    /\ hashes <> []
    /\ forallb (N.eqb (N_of_ascii "#")) hashes = true
    /\ forallb Re.is_space ws1 = true
    /\ forallb Re.is_space ws2 = true
    /\ (forall p q,
           inner = p ++ q -> q <> [] ->
           Re.strip_prefix (Utf8.code_points backticks)
             (q ++ Utf8.code_points backticks ++ rest) = None)
    /\ (forall cp,
           Re.is_space cp = true
           <-> (9 <= cp <= 13 \/ 28 <= cp <= 32 \/ cp = 133 \/ cp = 160 \/ cp = 5760
                \/ 8192 <= cp <= 8202 \/ cp = 8232 \/ cp = 8233 \/ cp = 8239
                \/ cp = 8287 \/ cp = 12288)%N).
Proof.
  unfold match_metrics_block, Re.re_match, metrics_block_pattern. intro H.
  destruct (Re.run _ (Utf8.code_points text)) as [m |] eqn:Hrun; [| discriminate].
  cbn [option_map] in H. injection H as Hblock.
  apply run_plus_sound in Hrun. destruct Hrun as [hashes [s1 [-> [Hne [Hh Hrun]]]]].
  apply run_star_sound in Hrun. destruct Hrun as [ws1 [s2 [-> [Hw1 Hrun]]]].
  apply run_lit_sound in Hrun. destruct Hrun as [s3 [-> Hrun]].
  apply run_star_sound in Hrun. destruct Hrun as [ws2 [s4 [-> [Hw2 Hrun]]]].
  apply run_lit_sound in Hrun. destruct Hrun as [s5 [-> Hrun]].
  rewrite run_open_eq in Hrun.
  destruct (Re.run (Re.LazyStar Re.CAny :: Re.GroupClose
                      :: Re.Lit (Utf8.code_points backticks) :: []) s5)
    as [m0 |] eqn:Hlazy; [| discriminate].
  cbn [option_map] in Hrun. injection Hrun as <-.
  apply run_lazy_sound in Hlazy. destruct Hlazy as [w [s6 [-> [Hclose Hfirst]]]].
  rewrite run_close_eq in Hclose.
  destruct (Re.run [Re.Lit (Utf8.code_points backticks)] s6) as [m1 |] eqn:Hfence;
    [| discriminate].
  cbn [option_map] in Hclose. injection Hclose as <-.
  apply run_lit_sound in Hfence. destruct Hfence as [rest [-> _]].
  unfold Re.group1 in Hblock. cbn [Re.group_start Re.group_end] in Hblock.
  rewrite firstn_head in Hblock.
  exists hashes, ws1, ws2, w, rest.
  split; [reflexivity |]. split; [now symmetry |]. split; [exact Hne |].
  split; [exact Hh |]. split; [exact Hw1 |]. split; [exact Hw2 |].
  split; [| exact is_space_spec].
  intros p q Hpq Hq. specialize (Hfirst p q Hpq Hq). rewrite run_close_eq in Hfirst.
  cbn [Re.run] in Hfirst.
  destruct (Re.strip_prefix (Utf8.code_points backticks)
              (q ++ Utf8.code_points backticks ++ rest));
    [discriminate | reflexivity].
Qed.

Lemma metrics_block_decomposition_witness :
  exists hashes ws1 ws2 inner rest,
    Utf8.code_points Examples.notes_wide_spaces
    = hashes ++ ws1 ++ Utf8.code_points "Prometheus metrics" ++ ws2
      ++ Utf8.code_points backticks ++ inner ++ Utf8.code_points backticks ++ rest
    /\ Examples.foo_payload = Utf8.encode inner
    /\ hashes <> []
    /\ forallb Re.is_space ws1 = true
    /\ forallb Re.is_space ws2 = true.
Proof.
  destruct (metrics_block_decomposition Examples.notes_wide_spaces Examples.foo_payload)
    as [hashes [ws1 [ws2 [inner [rest [Htext [Hblock [Hne [_ [Hw1 [Hw2 _]]]]]]]]]]].
  - vm_compute. reflexivity.
  - exists hashes, ws1, ws2, inner, rest. auto.
Defined.

(** ** ClusterCustomMetricsCollector: what ends the scrape *)

(** X10: the notes collector returns no family when the cluster options
    have no description; it raises what the options request raises, a type
    error when the description is not a string, and what the parser raises
    on the block. *)
Theorem custom_metrics_failures (parser : string -> result (list Metric))
  (pve : ProxmoxAPI) :
  (forall e, cluster_options_get pve = Raise e ->
             ClusterCustomMetricsCollector_collect parser
               (ClusterCustomMetricsCollector_init pve) = Raise e)
  /\ (forall options,
         cluster_options_get pve = Ok options ->
         dict_get "description" options = None ->
         ClusterCustomMetricsCollector_collect parser
           (ClusterCustomMetricsCollector_init pve) = Ok [])
  /\ (forall options v,
         cluster_options_get pve = Ok options ->
         dict_get "description" options = Some v ->
         (forall text, v <> PStr text) ->
         exists msg,
           ClusterCustomMetricsCollector_collect parser
             (ClusterCustomMetricsCollector_init pve) = Raise (TypeError msg))
  /\ (forall options text e,
         cluster_options_get pve = Ok options ->
         match_metrics_block (dict_get_default options "description" (PStr ""))
         = Ok (Some text) ->
         parser text = Raise e ->
         ClusterCustomMetricsCollector_collect parser
           (ClusterCustomMetricsCollector_init pve) = Raise e).
Proof.
  unfold ClusterCustomMetricsCollector_collect, ClusterCustomMetricsCollector_init.
  change (self_pve [("_pve", AttrAPI pve)]) with (Ok pve). cbn [rbind].
  split; [| split; [| split]].
  - intros e ->. reflexivity.
  - intros options -> Hnone. cbn [rbind]. unfold dict_get_default. rewrite Hnone.
    unfold match_metrics_block, Re.re_match, metrics_block_pattern.
    now rewrite run_plus_empty.
  - intros options v -> Hv Hnot. cbn [rbind]. unfold dict_get_default. rewrite Hv.
    destruct v as [| b | z | text]; simpl; eauto. now destruct (Hnot text).
  - intros options text e -> Hmatch Hparse. cbn [rbind]. rewrite Hmatch. cbn [rbind].
    now rewrite Hparse.
Qed.

Lemma custom_metrics_failures_witness :
  ClusterCustomMetricsCollector_collect Examples.parse_foo
    (ClusterCustomMetricsCollector_init Examples.healthy) = Ok []
  /\ ClusterCustomMetricsCollector_collect Examples.parse_foo
       (ClusterCustomMetricsCollector_init Examples.offline)
     = Raise (ResourceException 501).
Proof.
  split.
  - apply (proj1 (proj2 (custom_metrics_failures Examples.parse_foo Examples.healthy))
             [] eq_refl eq_refl).
  - apply (proj1 (custom_metrics_failures Examples.parse_foo Examples.offline)
             (ResourceException 501) eq_refl).
Defined.

(** ** The dispatcher *)

Section DispatcherFacts.

Variable parser : string -> result (list Metric).
Variable render : Metric -> result string.
Variable connect : string -> dict -> result ProxmoxAPI.

Lemma string_app_empty (s : string) : (s ++ "")%string = s.
Proof. induction s as [| a s IH]; simpl; [reflexivity | now rewrite IH]. Qed.

(** A registry with a collector that raises whatever the world raises. *)
Lemma generate_latest_raises (registry : list collector) :
  Exists (fun c => forall w, exists e w', collect_of parser c w = (Raise e, w')) registry ->
  forall w, exists e w', generate_latest parser render registry w = (Raise e, w').
Proof.
  induction 1 as [c rest Hc | c rest _ IH]; intro w; cbn [generate_latest].
  - destruct (Hc w) as [e [w' ->]]. now exists e, w'.
  - destruct (collect_of parser c w) as [[ms | e] w1]; [| now exists e, w1].
    destruct (render_all render ms) as [text | e]; [| now exists e, w1].
    destruct (IH w1) as [e [w' ->]]. now exists e, w'.
Qed.

Lemma volumes_collect_raises (pve : ProxmoxAPI) (nodes : list dict) (node : dict)
  (nodeid : pyval) (c : Z) (s : state volumes_locals) :
  nodes_get pve = Ok nodes ->
  In node nodes ->
  dict_get "node" node = Some nodeid ->
  nodes_storage_get pve nodeid = Raise (ResourceException c) ->
  exists e s', VolumesCollector_collect (VolumesCollector_init pve) s = (Raise e, s').
Proof.
  intros Hnodes Hin Hnode Hdown.
  rewrite (volumes_collect_run pve nodes s Hnodes).
  destruct (for_each_raises (fun _ => True)
              (volumes_node (VolumesCollector_init pve)) nodes) with (s := begun s)
    as [e [s' [Hrun _]]].
  - trivial.
  - apply Exists_exists. exists node. split; [exact Hin |].
    intro t. eexists. eexists.
    apply (volumes_node_unreachable pve node nodeid c t Hnode Hdown).
  - exists e, s'. now rewrite Hrun.
Qed.

(** X11: the notes collector is registered first whatever the options:
    when it raises, the scrape raises the same before any other collector
    ran; and with every option off the scrape is the rendering of its
    families and of nothing else. *)
Theorem collect_pve_notes_first (config : dict) (host : string) (pve : ProxmoxAPI)
  (w : world) :
  connect host config = Ok pve ->
  (forall options e,
      ClusterCustomMetricsCollector_collect parser (ClusterCustomMetricsCollector_init pve)
      = Raise e ->
      collect_pve parser render connect config host options w = (Raise e, w))
  /\ (forall options,
         CollectorsOptions.status options = false ->
         CollectorsOptions.version options = false ->
         CollectorsOptions.node options = false ->
         CollectorsOptions.cluster options = false ->
         CollectorsOptions.resources options = false ->
         CollectorsOptions.config options = false ->
         CollectorsOptions.volumes options = false ->
         collect_pve parser render connect config host options w
         = (rbind (ClusterCustomMetricsCollector_collect parser
                     (ClusterCustomMetricsCollector_init pve))
                  (render_all render),
            w)).
Proof.
  intro Hconnect. unfold collect_pve. rewrite Hconnect. split.
  - intros options e Hraise. unfold registered. cbn [app generate_latest collect_of].
    now rewrite Hraise.
  - intros options H1 H2 H3 H4 H5 H6 H7. unfold registered.
    rewrite H1, H2, H3, H4, H5, H6, H7.
    cbn [app generate_latest collect_of].
    destruct (ClusterCustomMetricsCollector_collect parser _) as [ms | e]; [| reflexivity].
    cbn [rbind]. destruct (render_all render ms) as [text | e]; [| reflexivity].
    now rewrite string_app_empty.
Qed.

(** X12: with the volumes collector switched on, a node whose storage
    listing fails with an API error makes the whole scrape raise, whatever
    the other options are and whatever the other collectors gathered. *)
Theorem collect_pve_fails_on_unreachable_node (config : dict) (host : string)
  (pve : ProxmoxAPI) (options : CollectorsOptions.t) (nodes : list dict) (node : dict)
  (nodeid : pyval) (c : Z) (w : world) :
  connect host config = Ok pve ->
  CollectorsOptions.volumes options = true ->
  nodes_get pve = Ok nodes ->
  In node nodes ->
  dict_get "node" node = Some nodeid ->
  nodes_storage_get pve nodeid = Raise (ResourceException c) ->
  exists e w', collect_pve parser render connect config host options w = (Raise e, w').
Proof.
  intros Hconnect Hvolumes Hnodes Hin Hnode Hdown.
  unfold collect_pve. rewrite Hconnect.
  apply generate_latest_raises. apply Exists_exists.
  exists (VolumesCollector (VolumesCollector_init pve)). split.
  - unfold registered. rewrite Hvolumes. repeat (apply in_or_app; right). now left.
  - intro w0. cbn [collect_of]. unfold run_in.
    destruct (volumes_collect_raises pve nodes node nodeid c
                {| locals := volumes_fresh; log := w_log w0; calls := w_calls w0 |}
                Hnodes Hin Hnode Hdown) as [e [s' Hrun]].
    rewrite Hrun. simpl. eauto.
Qed.

End DispatcherFacts.

Lemma collect_pve_notes_first_witness :
  collect_pve Examples.parse_foo Examples.render_name
    (fun _ _ => Ok (Examples.with_notes Examples.notes_heading_first))
    [] "pve.example.org" Examples.none_enabled Examples.nothing_yet
  = (Ok ("pve_foo" ++ Examples.newline)%string, Examples.nothing_yet)
  /\ collect_pve Examples.parse_foo Examples.render_name
       (fun _ _ => Ok Examples.offline)
       [] "pve.example.org" Examples.all_enabled Examples.nothing_yet
     = (Raise (ResourceException 501), Examples.nothing_yet).
Proof.
  split.
  - rewrite (proj2 (collect_pve_notes_first Examples.parse_foo Examples.render_name
                      (fun _ _ => Ok (Examples.with_notes Examples.notes_heading_first))
                      [] "pve.example.org"
                      (Examples.with_notes Examples.notes_heading_first)
                      Examples.nothing_yet eq_refl)
               Examples.none_enabled eq_refl eq_refl eq_refl eq_refl eq_refl eq_refl
               eq_refl).
    vm_compute. reflexivity.
  - apply (proj1 (collect_pve_notes_first Examples.parse_foo Examples.render_name
                    (fun _ _ => Ok Examples.offline) [] "pve.example.org"
                    Examples.offline Examples.nothing_yet eq_refl)).
    reflexivity.
Defined.

Lemma collect_pve_fails_on_unreachable_node_witness :
  exists e w',
    collect_pve Examples.parse_foo Examples.render_name
      (fun _ _ => Ok Examples.second_node_down)
      [] "pve.example.org" Examples.all_enabled Examples.nothing_yet
    = (Raise e, w').
Proof.
  apply (collect_pve_fails_on_unreachable_node Examples.parse_foo Examples.render_name
           (fun _ _ => Ok Examples.second_node_down) [] "pve.example.org"
           Examples.second_node_down Examples.all_enabled Examples.node_list
           [("node", PStr "pve2"); ("status", PStr "online")] (PStr "pve2") 595
           Examples.nothing_yet eq_refl eq_refl eq_refl).
  - simpl. tauto.
  - reflexivity.
  - reflexivity.
Defined.
